(** * Skeletal skinning component

    A shallow embedding of [minko/component/Skinning.cpp]: the bone vertex
    buffer builder, the attachment lifecycle handlers, the frame update and
    the software blending loop, followed by the properties of the design
    document that can be stated over it.

    Conventions.
    - [unsigned int] values are [N] with the 32-bit wrap-around written out.
    - [float] is an abstract carrier with the operations the code uses
      ([FloatOps]); every structural result holds for any interpretation of
      these operations, and the results that need arithmetic laws
      ([FloatLaws]) hold of exact arithmetic and of IEEE binary32 alike.
    - [std::vector<float>] is [list F]; [operator[]] outside the vector is
      undefined behaviour and is modelled by [None] / [Undefined].
    - [std::unordered_map<Node::Ptr, T>] is [gmap Node T].
    - shared pointers to geometries and vertex buffers are references into
      an explicit store, so that aliasing is visible. *)

From stdpp Require Import gmap strings list fin_maps.
From Stdlib Require Import NArith ZArith Lia.
From Stdlib Require Floats.SpecFloat.

Local Open Scope N_scope.

(** ** Machine integers *)

Definition uint := N.

Definition UINT_RANGE : N := 4294967296.

Definition to_uint (n : N) : uint := n mod UINT_RANGE.

Definition uint_add (a b : uint) : uint := to_uint (a + b).

Definition uint_mul (a b : uint) : uint := to_uint (a * b).

Definition uint_shl (a : uint) (k : N) : uint := to_uint (N.shiftl a k).

Definition uint_shr (a : uint) (k : N) : uint := N.shiftr a k.

(** ** Vectors *)

Definition vec_get {A} (v : list A) (i : N) : option A := v !! N.to_nat i.

Definition vec_set {A} (v : list A) (i : N) (x : A) : option (list A) :=
  if decide (i < N.of_nat (length v)) then Some (<[N.to_nat i := x]> v) else None.

(** [for (i = start; i < start + count; ++i) body], threading the loop
    state and stopping at the first undefined step. *)
Fixpoint for_range {S} (start : N) (count : nat)
    (body : N → S → option S) (s : S) : option S :=
  match count with
  | O => Some s
  | Datatypes.S c => s' ← body start s; for_range (N.succ start) c body s'
  end.

(** ** Single-precision arithmetic, as an interface *)

Class FloatOps (F : Type) := {
  fzero : F;                 (* 0.0f *)
  fone : F;                  (* 1.0f *)
  f_1e_6 : F;                (* 1e-6f *)
  fadd : F → F → F;
  fmul : F → F → F;
  fsub : F → F → F;
  fltb : F → F → bool;       (* operator< *)
  f_of_uint : uint → F;      (* (float) of an unsigned int *)
  f_of_clock : Z → F;        (* (float) of a clock_t *)
}.

(** What the laws of the arithmetic are stated with: when two floats are
    the same number, which floats are numbers of the format, and which of
    them are finite. *)
Class FloatRel (F : Type) := {
  feq : F → F → Prop;
  fvalid : F → Prop;
  ffinite : F → Prop;
}.

(** A finite number of the format. *)
Definition fnumber {F : Type} `{FloatRel F} (x : F) : Prop := fvalid x ∧ ffinite x.

(** The unit and zero laws the blend relies on.  They hold of exact
    arithmetic with equality, and of IEEE binary32 when zeros of either sign
    are taken as the same number. *)
Class FloatLaws (F : Type) `{FloatOps F, FloatRel F} : Prop := {
  feq_refl : ∀ x : F, feq x x;
  feq_sym : ∀ x y : F, feq x y → feq y x;
  feq_trans : ∀ x y z : F, feq x y → feq y z → feq x z;
  fvalid_feq : ∀ x y : F, feq x y → fvalid x → fvalid y;
  fvalid_zero : fvalid fzero;
  fadd_valid : ∀ x y : F, fvalid x → fvalid y → fvalid (fadd x y);
  fadd_feq : ∀ x x' y y' : F, feq x x' → feq y y' → feq (fadd x y) (fadd x' y');
  fadd_0_l : ∀ x : F, feq (fadd fzero x) x;
  fadd_0_r : ∀ x : F, feq (fadd x fzero) x;
  fmul_1_l : ∀ x : F, fvalid x → feq (fmul fone x) x;
  fmul_0_l : ∀ x : F, fvalid x → ffinite x → feq (fmul fzero x) fzero;
}.

(** Integers as an exact carrier.  No integer is [1e-6f]; the only use of
    the constant is the comparison [duration < 1e-6f] of line 140, which an
    integer duration satisfies exactly when it is below 1, so that the
    threshold is 1 here. *)
Definition Z_FloatOps : FloatOps Z := {|
  fzero := 0%Z; fone := 1%Z; f_1e_6 := 1%Z;
  fadd := Z.add; fmul := Z.mul; fsub := Z.sub; fltb := Z.ltb;
  f_of_uint := Z.of_N; f_of_clock := λ t, t;
|}.

Definition Z_FloatRel : FloatRel Z := {|
  feq := eq; fvalid := λ _, True; ffinite := λ _, True;
|}.

(** IEEE binary32, through the standard library's executable
    specification of floating-point numbers. *)
Module Binary32.
Import Floats.SpecFloat.

Definition prec : Z := 24.
Definition emax : Z := 128.

Definition ops : FloatOps spec_float := {|
  fzero := S754_zero false;
  fone := S754_finite false 8388608 (-23);
  f_1e_6 := S754_finite false 8796093 (-43);
  fadd := SFadd prec emax;
  fmul := SFmul prec emax;
  fsub := SFsub prec emax;
  fltb := SFltb;
  f_of_uint := λ n, binary_normalize prec emax (Z.of_N n) 0 false;
  f_of_clock := λ t, binary_normalize prec emax t 0 false;
|}.

(** Equal, or zeros of either sign. *)
Definition same_number (x y : spec_float) : Prop :=
  x = y ∨ ∃ s s', x = S754_zero s ∧ y = S754_zero s'.

(** Neither an infinity nor a NaN. *)
Definition is_finite (x : spec_float) : Prop :=
  match x with S754_zero _ | S754_finite _ _ _ => True | _ => False end.

Definition rel : FloatRel spec_float := {|
  feq := same_number;
  fvalid := λ x, valid_binary prec emax x = true;
  ffinite := is_finite;
|}.
End Binary32.

Definition Node := positive.
Definition Ref := positive.

Section Skinning.

Context {F : Type} `{FloatOps F}.

(** ** The animation data source *)

(** Modelled from the spec: the class [Skin] (minko/geometry/Skin.hpp) is
    not part of the sources.  Per vertex it holds a list of (boneId, weight)
    pairs, per frame a flat array of 16 floats per bone. *)
Record Skin := mkSkin {
  numBones : uint;
  duration : F;
  vertexBones : list (list (uint * F));
  frames : list (list F);
  getFrameId : F → uint;
}.

Definition numVertices (sk : Skin) : uint := N.of_nat (length (vertexBones sk)).

Definition numFrames (sk : Skin) : uint := N.of_nat (length (frames sk)).

Definition bonesOf (sk : Skin) (vId : uint) : list (uint * F) :=
  default [] (vertexBones sk !! N.to_nat vId).

Definition numVertexBones (sk : Skin) (vId : uint) : uint :=
  N.of_nat (length (bonesOf sk vId)).

Definition maxNumVertexBones (sk : Skin) : uint :=
  foldr (λ l m, N.max (N.of_nat (length l)) m) 0 (vertexBones sk).

Definition vertexBoneData (sk : Skin) (vId j : uint) : option (uint * F) :=
  bonesOf sk vId !! N.to_nat j.

Definition vertexBoneId (sk : Skin) (vId j : uint) : option uint :=
  fst <$> vertexBoneData sk vId j.

Definition vertexBoneWeight (sk : Skin) (vId j : uint) : option F :=
  snd <$> vertexBoneData sk vId j.

Definition matrices (sk : Skin) (frameId : uint) : option (list F) :=
  frames sk !! N.to_nat frameId.

(** ** Vertex buffers *)

(** [std::tuple<std::string, unsigned int, unsigned int>]: name, size, offset. *)
Definition Attribute : Type := string * uint * uint.

Definition attr_name (a : Attribute) : string := a.1.1.
Definition attr_size (a : Attribute) : uint := a.1.2.
Definition attr_offset (a : Attribute) : uint := a.2.

(** Modelled from the spec: the class [VertexBuffer]
    (minko/render/VertexBuffer.hpp) is not part of the sources.  It exposes
    raw float storage, named attributes and the stride. *)
Record VertexBuffer := mkVertexBuffer {
  data : list F;
  attributes : list Attribute;
  vertexSize : uint;
}.

Definition vb_numVertices (vb : VertexBuffer) : uint :=
  if decide (vertexSize vb = 0) then 0
  else N.of_nat (length (data vb)) / vertexSize vb.

Definition addAttribute (name : string) (size offset : uint)
    (vb : VertexBuffer) : VertexBuffer :=
  {| data := data vb;
     attributes := attributes vb ++ [(name, size, offset)];
     vertexSize := uint_add (vertexSize vb) size |}.

Definition set_data (vb : VertexBuffer) (d : list F) : VertexBuffer :=
  {| data := d; attributes := attributes vb; vertexSize := vertexSize vb |}.

(** ** Software skinning of one attribute *)

(** One iteration of the loop over the bones of a vertex (lines 384-402). *)
Definition blendBone (boneMatrices : list F) (doDeltaTransform : bool)
    (x1 y1 z1 : F) (bone : uint * F) (acc : F * F * F) : option (F * F * F) :=
  let '(boneId, boneWeight) := bone in
  let '(x2, y2, z2) := acc in
  let base := uint_shl boneId 4 in
  let boneMatrix k := vec_get boneMatrices (base + k) in
  if negb doDeltaTransform then
    m0 ← boneMatrix 0; m1 ← boneMatrix 1; m2 ← boneMatrix 2; m3 ← boneMatrix 3;
    m4 ← boneMatrix 4; m5 ← boneMatrix 5; m6 ← boneMatrix 6; m7 ← boneMatrix 7;
    m8 ← boneMatrix 8; m9 ← boneMatrix 9; m10 ← boneMatrix 10; m11 ← boneMatrix 11;
    Some (fadd x2 (fmul boneWeight (fadd (fadd (fadd (fmul m0 x1) (fmul m1 y1)) (fmul m2 z1)) m3)),
          fadd y2 (fmul boneWeight (fadd (fadd (fadd (fmul m4 x1) (fmul m5 y1)) (fmul m6 z1)) m7)),
          fadd z2 (fmul boneWeight (fadd (fadd (fadd (fmul m8 x1) (fmul m9 y1)) (fmul m10 z1)) m11)))
  else
    m0 ← boneMatrix 0; m1 ← boneMatrix 1; m2 ← boneMatrix 2;
    m4 ← boneMatrix 4; m5 ← boneMatrix 5; m6 ← boneMatrix 6;
    m8 ← boneMatrix 8; m9 ← boneMatrix 9; m10 ← boneMatrix 10;
    Some (fadd x2 (fmul boneWeight (fadd (fadd (fmul m0 x1) (fmul m1 y1)) (fmul m2 z1))),
          fadd y2 (fmul boneWeight (fadd (fadd (fmul m4 x1) (fmul m5 y1)) (fmul m6 z1))),
          fadd z2 (fmul boneWeight (fadd (fadd (fmul m8 x1) (fmul m9 y1)) (fmul m10 z1)))).

(** The loop [for (j = 0; j < numVertexBones; ++j)] (lines 382-403). *)
Definition blendVertex (sk : Skin) (boneMatrices : list F) (doDeltaTransform : bool)
    (vId : uint) (x1 y1 z1 : F) : option (F * F * F) :=
  for_range 0 (N.to_nat (numVertexBones sk vId))
    (λ j acc, bone ← vertexBoneData sk vId j;
              blendBone boneMatrices doDeltaTransform x1 y1 z1 bone acc)
    (fzero, fzero, fzero).

(** The body of the loop over the vertices (lines 373-409); the loop state
    is the running [index] and the output vector. *)
Definition skinVertex (sk : Skin) (inputData boneMatrices : list F)
    (doDeltaTransform : bool) (vertexSize : uint) (vId : uint)
    (st : uint * list F) : option (uint * list F) :=
  let '(index, outputData) := st in
  x1 ← vec_get inputData index;
  y1 ← vec_get inputData (uint_add index 1);
  z1 ← vec_get inputData (uint_add index 2);
  '(x2, y2, z2) ← blendVertex sk boneMatrices doDeltaTransform vId x1 y1 z1;
  outputData ← vec_set outputData index x2;
  outputData ← vec_set outputData (uint_add index 1) y2;
  outputData ← vec_set outputData (uint_add index 2) z2;
  Some (uint_add index vertexSize, outputData).

(** [Skinning::performSoftwareSkinning(attr, vertexBuffer, inputData,
    boneMatrices, doDeltaTransform)] (lines 348-413).  The upload to the
    rendering backend has no effect on the modelled state. *)
Definition performSoftwareSkinningAttr (sk : Skin) (attr : Attribute)
    (vertexBuffer : VertexBuffer) (inputData boneMatrices : list F)
    (doDeltaTransform : bool) : option VertexBuffer :=
  let vertexSize := vertexSize vertexBuffer in
  let outputData := data vertexBuffer in
  if decide (vertexSize = 0) then None else
  let numVertices := to_uint (N.of_nat (length outputData) / vertexSize) in
  let index := attr_offset attr in
  '(_, outputData) ← for_range 0 (N.to_nat numVertices)
      (skinVertex sk inputData boneMatrices doDeltaTransform vertexSize)
      (index, outputData);
  Some (set_data vertexBuffer outputData).

(** ** The component and the objects it shares *)

(** Modelled from the spec: the enumeration [SkinningMethod] is declared
    outside the sources; the code only compares it with [SOFTWARE] and
    [HARDWARE], any further enumerator is [OTHER_METHOD]. *)
Inductive SkinningMethod := SOFTWARE | HARDWARE | OTHER_METHOD.

Global Instance SkinningMethod_eq_dec : EqDecision SkinningMethod.
Proof. solve_decision. Defined.

Definition MAX_NUM_BONES_PER_VERTEX : uint := 8.
Definition PNAME_NUM_BONES : string := "geometry.numBones".
Definition PNAME_BONE_MATRICES : string := "geometry.boneMatrices".
Definition ATTRNAME_POSITION : string := "position".
Definition ATTRNAME_NORMAL : string := "normal".
Definition ATTRNAME_BONE_IDS_A : string := "boneIdsA".
Definition ATTRNAME_BONE_IDS_B : string := "boneIdsB".
Definition ATTRNAME_BONE_WEIGHTS_A : string := "boneWeightsA".
Definition ATTRNAME_BONE_WEIGHTS_B : string := "boneWeightsB".

(** Modelled from the spec: the values of a geometry's property store
    are declared outside the sources.  The component stores an [int] and a
    [UniformArray], the pair of a count and a pointer to the matrix array of
    a frame of the skin (the pointer is the frame's index, [None] is
    [nullptr]). *)
Inductive PropValue :=
  | PInt (n : Z)
  | PUniformArray (count : uint) (pointer : option uint).

(** Modelled from the spec: the class [Geometry]
    (minko/geometry/Geometry.hpp) is not part of the sources.  It owns
    references to vertex buffers and a key/value property store. *)
Record Geometry := mkGeometry {
  vertexBuffers : list Ref;
  gdata : gmap string PropValue;
}.

Record Skinning := mkSkinning {
  _skin : option Skin;
  _context : option Ref;
  _method : SkinningMethod;
  _boneVertexBuffer : option Ref;
  _targetGeometry : gmap Node Ref;
  _targetStartTime : gmap Node Z;
  _targetInputPositions : gmap Node (list F);
  _targetInputNormals : gmap Node (list F);
  _targetAddedSlot : bool;
  _targetRemovedSlot : bool;
  _addedSlot : option Node;
  _removedSlot : option Node;
  _frameBeginSlot : option Ref;
}.

(** The constructor (lines 51-69). *)
Definition create (skin : option Skin) (method : SkinningMethod)
    (context : option Ref) : Skinning :=
  {| _skin := skin; _context := context; _method := method;
     _boneVertexBuffer := None;
     _targetGeometry := ∅; _targetStartTime := ∅;
     _targetInputPositions := ∅; _targetInputNormals := ∅;
     _targetAddedSlot := false; _targetRemovedSlot := false;
     _addedSlot := None; _removedSlot := None; _frameBeginSlot := None |}.

(** The component together with the store of shared objects it reaches. *)
Record World := mkWorld {
  this : Skinning;
  geometries : gmap Ref Geometry;
  buffers : gmap Ref VertexBuffer;
}.

(** Modelled from the spec: nodes, their root, and the [SceneManager] and
    [Surface] components they carry are declared outside the sources.  This
    is the part of the scene graph the handlers read. *)
Record Scene := mkScene {
  targets : list Node;
  root : Node → Node;
  sceneManager : Node → option Ref;
  surface : Node → option Ref;
}.

(** ** Exceptions, undefined behaviour and state *)

Inductive exception :=
  | invalid_argument (what : string)
  | logic_error (what : string).

Inductive outcome (A : Type) :=
  | Returns (a : A) (w : World)
  | Throws (e : exception) (w : World)
  | Undefined.
Global Arguments Returns {A} a w.
Global Arguments Throws {A} e w.
Global Arguments Undefined {A}.

Definition M (A : Type) : Type := World → outcome A.

Global Instance M_ret : MRet M := λ A a w, Returns a w.

Global Instance M_bind : MBind M := λ A B f m w,
  match m w with
  | Returns a w' => f a w'
  | Throws e w' => Throws e w'
  | Undefined => Undefined
  end.

Definition throw {A} (e : exception) : M A := λ w, Throws e w.

Definition undefined {A} : M A := λ _, Undefined.

Definition defined {A} (o : option A) : M A :=
  match o with Some a => mret a | None => undefined end.

Definition get_this : M Skinning := λ w, Returns (this w) w.

Definition update_this (f : Skinning → Skinning) : M unit := λ w,
  Returns () {| this := f (this w); geometries := geometries w; buffers := buffers w |}.

Definition get_world : M World := λ w, Returns w w.

Definition update_geometry (g : Ref) (f : Geometry → Geometry) : M unit := λ w,
  match geometries w !! g with
  | Some geo =>
      Returns () {| this := this w; geometries := <[g := f geo]> (geometries w);
                    buffers := buffers w |}
  | None => Undefined
  end.

Definition update_buffer (r : Ref) (vb : VertexBuffer) : M unit := λ w,
  Returns () {| this := this w; geometries := geometries w;
                buffers := <[r := vb]> (buffers w) |}.

(** [VertexBuffer::create]: a buffer at an unused reference. *)
Definition new_buffer (vb : VertexBuffer) : M Ref := λ w,
  let r := fresh (dom (buffers w)) in
  Returns r {| this := this w; geometries := geometries w;
               buffers := <[r := vb]> (buffers w) |}.

(** Field updates of the component. *)
Definition set_method (m : SkinningMethod) (s : Skinning) : Skinning :=
  {| _skin := _skin s; _context := _context s; _method := m;
     _boneVertexBuffer := _boneVertexBuffer s;
     _targetGeometry := _targetGeometry s; _targetStartTime := _targetStartTime s;
     _targetInputPositions := _targetInputPositions s;
     _targetInputNormals := _targetInputNormals s;
     _targetAddedSlot := _targetAddedSlot s; _targetRemovedSlot := _targetRemovedSlot s;
     _addedSlot := _addedSlot s; _removedSlot := _removedSlot s;
     _frameBeginSlot := _frameBeginSlot s |}.

Definition set_boneVertexBuffer (b : option Ref) (s : Skinning) : Skinning :=
  {| _skin := _skin s; _context := _context s; _method := _method s;
     _boneVertexBuffer := b;
     _targetGeometry := _targetGeometry s; _targetStartTime := _targetStartTime s;
     _targetInputPositions := _targetInputPositions s;
     _targetInputNormals := _targetInputNormals s;
     _targetAddedSlot := _targetAddedSlot s; _targetRemovedSlot := _targetRemovedSlot s;
     _addedSlot := _addedSlot s; _removedSlot := _removedSlot s;
     _frameBeginSlot := _frameBeginSlot s |}.

Definition set_targetGeometry (m : gmap Node Ref) (s : Skinning) : Skinning :=
  {| _skin := _skin s; _context := _context s; _method := _method s;
     _boneVertexBuffer := _boneVertexBuffer s;
     _targetGeometry := m; _targetStartTime := _targetStartTime s;
     _targetInputPositions := _targetInputPositions s;
     _targetInputNormals := _targetInputNormals s;
     _targetAddedSlot := _targetAddedSlot s; _targetRemovedSlot := _targetRemovedSlot s;
     _addedSlot := _addedSlot s; _removedSlot := _removedSlot s;
     _frameBeginSlot := _frameBeginSlot s |}.

Definition set_targetStartTime (m : gmap Node Z) (s : Skinning) : Skinning :=
  {| _skin := _skin s; _context := _context s; _method := _method s;
     _boneVertexBuffer := _boneVertexBuffer s;
     _targetGeometry := _targetGeometry s; _targetStartTime := m;
     _targetInputPositions := _targetInputPositions s;
     _targetInputNormals := _targetInputNormals s;
     _targetAddedSlot := _targetAddedSlot s; _targetRemovedSlot := _targetRemovedSlot s;
     _addedSlot := _addedSlot s; _removedSlot := _removedSlot s;
     _frameBeginSlot := _frameBeginSlot s |}.

Definition set_targetInputPositions (m : gmap Node (list F)) (s : Skinning) : Skinning :=
  {| _skin := _skin s; _context := _context s; _method := _method s;
     _boneVertexBuffer := _boneVertexBuffer s;
     _targetGeometry := _targetGeometry s; _targetStartTime := _targetStartTime s;
     _targetInputPositions := m;
     _targetInputNormals := _targetInputNormals s;
     _targetAddedSlot := _targetAddedSlot s; _targetRemovedSlot := _targetRemovedSlot s;
     _addedSlot := _addedSlot s; _removedSlot := _removedSlot s;
     _frameBeginSlot := _frameBeginSlot s |}.

Definition set_targetInputNormals (m : gmap Node (list F)) (s : Skinning) : Skinning :=
  {| _skin := _skin s; _context := _context s; _method := _method s;
     _boneVertexBuffer := _boneVertexBuffer s;
     _targetGeometry := _targetGeometry s; _targetStartTime := _targetStartTime s;
     _targetInputPositions := _targetInputPositions s;
     _targetInputNormals := m;
     _targetAddedSlot := _targetAddedSlot s; _targetRemovedSlot := _targetRemovedSlot s;
     _addedSlot := _addedSlot s; _removedSlot := _removedSlot s;
     _frameBeginSlot := _frameBeginSlot s |}.

Definition set_targetSlots (a r : bool) (s : Skinning) : Skinning :=
  {| _skin := _skin s; _context := _context s; _method := _method s;
     _boneVertexBuffer := _boneVertexBuffer s;
     _targetGeometry := _targetGeometry s; _targetStartTime := _targetStartTime s;
     _targetInputPositions := _targetInputPositions s;
     _targetInputNormals := _targetInputNormals s;
     _targetAddedSlot := a; _targetRemovedSlot := r;
     _addedSlot := _addedSlot s; _removedSlot := _removedSlot s;
     _frameBeginSlot := _frameBeginSlot s |}.

Definition set_nodeSlots (a r : option Node) (s : Skinning) : Skinning :=
  {| _skin := _skin s; _context := _context s; _method := _method s;
     _boneVertexBuffer := _boneVertexBuffer s;
     _targetGeometry := _targetGeometry s; _targetStartTime := _targetStartTime s;
     _targetInputPositions := _targetInputPositions s;
     _targetInputNormals := _targetInputNormals s;
     _targetAddedSlot := _targetAddedSlot s; _targetRemovedSlot := _targetRemovedSlot s;
     _addedSlot := a; _removedSlot := r;
     _frameBeginSlot := _frameBeginSlot s |}.

Definition set_frameBeginSlot (b : option Ref) (s : Skinning) : Skinning :=
  {| _skin := _skin s; _context := _context s; _method := _method s;
     _boneVertexBuffer := _boneVertexBuffer s;
     _targetGeometry := _targetGeometry s; _targetStartTime := _targetStartTime s;
     _targetInputPositions := _targetInputPositions s;
     _targetInputNormals := _targetInputNormals s;
     _targetAddedSlot := _targetAddedSlot s; _targetRemovedSlot := _targetRemovedSlot s;
     _addedSlot := _addedSlot s; _removedSlot := _removedSlot s;
     _frameBeginSlot := b |}.

(** ** Geometry and property store operations *)

(** Modelled from the spec: [Geometry::hasVertexAttribute],
    [Geometry::vertexBuffer], [Geometry::addVertexBuffer],
    [Geometry::removeVertexBuffer] and the property store's [set] and
    [unset] are declared outside the sources. *)
Definition buffer_has_attribute (buffers : gmap Ref VertexBuffer)
    (name : string) (r : Ref) : bool :=
  match buffers !! r with
  | Some vb => bool_decide (name ∈ attr_name <$> attributes vb)
  | None => false
  end.

Definition geometry_vertexBuffer (buffers : gmap Ref VertexBuffer)
    (geo : Geometry) (name : string) : option Ref :=
  List.find (buffer_has_attribute buffers name) (vertexBuffers geo).

Definition hasVertexAttribute (buffers : gmap Ref VertexBuffer)
    (geo : Geometry) (name : string) : bool :=
  bool_decide (is_Some (geometry_vertexBuffer buffers geo name)).

Definition addVertexBuffer (r : Ref) (geo : Geometry) : Geometry :=
  {| vertexBuffers := vertexBuffers geo ++ [r]; gdata := gdata geo |}.

Definition removeVertexBuffer (r : Ref) (geo : Geometry) : Geometry :=
  {| vertexBuffers := filter (λ r', r' ≠ r) (vertexBuffers geo); gdata := gdata geo |}.

Definition data_set (name : string) (v : PropValue) (geo : Geometry) : Geometry :=
  {| vertexBuffers := vertexBuffers geo; gdata := <[name := v]> (gdata geo) |}.

Definition data_unset (name : string) (geo : Geometry) : Geometry :=
  {| vertexBuffers := vertexBuffers geo; gdata := delete name (gdata geo) |}.

(** The loop [for (auto& attr : buffer->attributes()) if (name matches)
    found = attr]: the last attribute of that name, [None] for [nullptr]. *)
Definition find_attribute (name : string) (attrs : list Attribute) : option Attribute :=
  foldl (λ found attr, if decide (attr_name attr = name) then Some attr else found)
        None attrs.

(** Conversion of an [unsigned int] to [int]. *)
Definition to_int (n : uint) : Z :=
  if decide (n < 2147483648) then Z.of_N n else (Z.of_N n - 4294967296)%Z.

(** ** The bone vertex buffer (lines 238-282) *)

(** [j = 0; while (j < numVertexBones && j < (vertexSize >> 2))
      { vertexData[index + j] = value(j); ++j; }] *)
Definition packSlots (value : uint → option F) (numVertexBones vertexSize index : uint)
    (vertexData : list F) : option (list F) :=
  for_range 0 (N.to_nat (N.min numVertexBones (uint_shr vertexSize 2)))
    (λ j vertexData, x ← value j; vec_set vertexData (uint_add index j) x)
    vertexData.

Definition packVertex (sk : Skin) (vertexSize : uint) (vId : uint)
    (st : uint * list F) : option (uint * list F) :=
  let '(index, vertexData) := st in
  let numVertexBones := numVertexBones sk vId in
  vertexData ← packSlots (λ j, f_of_uint <$> vertexBoneId sk vId j)
                  numVertexBones vertexSize index vertexData;
  let index := uint_add index (uint_shr vertexSize 1) in
  vertexData ← packSlots (vertexBoneWeight sk vId)
                  numVertexBones vertexSize index vertexData;
  let index := uint_add index (uint_shr vertexSize 1) in
  Some (index, vertexData).

(** The contents of the buffer; the failed assertion of line 243 and any
    access outside the vector give [None]. *)
Definition boneVertexData (sk : Skin) : option (list F) :=
  let vertexSize : uint := 16 in
  if decide (maxNumVertexBones sk ≤ MAX_NUM_BONES_PER_VERTEX) then
    let numVertices := numVertices sk in
    let vertexData := replicate (N.to_nat (uint_mul numVertices vertexSize)) fzero in
    '(_, vertexData) ← for_range 0 (N.to_nat numVertices)
        (packVertex sk vertexSize) (0, vertexData);
    Some vertexData
  else None.

Definition boneVertexBuffer (sk : Skin) : option VertexBuffer :=
  vertexData ← boneVertexData sk;
  Some (addAttribute ATTRNAME_BONE_WEIGHTS_B 4 12
       (addAttribute ATTRNAME_BONE_WEIGHTS_A 4 8
       (addAttribute ATTRNAME_BONE_IDS_B 4 4
       (addAttribute ATTRNAME_BONE_IDS_A 4 0
       (mkVertexBuffer vertexData [] 0))))).

Definition createVertexBufferForBones : M Ref :=
  s ← get_this;
  sk ← defined (_skin s);
  vb ← defined (boneVertexBuffer sk);
  new_buffer vb.

(** ** Initialisation and target subscription (lines 71-133) *)

Definition initialize : M unit :=
  s ← get_this;
  match _skin s with
  | None => throw (invalid_argument "skin")
  | Some sk =>
    match _context s with
    | None => throw (invalid_argument "context")
    | Some _ =>
      (if bool_decide (_method s ≠ SOFTWARE)
          && bool_decide (MAX_NUM_BONES_PER_VERTEX < maxNumVertexBones sk)
       then update_this (set_method SOFTWARE)
       else mret ());;
      s ← get_this;
      b ← (if decide (_method s = SOFTWARE) then mret None
           else r ← createVertexBufferForBones; mret (Some r));
      update_this (set_boneVertexBuffer b);;
      update_this (set_targetSlots true true)
    end
  end.

Definition targetAddedHandler (target : Node) : M unit :=
  update_this (set_nodeSlots (Some target) (Some target)).

Definition targetRemovedHandler : M unit :=
  update_this (set_nodeSlots None None).

(** ** The frame-tick source (lines 197-236) *)

Definition setSceneManager (sceneManager : option Ref) : M unit :=
  match sceneManager with
  | Some sm => update_this (set_frameBeginSlot (Some sm))
  | None =>
      s ← get_this;
      match _frameBeginSlot s with
      | Some _ => update_this (set_frameBeginSlot None)
      | None => mret ()
      end
  end.

(** Modelled from the spec: [NodeSet::roots] (declared outside the
    sources) yields the distinct root ancestors of the nodes. *)
Definition NodeSet_roots (scene : Scene) (nodes : list Node) : list Node :=
  remove_dups (root scene <$> nodes).

Definition driverRoots (scene : Scene) : list Node :=
  filter (λ node, is_Some (sceneManager scene node))
         (NodeSet_roots scene (targets scene)).

Definition findSceneManager (scene : Scene) : M unit :=
  let roots := driverRoots scene in
  if decide (1 < length roots)%nat then
    throw (logic_error "Renderer cannot be in two separate scenes.")
  else if decide (length roots = 1)%nat then
    setSceneManager (roots !! 0%nat ≫= sceneManager scene)
  else
    setSceneManager None.

(** ** Attachment and detachment (lines 135-195) *)

Definition addedHandler (scene : Scene) (now : Z) (node target parent : Node) : M unit :=
  findSceneManager scene;;
  s ← get_this;
  sk ← defined (_skin s);
  if fltb (duration sk) f_1e_6 then mret () else
  match surface scene node with
  | None => mret ()
  | Some g =>
    w ← get_world;
    geometry ← defined (geometries w !! g);
    match geometry_vertexBuffer (buffers w) geometry ATTRNAME_POSITION with
    | None => mret ()
    | Some xyz =>
      xyzBuffer ← defined (buffers w !! xyz);
      if decide (vb_numVertices xyzBuffer = numVertices sk) then
        update_this (λ s, set_targetGeometry (<[node := g]> (_targetGeometry s)) s);;
        update_this (λ s, set_targetStartTime (<[node := now]> (_targetStartTime s)) s);;
        update_this (λ s, set_targetInputPositions
                            (<[node := data xyzBuffer]> (_targetInputPositions s)) s);;
        match geometry_vertexBuffer (buffers w) geometry ATTRNAME_NORMAL with
        | None => mret ()
        | Some nrm =>
          normalBuffer ← defined (buffers w !! nrm);
          if decide (vb_numVertices normalBuffer = numVertices sk) then
            update_this (λ s, set_targetInputNormals
                                (<[node := data normalBuffer]> (_targetInputNormals s)) s)
          else mret ()
        end;;
        if decide (_method s ≠ SOFTWARE) then
          b ← defined (_boneVertexBuffer s);
          update_geometry g (addVertexBuffer b);;
          update_geometry g (data_set PNAME_BONE_MATRICES (PUniformArray 0 None));;
          update_geometry g (data_set PNAME_NUM_BONES (PInt 0))
        else mret ()
      else mret ()
    end
  end.

Definition removedHandler (scene : Scene) (node target parent : Node) : M unit :=
  findSceneManager scene;;
  s ← get_this;
  match _targetGeometry s !! target with
  | Some g =>
      (if decide (_method s ≠ SOFTWARE) then
         b ← defined (_boneVertexBuffer s);
         update_geometry g (removeVertexBuffer b);;
         update_geometry g (data_unset PNAME_BONE_MATRICES);;
         update_geometry g (data_unset PNAME_NUM_BONES)
       else mret ());;
      update_this (λ s, set_targetGeometry (delete target (_targetGeometry s)) s)
  | None => mret ()
  end;;
  s ← get_this;
  (if decide (is_Some (_targetStartTime s !! target)) then
     update_this (λ s, set_targetStartTime (delete target (_targetStartTime s)) s)
   else mret ());;
  (if decide (is_Some (_targetInputPositions s !! target)) then
     update_this (λ s, set_targetInputPositions (delete target (_targetInputPositions s)) s)
   else mret ());;
  (if decide (is_Some (_targetInputNormals s !! target)) then
     update_this (λ s, set_targetInputNormals (delete target (_targetInputNormals s)) s)
   else mret ()).

(** ** The frame update (lines 285-346) *)

(** [_targetInputPositions[target]] and [_targetInputNormals[target]]:
    [operator[]] creates an empty vector when the key is absent. *)
Definition index_targetInputPositions (target : Node) : M (list F) :=
  s ← get_this;
  match _targetInputPositions s !! target with
  | Some v => mret v
  | None =>
      update_this (set_targetInputPositions (<[target := []]> (_targetInputPositions s)));;
      mret []
  end.

Definition index_targetInputNormals (target : Node) : M (list F) :=
  s ← get_this;
  match _targetInputNormals s !! target with
  | Some v => mret v
  | None =>
      update_this (set_targetInputNormals (<[target := []]> (_targetInputNormals s)));;
      mret []
  end.

(** [_targetStartTime[target]] creates a zero entry when the key is absent. *)
Definition index_targetStartTime (target : Node) : M Z :=
  s ← get_this;
  match _targetStartTime s !! target with
  | Some t => mret t
  | None =>
      update_this (set_targetStartTime (<[target := 0%Z]> (_targetStartTime s)));;
      mret 0%Z
  end.

(** One pass of [performSoftwareSkinning(target, boneMatrices)] over the
    attribute [name] of the geometry [g], reading from [inputData]. *)
Definition skinAttribute (sk : Skin) (g : Ref) (name : string)
    (inputData boneMatrices : list F) (doDeltaTransform : bool) : M unit :=
  w ← get_world;
  geometry ← defined (geometries w !! g);
  r ← defined (geometry_vertexBuffer (buffers w) geometry name);
  vertexBuffer ← defined (buffers w !! r);
  attr ← defined (find_attribute name (attributes vertexBuffer));
  vertexBuffer ← defined (performSoftwareSkinningAttr sk attr vertexBuffer
                            inputData boneMatrices doDeltaTransform);
  update_buffer r vertexBuffer.

Definition performSoftwareSkinning (target : Node) (boneMatrices : list F) : M unit :=
  s ← get_this;
  sk ← defined (_skin s);
  g ← defined (_targetGeometry s !! target);
  inputPositions ← index_targetInputPositions target;
  skinAttribute sk g ATTRNAME_POSITION inputPositions boneMatrices false;;
  w ← get_world;
  geometry ← defined (geometries w !! g);
  if hasVertexAttribute (buffers w) geometry ATTRNAME_NORMAL
     && bool_decide (is_Some (_targetInputNormals s !! target))
  then
    inputNormals ← index_targetInputNormals target;
    skinAttribute sk g ATTRNAME_NORMAL inputNormals boneMatrices true
  else mret ().

Definition updateFrame (target : Node) (frameId : uint) : M unit :=
  s ← get_this;
  match _targetGeometry s !! target with
  | None => mret ()
  | Some g =>
    sk ← defined (_skin s);
    if decide (numFrames sk ≤ frameId) then mret () else
    boneMatrices ← defined (matrices sk frameId);
    if decide (_method s = HARDWARE) then
      update_geometry g (data_set PNAME_NUM_BONES (PInt (to_int (numBones sk))));;
      w ← get_world;
      geometry ← defined (geometries w !! g);
      match gdata geometry !! PNAME_BONE_MATRICES with
      | Some (PUniformArray _ _) =>
          (* [&(boneMatrices[0])] of line 310 subscripts the vector *)
          defined (vec_get boneMatrices 0);;
          update_geometry g
            (data_set PNAME_BONE_MATRICES (PUniformArray (numBones sk) (Some frameId)))
      | _ => undefined
      end
    else performSoftwareSkinning target boneMatrices
  end.

Fixpoint for_each {A} (l : list A) (body : A → M unit) : M unit :=
  match l with
  | [] => mret ()
  | x :: l => body x;; for_each l body
  end.

Definition frameBeginHandler (scene : Scene) (time : F) : M unit :=
  for_each (targets scene) (λ target,
    s ← get_this;
    sk ← defined (_skin s);
    startTime ← index_targetStartTime target;
    updateFrame target (getFrameId sk (fsub time (f_of_clock startTime)))).

(** ** The blend, as the design document words it *)

(** Element [k] of the row-major 4x4 matrix of bone [boneId]: the matrix
    occupies the elements [[boneId*16, boneId*16+16)] of the frame's array. *)
Definition matrix_entry (boneMatrices : list F) (boneId k : N) : F :=
  default fzero (boneMatrices !! N.to_nat (16 * boneId + k)).

(** Row [row] of the bone's matrix applied to [(x1,y1,z1)]: with the
    translation entry for a position, without it for a direction. *)
Definition transform_row (boneMatrices : list F) (doDeltaTransform : bool)
    (row : N) (x1 y1 z1 : F) (boneId : N) : F :=
  let m k := matrix_entry boneMatrices boneId (4 * row + k) in
  let linear := fadd (fadd (fmul (m 0) x1) (fmul (m 1) y1)) (fmul (m 2) z1) in
  if doDeltaTransform then linear else fadd linear (m 3).

(** The sum, over the (boneId, weight) pairs in order and starting from
    [0.0f], of [weight * term boneId]. *)
Definition weighted_sum (term : N → F) (pairs : list (uint * F)) : F :=
  foldl (λ acc p, fadd acc (fmul p.2 (term p.1))) fzero pairs.

(** Coordinate [c] (0, 1 or 2) that vertex [vId] has in [inputData], for
    an attribute at [offset] in rows of [vertexSize] floats. *)
Definition coordinate (inputData : list F) (vertexSize offset vId c : N) : F :=
  default fzero (inputData !! N.to_nat (offset + vId * vertexSize + c)).

(** The blended coordinate [row] of vertex [vId]. *)
Definition skinned (sk : Skin) (boneMatrices inputData : list F)
    (doDeltaTransform : bool) (vertexSize offset vId row : N) : F :=
  weighted_sum
    (transform_row boneMatrices doDeltaTransform row
       (coordinate inputData vertexSize offset vId 0)
       (coordinate inputData vertexSize offset vId 1)
       (coordinate inputData vertexSize offset vId 2))
    (bonesOf sk vId).

(** ** Well-formedness conditions *)

(** The attribute lies within the stride and the vector is addressable
    with an [unsigned int]. *)
Definition attribute_in_stride (attr : Attribute) (vb : VertexBuffer) : Prop :=
  vertexSize vb ≠ 0 ∧ attr_offset attr + 3 ≤ vertexSize vb ∧
  N.of_nat (length (data vb)) < UINT_RANGE.

(** Every bone a vertex refers to has its 16 floats in the frame's array. *)
Definition bones_in_range (sk : Skin) (boneMatrices : list F) : Prop :=
  N.of_nat (length boneMatrices) ≤ UINT_RANGE ∧
  Forall (Forall (λ p : uint * F, 16 * p.1 + 16 ≤ N.of_nat (length boneMatrices)))
         (vertexBones sk).

(** The slots of a buffer that the software path writes for an attribute. *)
Definition written_slot (attr : Attribute) (vb : VertexBuffer) (i : N) : Prop :=
  ∃ vId c, vId < N.of_nat (length (data vb)) / vertexSize vb ∧ c < 3 ∧
           i = attr_offset attr + vId * vertexSize vb + c.

(** The 12 entries the blend reads of the matrix of bone [boneId] are those
    of a pure translation by [(tx,ty,tz)]. *)
Definition pure_translation (boneMatrices : list F) (boneId : N) (tx ty tz : F) : Prop :=
  take 12 (drop (N.to_nat (16 * boneId)) boneMatrices) =
    [fone; fzero; fzero; tx;
     fzero; fone; fzero; ty;
     fzero; fzero; fone; tz].

(** ** The packed row, as the design document words it *)

(** Slot [slot] (0..15) of the row of vertex [vId]: the bone ids, as
    floats, in slots 0..7 and the weights in slots 8..15, each group filled
    up to the vertex's bone count and zero beyond it. *)
Definition packed_slot (sk : Skin) (vId slot : N) : F :=
  if decide (slot < 8) then
    default fzero (f_of_uint <$> vertexBoneId sk vId slot)
  else
    default fzero (vertexBoneWeight sk vId (slot - 8)).

(** The same row as the loops of lines 254 and 262 fill it: they stop at
    [vertexSize >> 2], that is after 4 slots of each group. *)
Definition packed_slot_built (sk : Skin) (vId slot : N) : F :=
  if decide (slot < 4) then
    default fzero (f_of_uint <$> vertexBoneId sk vId slot)
  else if decide (8 ≤ slot < 12) then
    default fzero (vertexBoneWeight sk vId (slot - 8))
  else fzero.

(** ** Statements about the lifecycle *)

(** The world in which the component holds the frame-tick subscription [b]. *)
Definition with_frameBeginSlot (b : option Ref) (w : World) : World :=
  {| this := set_frameBeginSlot b (this w);
     geometries := geometries w; buffers := buffers w |}.

(** The node [node] carries a surface whose geometry [g] has a position
    attribute with as many vertices as the skin, and the animation is not
    of zero duration: the conditions under which [addedHandler] registers
    the node. *)
Definition compatible (scene : Scene) (w : World) (sk : Skin) (node : Node) (g : Ref) : Prop :=
  fltb (duration sk) f_1e_6 = false ∧
  surface scene node = Some g ∧
  ∃ geometry xyz xyzBuffer,
    geometries w !! g = Some geometry ∧
    geometry_vertexBuffer (buffers w) geometry ATTRNAME_POSITION = Some xyz ∧
    buffers w !! xyz = Some xyzBuffer ∧
    vb_numVertices xyzBuffer = numVertices sk.

(** No per-target map has an entry for [node]. *)
Definition untracked (node : Node) (s : Skinning) : Prop :=
  _targetGeometry s !! node = None ∧ _targetStartTime s !! node = None ∧
  _targetInputPositions s !! node = None ∧ _targetInputNormals s !! node = None.





(** ** Statements about the frame update *)

(** The state in which the software path can run for [target]: the
    target is registered, its geometry has the position attribute [attr] in
    the buffer [vb] at reference [r], the snapshot [inputPositions] has the
    size of that buffer, the bones of the skin are within [boneMatrices],
    and, when a snapshot of the normals exists and the geometry has a normal
    attribute, that attribute is well placed as well and does not overlap
    the position attribute. *)
Definition software_ready (w : World) (sk : Skin) (target : Node)
    (boneMatrices : list F) (r : Ref) (vb : VertexBuffer) (attr : Attribute)
    (inputPositions : list F) : Prop :=
  ∃ g geometry,
    _targetGeometry (this w) !! target = Some g ∧
    geometries w !! g = Some geometry ∧
    geometry_vertexBuffer (buffers w) geometry ATTRNAME_POSITION = Some r ∧
    buffers w !! r = Some vb ∧
    find_attribute ATTRNAME_POSITION (attributes vb) = Some attr ∧
    attribute_in_stride attr vb ∧
    _targetInputPositions (this w) !! target = Some inputPositions ∧
    length inputPositions = length (data vb) ∧
    bones_in_range sk boneMatrices ∧
    ∀ inputNormals rn,
      _targetInputNormals (this w) !! target = Some inputNormals →
      geometry_vertexBuffer (buffers w) geometry ATTRNAME_NORMAL = Some rn →
      ∃ normalBuffer normalAttr,
        buffers w !! rn = Some normalBuffer ∧
        find_attribute ATTRNAME_NORMAL (attributes normalBuffer) = Some normalAttr ∧
        attribute_in_stride normalAttr normalBuffer ∧
        length inputNormals = length (data normalBuffer) ∧
        (rn = r →
           attr_offset attr + 3 ≤ attr_offset normalAttr ∨
           attr_offset normalAttr + 3 ≤ attr_offset attr).

End Skinning.

(** ** Concrete scenes *)

(** A small skinned mesh over exact integer arithmetic: three vertices in
    rows of 8 floats (position, normal, uv), two bones, one frame in which
    bone 0 is the identity and bone 1 a translation by (10,20,30). *)
Module Example.

#[local] Existing Instance Z_FloatOps.

Definition identity_matrix : list Z :=
  [1; 0; 0; 0;  0; 1; 0; 0;  0; 0; 1; 0;  0; 0; 0; 1]%Z.

Definition translation_matrix : list Z :=
  [1; 0; 0; 10;  0; 1; 0; 20;  0; 0; 1; 30;  0; 0; 0; 1]%Z.

Definition frame0 : list Z := identity_matrix ++ translation_matrix.

Definition skin : Skin (F:=Z) :=
  {| numBones := 2; duration := 5%Z;
     vertexBones := [[(1, 1%Z)]; [(1, 1%Z); (0, 2%Z)]; []];
     frames := [frame0];
     getFrameId := λ _, 0 |}.

(** A skin with a vertex influenced by 12 bones. *)
Definition skin12 : Skin (F:=Z) :=
  {| numBones := 2; duration := 5%Z;
     vertexBones := [replicate 12 (0, 1%Z)];
     frames := [frame0];
     getFrameId := λ _, 0 |}.

Definition position_attribute : Attribute := (ATTRNAME_POSITION, 3, 0).
Definition normal_attribute : Attribute := (ATTRNAME_NORMAL, 3, 3).

Definition mesh : VertexBuffer (F:=Z) :=
  {| data := [ 1;  2;  3;   4;  5;  6;   7;  8;
              11; 12; 13;  14; 15; 16;  17; 18;
              21; 22; 23;  24; 25; 26;  27; 28]%Z;
     attributes := [position_attribute; normal_attribute; ("uv"%string, 2, 6)];
     vertexSize := 8 |}.


Definition node : Node := 1%positive.
Definition parent : Node := 2%positive.
Definition scene_root : Node := 100%positive.
Definition geometry_ref : Ref := 5%positive.
Definition mesh_ref : Ref := 7%positive.
Definition context : Ref := 1%positive.
Definition driver : Ref := 9%positive.

(** One target, whose root carries the driver. *)
Definition scene : Scene :=
  {| targets := [node];
     root := λ _, scene_root;
     sceneManager := λ n, if decide (n = scene_root) then Some driver else None;
     surface := λ n, if decide (n = node) then Some geometry_ref else None |}.

Definition world (sk : Skin (F:=Z)) (method : SkinningMethod) (vb : VertexBuffer (F:=Z)) : World (F:=Z) :=
  {| this := create (Some sk) method (Some context);
     geometries := {[ geometry_ref := {| vertexBuffers := [mesh_ref]; gdata := ∅ |} ]};
     buffers := {[ mesh_ref := vb ]} |}.

(** The world an operation leaves (the world it started from if it does
    not return). *)
Definition after (m : M (F:=Z) unit) (w : World (F:=Z)) : World (F:=Z) :=
  match m w with Returns _ w' => w' | _ => w end.

Definition software_world : World (F:=Z) := world skin SOFTWARE mesh.

Definition hardware_world : World (F:=Z) := after initialize (world skin HARDWARE mesh).

(** The software world with [node] attached at time 42. *)
Definition attached_world : World (F:=Z) :=
  after (addedHandler scene 42 node node parent) (after initialize software_world).


(** A world in which hardware skinning is requested for [skin12]. *)
Definition world12 : World (F:=Z) := world skin12 HARDWARE mesh.

End Example.

(** The packing examples, in IEEE binary32. *)
Module Example32.

Import Floats.SpecFloat.

#[local] Existing Instance Binary32.ops.

Definition f0_5 : spec_float := S754_finite false 8388608 (-24).
Definition f0_3 : spec_float := S754_finite false 10066330 (-25).
Definition f0_2 : spec_float := S754_finite false 13421773 (-26).

(** One vertex with the three bones 2, 5, 9 of weights 0.5, 0.3, 0.2. *)
Definition three_bone_skin : Skin (F:=spec_float) :=
  {| numBones := 10; duration := fone;
     vertexBones := [[(2, f0_5); (5, f0_3); (9, f0_2)]];
     frames := [];
     getFrameId := λ _, 0 |}.

(** One vertex with the five bones 1..5, each of weight 0.2. *)
Definition five_bone_skin : Skin (F:=spec_float) :=
  {| numBones := 10; duration := fone;
     vertexBones := [[(1, f0_2); (2, f0_2); (3, f0_2); (4, f0_2); (5, f0_2)]];
     frames := [];
     getFrameId := λ _, 0 |}.

(** A single vertex at (1.5, -2, 0.25), bound with weight 1 to a bone
    that translates by (0.5, 1, 3). *)
Definition f1_5 : spec_float := S754_finite false 12582912 (-23).
Definition f2_neg : spec_float := S754_finite true 8388608 (-22).
Definition f0_25 : spec_float := S754_finite false 8388608 (-25).
Definition f3 : spec_float := S754_finite false 12582912 (-22).
Definition f2 : spec_float := S754_finite false 8388608 (-22).
Definition f1_neg : spec_float := S754_finite true 8388608 (-23).
Definition f3_25 : spec_float := S754_finite false 13631488 (-22).

Definition translation_matrix : list spec_float :=
  [fone; fzero; fzero; f0_5;
   fzero; fone; fzero; fone;
   fzero; fzero; fone; f3;
   fzero; fzero; fzero; fone].

Definition translated_skin : Skin (F:=spec_float) :=
  {| numBones := 1; duration := fone;
     vertexBones := [[(0, fone)]];
     frames := [translation_matrix];
     getFrameId := λ _, 0 |}.

Definition point : VertexBuffer (F:=spec_float) :=
  {| data := [f1_5; f2_neg; f0_25];
     attributes := [(ATTRNAME_POSITION, 3, 0)];
     vertexSize := 3 |}.

End Example32.

(** ** Further statements about the handlers and the update *)

Section HandlerStatements.

Context {F : Type} `{FloatOps F}.

(** A reason for which [addedHandler] registers nothing for [node]: the
    animation lasts less than [1e-6f], the node has no [Surface], its
    geometry has no position attribute, or the position buffer does not have
    the skin's number of vertices (lines 140-148). *)
Definition incompatible (scene : Scene) (w : World (F:=F)) (sk : Skin (F:=F))
    (node : Node) : Prop :=
  fltb (duration sk) f_1e_6 = true ∨
  surface scene node = None ∨
  ∃ g geometry,
    surface scene node = Some g ∧ geometries w !! g = Some geometry ∧
    match geometry_vertexBuffer (buffers w) geometry ATTRNAME_POSITION with
    | None => True
    | Some xyz => ∃ xyzBuffer, buffers w !! xyz = Some xyzBuffer ∧
                               vb_numVertices xyzBuffer ≠ numVertices sk
    end.

(** The snapshot of the normals that [addedHandler] takes of a geometry
    (lines 155-157): the contents of the buffer that holds the normal
    attribute, when there is one with the skin's number of vertices. *)
Definition normal_snapshot (w : World (F:=F)) (sk : Skin (F:=F))
    (geometry : Geometry) : option (list F) :=
  nrm ← geometry_vertexBuffer (buffers w) geometry ATTRNAME_NORMAL;
  normalBuffer ← buffers w !! nrm;
  if decide (vb_numVertices normalBuffer = numVertices sk)
  then Some (data normalBuffer) else None.



(** The per-target maps have the same entries for [n] in [s] and [s']. *)
Definition same_entries (n : Node) (s s' : Skinning (F:=F)) : Prop :=
  _targetGeometry s' !! n = _targetGeometry s !! n ∧
  _targetStartTime s' !! n = _targetStartTime s !! n ∧
  _targetInputPositions s' !! n = _targetInputPositions s !! n ∧
  _targetInputNormals s' !! n = _targetInputNormals s !! n.

End HandlerStatements.

Section StoreStatements.

Context {F : Type} `{FloatOps F}.

(** What one software pass does to the store of vertex buffers: the buffer
    of the geometry that holds the attribute [name] is replaced by its
    skinned version ([None] where the pass is undefined). *)
Definition skin_pass (sk : Skin (F:=F)) (name : string) (geometry : Geometry)
    (inputData boneMatrices : list F) (doDeltaTransform : bool)
    (bufs : gmap Ref (VertexBuffer (F:=F))) : option (gmap Ref (VertexBuffer (F:=F))) :=
  r ← geometry_vertexBuffer bufs geometry name;
  vertexBuffer ← bufs !! r;
  attr ← find_attribute name (attributes vertexBuffer);
  vertexBuffer ← performSoftwareSkinningAttr sk attr vertexBuffer
                   inputData boneMatrices doDeltaTransform;
  Some (<[r := vertexBuffer]> bufs).

(** The two passes of [performSoftwareSkinning(target, boneMatrices)] on
    the store: the positions, then the normals when the geometry has a
    normal attribute and a snapshot of the normals exists. *)
Definition software_buffers (sk : Skin (F:=F)) (geometry : Geometry)
    (inputPositions : list F) (inputNormals : option (list F))
    (boneMatrices : list F)
    (bufs : gmap Ref (VertexBuffer (F:=F))) : option (gmap Ref (VertexBuffer (F:=F))) :=
  bufs ← skin_pass sk ATTRNAME_POSITION geometry inputPositions boneMatrices false bufs;
  match geometry_vertexBuffer bufs geometry ATTRNAME_NORMAL, inputNormals with
  | Some _, Some inputNormals =>
      skin_pass sk ATTRNAME_NORMAL geometry inputNormals boneMatrices true bufs
  | _, _ => Some bufs
  end.

(** Two buffers with the same attributes, stride and number of floats. *)
Definition same_layout (vb1 vb2 : VertexBuffer (F:=F)) : Prop :=
  attributes vb1 = attributes vb2 ∧ vertexSize vb1 = vertexSize vb2 ∧
  length (data vb1) = length (data vb2).

(** Two stores hold buffers of the same layout at the same references, and
    these have the same float at every position in [A]. *)
Definition agree_on (A : Ref → N → Prop)
    (bufs1 bufs2 : gmap Ref (VertexBuffer (F:=F))) : Prop :=
  ∀ r, match bufs1 !! r, bufs2 !! r with
       | Some vb1, Some vb2 =>
           same_layout vb1 vb2 ∧
           ∀ i, A r i → data vb1 !! N.to_nat i = data vb2 !! N.to_nat i
       | None, None => True
       | _, _ => False
       end.

(** The conditions under which the pass over the attribute [name] of
    [geometry] is defined: the attribute [attr] is found in the buffer [vb]
    at [r], lies within the stride, the input has the size of the buffer and
    the bones are within the matrix array. *)
Definition pass_ready (sk : Skin (F:=F)) (name : string) (geometry : Geometry)
    (inputData boneMatrices : list F) (bufs : gmap Ref (VertexBuffer (F:=F)))
    (r : Ref) (vb : VertexBuffer (F:=F)) (attr : Attribute) : Prop :=
  geometry_vertexBuffer bufs geometry name = Some r ∧
  bufs !! r = Some vb ∧
  find_attribute name (attributes vb) = Some attr ∧
  attribute_in_stride attr vb ∧
  length inputData = length (data vb) ∧
  bones_in_range sk boneMatrices.

(** Position [i] of the buffer at [r'] is a slot of [attr] in the buffer [vb] at [r]. *)
Definition slot_of (r : Ref) (attr : Attribute) (vb : VertexBuffer (F:=F))
    (r' : Ref) (i : N) : Prop :=
  r' = r ∧ written_slot attr vb i.

(** Position [i] of the buffer at [r'] is a slot of the attribute [name]
    of [geometry]. *)
Definition pass_slot (name : string) (geometry : Geometry)
    (bufs : gmap Ref (VertexBuffer (F:=F))) (r' : Ref) (i : N) : Prop :=
  ∃ r vb attr,
    geometry_vertexBuffer bufs geometry name = Some r ∧ bufs !! r = Some vb ∧
    find_attribute name (attributes vb) = Some attr ∧ slot_of r attr vb r' i.

(** The slots that a software update of [geometry] writes: those of the
    position attribute and, when a snapshot of the normals exists, those of
    the normal attribute. *)
Definition update_slot (geometry : Geometry) (inputNormals : option (list F))
    (bufs : gmap Ref (VertexBuffer (F:=F))) (r' : Ref) (i : N) : Prop :=
  pass_slot ATTRNAME_POSITION geometry bufs r' i ∨
  (is_Some inputNormals ∧ pass_slot ATTRNAME_NORMAL geometry bufs r' i).

(** The conditions under which both passes of a software update are
    defined. *)
Definition update_ready (sk : Skin (F:=F)) (geometry : Geometry)
    (inputPositions : list F) (inputNormals : option (list F))
    (boneMatrices : list F) (bufs : gmap Ref (VertexBuffer (F:=F)))
    (r : Ref) (vb : VertexBuffer (F:=F)) (attr : Attribute) : Prop :=
  pass_ready sk ATTRNAME_POSITION geometry inputPositions boneMatrices bufs r vb attr ∧
  ∀ inN rn,
    inputNormals = Some inN →
    geometry_vertexBuffer bufs geometry ATTRNAME_NORMAL = Some rn →
    ∃ nb nattr, pass_ready sk ATTRNAME_NORMAL geometry inN boneMatrices bufs rn nb nattr.

End StoreStatements.

(** Further scenes over exact integer arithmetic. *)
Module Scenes.

#[local] Existing Instance Z_FloatOps.

(** A component constructed without a skin and without a context. *)
Definition null_world : World (F:=Z) :=
  {| this := create None SOFTWARE None; geometries := ∅; buffers := ∅ |}.

(** A component constructed with a skin and without a context. *)
Definition world_without_context : World (F:=Z) :=
  {| this := create (Some Example.skin) HARDWARE None; geometries := ∅; buffers := ∅ |}.

(** The software world after [initialize], nothing attached. *)
Definition initialized_world : World (F:=Z) :=
  Example.after initialize Example.software_world.

(** The hardware world with [node] attached at time 42. *)
Definition hardware_attached_world : World (F:=Z) :=
  Example.after (addedHandler Example.scene 42 Example.node Example.node Example.parent)
    Example.hardware_world.

(** A second frame, in which bone 0 translates and bone 1 is the identity. *)
Definition frame1 : list Z := Example.translation_matrix ++ Example.identity_matrix.

(** The skin of the examples with two frames; the frame is the elapsed
    time, in whole units. *)
Definition skin2 : Skin (F:=Z) :=
  {| numBones := 2; duration := 5%Z;
     vertexBones := [[(1, 1%Z)]; [(1, 1%Z); (0, 2%Z)]; []];
     frames := [Example.frame0; frame1];
     getFrameId := λ t, Z.to_N t |}.

(** The software world of [skin2], initialised. *)
Definition initialized_world2 : World (F:=Z) :=
  Example.after initialize (Example.world skin2 SOFTWARE Example.mesh).

(** The same with [node] attached at time 42. *)
Definition attached_world2 : World (F:=Z) :=
  Example.after (addedHandler Example.scene 42 Example.node Example.node Example.parent)
    initialized_world2.

(** A skin whose only vertex refers to bone 5, of which the frame has no matrix. *)
Definition skin_with_missing_bone : Skin (F:=Z) :=
  {| numBones := 2; duration := 5%Z;
     vertexBones := [[(5, 1%Z)]];
     frames := [Example.frame0];
     getFrameId := λ _, 0 |}.

(** The matrices of [frame0] with other fourth rows. *)
Definition frame0_projective : list Z :=
  [1; 0; 0; 0;  0; 1; 0; 0;  0; 0; 1; 0;  9; 9; 9; 9;
   1; 0; 0; 10;  0; 1; 0; 20;  0; 0; 1; 30;  7; 7; 7; 7]%Z.

(** The geometry of [node] in the hardware world once attached, and the
    reference of the shared bone vertex buffer. *)
Definition hardware_geometry : Geometry :=
  default {| vertexBuffers := []; gdata := ∅ |}
    (geometries hardware_attached_world !! Example.geometry_ref).

Definition bone_buffer_ref : Ref :=
  default 1%positive (_boneVertexBuffer (this Example.hardware_world)).

(** The geometry of the examples before it is attached. *)
Definition plain_geometry : Geometry :=
  {| vertexBuffers := [Example.mesh_ref]; gdata := ∅ |}.

(** A second target and a second root with a driver of its own. *)
Definition second_node : Node := 3%positive.
Definition second_root : Node := 200%positive.
Definition second_driver : Ref := 10%positive.

(** Two targets in two separate scenes: each is under a root of its own,
    and both roots carry a driver. *)
Definition two_scenes : Scene :=
  {| targets := [Example.node; second_node];
     root := λ n, if decide (n = second_node) then second_root else Example.scene_root;
     sceneManager := λ n,
       if decide (n = Example.scene_root) then Some Example.driver
       else if decide (n = second_root) then Some second_driver else None;
     surface := surface Example.scene |}.

(** The two targets under one root, which carries the driver. *)
Definition shared_scene : Scene :=
  {| targets := [Example.node; second_node];
     root := λ _, Example.scene_root;
     sceneManager := sceneManager Example.scene;
     surface := surface Example.scene |}.

(** The two targets under roots that carry no driver. *)
Definition driverless_scene : Scene :=
  {| targets := [Example.node; second_node];
     root := root two_scenes;
     sceneManager := λ _, None;
     surface := surface Example.scene |}.

End Scenes.

(** ** Integers held by floats *)

(** The float [x] is a non-negative number of the format whose value
    [m * 2^e] is the integer [n]. *)
Definition holds_integer (x : SpecFloat.spec_float) (n : N) : Prop :=
  match x with
  | SpecFloat.S754_zero false => n = 0
  | SpecFloat.S754_finite false m e => (e ≤ 0)%Z ∧ Z.pos m = (Z.of_N n * 2 ^ (- e))%Z
  | _ => False
  end.

(** * Properties *)

(** ** Arithmetic *)

(** Integer arithmetic satisfies the unit and zero laws. *)
Lemma Z_FloatLaws : @FloatLaws Z Z_FloatOps Z_FloatRel.
Proof. split; simpl; intros; (done || lia). Qed.

(** ** Loops *)

Lemma for_range_invariant {S} (I : N → S → Prop) (body : N → S → option S)
    (count : nat) (start : N) (s : S) :
  I start s →
  (∀ i s, start ≤ i < start + N.of_nat count → I i s →
          ∃ s', body i s = Some s' ∧ I (N.succ i) s') →
  ∃ s', for_range start count body s = Some s' ∧ I (start + N.of_nat count) s'.
Proof.
  revert start s. induction count as [|count IH]; intros start s HI Hstep.
  - exists s. split; [done|]. by replace (start + N.of_nat 0) with start by lia.
  - destruct (Hstep start s) as (s1 & Hb & HI1); [lia|done|].
    destruct (IH (N.succ start) s1) as (s2 & Hr & HI2); [done| |].
    + intros i s' Hi. apply Hstep. lia.
    + exists s2. simpl. rewrite Hb. simpl. split; [done|].
      by replace (start + N.of_nat (Datatypes.S count))
        with (N.succ start + N.of_nat count) by lia.
Qed.

Lemma vec_set_Some {A} (v : list A) (i : N) (x : A) :
  i < N.of_nat (length v) → vec_set v i x = Some (<[N.to_nat i := x]> v).
Proof. intros Hi. unfold vec_set. by rewrite decide_True. Qed.

Lemma to_uint_small (n : N) : n < UINT_RANGE → to_uint n = n.
Proof. intros Hn. unfold to_uint. by apply N.mod_small. Qed.

Section Blend.

Context {F : Type} `{FloatOps F}.

Implicit Types (sk : Skin (F:=F)) (vb : VertexBuffer (F:=F)).

(** One bone: under the range condition the step is defined and adds the
    weighted, transformed coordinate to each accumulator. *)
Lemma blendBone_defined (boneMatrices : list F) (delta : bool) (x1 y1 z1 : F)
    (boneId : uint) (w : F) (x2 y2 z2 : F) :
  N.of_nat (length boneMatrices) ≤ UINT_RANGE →
  16 * boneId + 16 ≤ N.of_nat (length boneMatrices) →
  blendBone boneMatrices delta x1 y1 z1 (boneId, w) (x2, y2, z2) =
    Some (fadd x2 (fmul w (transform_row boneMatrices delta 0 x1 y1 z1 boneId)),
          fadd y2 (fmul w (transform_row boneMatrices delta 1 x1 y1 z1 boneId)),
          fadd z2 (fmul w (transform_row boneMatrices delta 2 x1 y1 z1 boneId))).
Proof.
  intros Hlen Hb.
  assert (Hbase : uint_shl boneId 4 = 16 * boneId).
  { unfold uint_shl. rewrite N.shiftl_mul_pow2. change (2 ^ 4) with 16.
    rewrite to_uint_small; unfold UINT_RANGE in *; lia. }
  assert (Hget : ∀ k, k < 16 →
    vec_get boneMatrices (uint_shl boneId 4 + k) = Some (matrix_entry boneMatrices boneId k)).
  { intros k Hk. unfold vec_get, matrix_entry. rewrite Hbase.
    destruct (lookup_lt_is_Some_2 boneMatrices (N.to_nat (16 * boneId + k))) as [m Hm];
      [lia|]. by rewrite Hm. }
  unfold blendBone, transform_row. cbv zeta.
  destruct delta; simpl negb; cbv iota;
    rewrite !Hget by lia; reflexivity.
Qed.

Lemma weighted_sum_snoc (term : N → F) (pairs : list (uint * F)) (p : uint * F) :
  weighted_sum term (pairs ++ [p]) = fadd (weighted_sum term pairs) (fmul p.2 (term p.1)).
Proof. unfold weighted_sum. by rewrite foldl_app. Qed.

(** The loop over the bones of a vertex computes the three weighted sums. *)
Lemma blendVertex_defined sk (boneMatrices : list F) (delta : bool) (vId : uint)
    (x1 y1 z1 : F) :
  N.of_nat (length boneMatrices) ≤ UINT_RANGE →
  Forall (λ p : uint * F, 16 * p.1 + 16 ≤ N.of_nat (length boneMatrices)) (bonesOf sk vId) →
  blendVertex sk boneMatrices delta vId x1 y1 z1 =
    Some (weighted_sum (transform_row boneMatrices delta 0 x1 y1 z1) (bonesOf sk vId),
          weighted_sum (transform_row boneMatrices delta 1 x1 y1 z1) (bonesOf sk vId),
          weighted_sum (transform_row boneMatrices delta 2 x1 y1 z1) (bonesOf sk vId)).
Proof.
  intros Hlen Hbones. unfold blendVertex, numVertexBones.
  set (bones := bonesOf sk vId) in *.
  set (sums j := (weighted_sum (transform_row boneMatrices delta 0 x1 y1 z1) (take j bones),
                  weighted_sum (transform_row boneMatrices delta 1 x1 y1 z1) (take j bones),
                  weighted_sum (transform_row boneMatrices delta 2 x1 y1 z1) (take j bones))).
  edestruct (for_range_invariant (λ j acc, acc = sums (N.to_nat j))) as (acc & -> & ->).
  - reflexivity.
  - intros j acc Hj ->. unfold vertexBoneData. fold bones.
    destruct (lookup_lt_is_Some_2 bones (N.to_nat j)) as [[b w] Hbw]; [lia|].
    rewrite Hbw. simpl. eexists. split.
    + apply blendBone_defined; [done|].
      by apply (Forall_lookup_1 _ _ _ _ Hbones Hbw).
    + unfold sums. rewrite N2Nat.inj_succ.
      rewrite (take_S_r _ _ _ Hbw), !weighted_sum_snoc. reflexivity.
  - unfold sums. f_equal.
    replace (N.to_nat (0 + N.of_nat (N.to_nat (N.of_nat (length bones)))))
      with (length bones) by lia.
    by rewrite firstn_all.
Qed.

Lemma bonesOf_in_range sk (boneMatrices : list F) (vId : uint) :
  bones_in_range sk boneMatrices →
  Forall (λ p : uint * F, 16 * p.1 + 16 ≤ N.of_nat (length boneMatrices)) (bonesOf sk vId).
Proof.
  intros [_ Hall]. unfold bonesOf.
  destruct (vertexBones sk !! N.to_nat vId) as [l|] eqn:Hl; simpl; [|constructor].
  by apply (Forall_lookup_1 _ _ _ _ Hall Hl).
Qed.

Lemma coordinate_lookup (inputData : list F) (vertexSize offset vId c : N) :
  offset + vId * vertexSize + c < N.of_nat (length inputData) →
  inputData !! N.to_nat (offset + vId * vertexSize + c) =
    Some (coordinate inputData vertexSize offset vId c).
Proof.
  intros Hlt. unfold coordinate.
  destruct (lookup_lt_is_Some_2 inputData (N.to_nat (offset + vId * vertexSize + c)))
    as [x Hx]; [lia|]. by rewrite Hx.
Qed.

(** The rows of a buffer: vertex [vId] of [len / vs] has its whole row
    inside the vector. *)
Lemma row_in_vector (len vs vId : N) :
  vs ≠ 0 → vId < len / vs → vId * vs + vs ≤ len.
Proof.
  intros Hvs Hv. pose proof (N.Div0.mul_div_le len vs) as Hle.
  assert (vId * vs + vs ≤ vs * (len / vs)) by nia. lia.
Qed.

Lemma rows_disjoint (vs v v' : N) : v' < v → v' * vs + vs ≤ v * vs.
Proof. intros Hlt. nia. Qed.

(** What one pass of the software path does to a buffer: it is defined,
    keeps the buffer's length, writes the blended coordinates of every
    vertex at the attribute's offset in the vertex's row, and leaves every
    other float as it was. *)
Lemma performSoftwareSkinningAttr_spec sk (attr : Attribute) vb
    (inputData boneMatrices : list F) (delta : bool) :
  attribute_in_stride attr vb →
  length inputData = length (data vb) →
  bones_in_range sk boneMatrices →
  ∃ out : list F,
    performSoftwareSkinningAttr sk attr vb inputData boneMatrices delta
      = Some (set_data vb out) ∧
    length out = length (data vb) ∧
    (∀ vId c, vId < N.of_nat (length (data vb)) / vertexSize vb → c < 3 →
       out !! N.to_nat (attr_offset attr + vId * vertexSize vb + c) =
         Some (skinned sk boneMatrices inputData delta
                 (vertexSize vb) (attr_offset attr) vId c)) ∧
    (∀ i, ¬ written_slot attr vb i → out !! N.to_nat i = data vb !! N.to_nat i).
Proof.
  intros (Hvs & Hoff & Hlen) Hin Hbones.
  unfold performSoftwareSkinningAttr, written_slot. cbv zeta.
  rewrite decide_False by done.
  set (vs := vertexSize vb) in *. set (off := attr_offset attr) in *.
  set (len := N.of_nat (length (data vb))) in *.
  assert (Hnv : to_uint (len / vs) = len / vs).
  { apply to_uint_small. pose proof (N.Div0.div_le_upper_bound len vs len).
    assert (len / vs ≤ len) by (apply N.Div0.div_le_upper_bound; nia). lia. }
  rewrite Hnv.
  set (I := λ (v : N) (st : uint * list F),
    (v < len / vs → st.1 = off + v * vs) ∧ length st.2 = length (data vb) ∧
    (∀ v' c, v' < v → c < 3 →
       st.2 !! N.to_nat (off + v' * vs + c) =
         Some (skinned sk boneMatrices inputData delta vs off v' c)) ∧
    (∀ i, (∀ v' c, v' < v → c < 3 → i ≠ off + v' * vs + c) →
       st.2 !! N.to_nat i = data vb !! N.to_nat i)).
  destruct (for_range_invariant I
              (skinVertex sk inputData boneMatrices delta vs)
              (N.to_nat (len / vs)) 0 (off, data vb))
    as ([index out] & Hrun & Hidx & Hlength & Hwritten & Hother).
  - unfold I; simpl. repeat split; intros; lia.
  - intros v [index out] Hv (Hidx & Hlength & Hwritten & Hother). simpl in *.
    assert (Hrow : v * vs + vs ≤ len) by (apply row_in_vector; [done|lia]).
    assert (Hindex : index = off + v * vs) by (apply Hidx; lia).
    subst index.
    assert (H1 : uint_add (off + v * vs) 1 = off + v * vs + 1).
    { apply to_uint_small. lia. }
    assert (H2 : uint_add (off + v * vs) 2 = off + v * vs + 2).
    { apply to_uint_small. lia. }
    unfold skinVertex. rewrite H1, H2. unfold vec_get.
    assert (Hx1 : inputData !! N.to_nat (off + v * vs) =
                    Some (coordinate inputData vs off v 0)).
    { rewrite <- coordinate_lookup by (fold len in Hin; lia). f_equal. lia. }
    rewrite Hx1, !coordinate_lookup by (fold len in Hin; lia). simpl.
    rewrite blendVertex_defined
      by first [apply Hbones | by apply bonesOf_in_range]. simpl.
    rewrite vec_set_Some by (fold len in Hlength; lia). simpl.
    rewrite vec_set_Some by (rewrite length_insert; fold len in Hlength; lia). simpl.
    rewrite vec_set_Some by (rewrite !length_insert; fold len in Hlength; lia). simpl.
    eexists. split; [reflexivity|]. unfold I; simpl. repeat split.
    + intros Hnext. pose proof (row_in_vector len vs (N.succ v) Hvs Hnext).
      unfold uint_add. rewrite to_uint_small; lia.
    + by rewrite !length_insert.
    + intros v' c Hv' Hc.
      destruct (decide (v' = v)) as [->|Hne].
      * assert (c = 0 ∨ c = 1 ∨ c = 2) as [Hc0|[Hc1|Hc2]] by lia; subst c.
        -- rewrite list_lookup_insert_ne by lia.
           rewrite list_lookup_insert_ne by lia.
           replace (off + v * vs + 0) with (off + v * vs) by lia.
           rewrite list_lookup_insert_eq by (fold len in Hlength; lia). reflexivity.
        -- rewrite list_lookup_insert_ne by lia.
           rewrite list_lookup_insert_eq
             by (rewrite length_insert; fold len in Hlength; lia). reflexivity.
        -- rewrite list_lookup_insert_eq
             by (rewrite !length_insert; fold len in Hlength; lia). reflexivity.
      * assert (v' < v) as Hlt by lia.
        pose proof (rows_disjoint vs v v' Hlt).
        rewrite !list_lookup_insert_ne by lia. by apply Hwritten.
    + intros i Hi.
      pose proof (Hi v 0) as Hi0. pose proof (Hi v 1) as Hi1. pose proof (Hi v 2) as Hi2.
      rewrite !list_lookup_insert_ne by lia.
      apply Hother. intros v' c Hv' Hc. apply Hi; lia.
  - simpl in *. rewrite Hrun. simpl. exists out. repeat split; [done| |].
    + intros vId c Hv Hc. apply Hwritten; lia.
    + intros i Hi. apply Hother. intros v' c Hv' Hc ->. apply Hi.
      exists v', c. repeat split; [lia|done].
Qed.

End Blend.

(** ** IEEE binary32 satisfies the laws *)

Section Binary32Laws.

Import Floats.SpecFloat.
Import Binary32.

Local Open Scope Z_scope.

Lemma digits2_pos_size p : digits2_pos p = Pos.size p.
Proof. induction p; simpl; congruence. Qed.

Lemma Zdigits2_log2 m : 0 < m → Zdigits2 m = Z.log2 m + 1.
Proof.
  destruct m as [|p|p]; [lia| |lia]. intros _. simpl.
  rewrite digits2_pos_size. destruct p; simpl; lia.
Qed.

Lemma fexp_eq e : fexp prec emax e = Z.max (e - 24) (-149).
Proof. reflexivity. Qed.

Lemma shr_m_shr_1 mrs : 0 ≤ shr_m mrs → shr_m (shr_1 mrs) = Z.shiftr (shr_m mrs) 1.
Proof.
  rewrite <- Z.div2_spec. destruct mrs as [m r s]. simpl.
  destruct m as [|[p|p|]|p]; simpl; intros; try reflexivity; lia.
Qed.

Lemma shr_m_iter p mrs :
  0 ≤ shr_m mrs → shr_m (iter_pos shr_1 p mrs) = Z.shiftr (shr_m mrs) (Zpos p).
Proof.
  revert mrs. induction p as [p IH|p IH|]; intros mrs Hm; simpl.
  - assert (H1 : 0 ≤ shr_m (shr_1 mrs)).
    { rewrite shr_m_shr_1 by done. apply Z.shiftr_nonneg. done. }
    assert (H2 : 0 ≤ shr_m (iter_pos shr_1 p (shr_1 mrs))).
    { rewrite IH by done. apply Z.shiftr_nonneg. done. }
    rewrite IH, IH, shr_m_shr_1, !Z.shiftr_shiftr by (done || lia).
    f_equal. lia.
  - assert (H2 : 0 ≤ shr_m (iter_pos shr_1 p mrs)).
    { rewrite IH by done. apply Z.shiftr_nonneg. done. }
    rewrite IH, IH, !Z.shiftr_shiftr by (done || lia).
    f_equal. lia.
  - by apply shr_m_shr_1.
Qed.

Lemma shr_spec mrs e n :
  0 ≤ shr_m mrs → 0 ≤ n →
  shr_m (fst (shr mrs e n)) = Z.shiftr (shr_m mrs) n ∧ snd (shr mrs e n) = e + n.
Proof.
  intros Hm Hn. destruct n as [|p|p]; simpl; [|by rewrite shr_m_iter|lia].
  rewrite Z.shiftr_0_r. lia.
Qed.

Lemma round_nearest_even_cases m l :
  round_nearest_even m l = m ∨ round_nearest_even m l = m + 1.
Proof.
  destruct l as [|[| |]]; simpl; auto. destruct (Z.even m); auto.
Qed.

Lemma Zdigits2_nonneg m : 0 ≤ m → 0 ≤ Zdigits2 m.
Proof. destruct m; simpl; lia. Qed.

Lemma Zdigits2_shiftr m n :
  0 < m → 0 ≤ n → 0 < Z.shiftr m n → Zdigits2 (Z.shiftr m n) = Zdigits2 m - n.
Proof.
  intros Hm Hn Hs. rewrite !Zdigits2_log2 by done.
  rewrite Z.log2_shiftr by done.
  destruct (Z.le_gt_cases n (Z.log2 m)) as [Hle|Hgt]; [lia|].
  rewrite Z.shiftr_eq_0 in Hs; lia.
Qed.

Lemma shiftr_zero_digits m n :
  0 < m → 0 ≤ n → Z.shiftr m n = 0 → Zdigits2 m ≤ n.
Proof.
  intros Hm Hn Hs. rewrite Zdigits2_log2 by done.
  apply Z.shiftr_eq_0_iff in Hs as [?|[_ ?]]; lia.
Qed.

Lemma Zdigits2_succ m :
  0 < m → Zdigits2 (m + 1) = Zdigits2 m ∨ Zdigits2 (m + 1) = Zdigits2 m + 1.
Proof.
  intros Hm. rewrite !Zdigits2_log2 by lia.
  destruct (Z.log2_succ_or m) as [Hs|Hs]; unfold Z.succ in Hs; lia.
Qed.

(** The arithmetic of the two shifts of [binary_round_aux]. *)
Lemma canonical_after_round (m e m'' : Z) :
  0 < m →
  let n := fexp prec emax (Zdigits2 m + e) - e in
  0 ≤ n →
  (m'' = Z.shiftr m n ∨ m'' = Z.shiftr m n + 1) →
  let e' := e + n in
  let n2 := fexp prec emax (Zdigits2 m'' + e') - e' in
  0 ≤ n2 ∧
  (0 < Z.shiftr m'' n2 →
   fexp prec emax (Zdigits2 (Z.shiftr m'' n2) + (e' + n2)) = e' + n2).
Proof.
  intros Hm n Hn Hround e' n2.
  assert (Hm' : 0 ≤ Z.shiftr m n) by (apply Z.shiftr_nonneg; lia).
  assert (Hd : 0 < Zdigits2 m) by (rewrite Zdigits2_log2 by done; pose proof (Z.log2_nonneg m); lia).
  destruct (Z.eq_dec (Z.shiftr m n) 0) as [Hz|Hnz].
  - (* everything was shifted out *)
    pose proof (shiftr_zero_digits m n Hm Hn Hz) as Hdn.
    assert (He' : e' = -149) by (subst e' n; rewrite fexp_eq in *; lia).
    rewrite Hz in Hround. destruct Hround as [-> | ->].
    + subst n2. simpl Zdigits2. rewrite fexp_eq, He'. split; [lia|].
      rewrite Z.shiftr_0_l. lia.
    + subst n2. simpl Zdigits2. rewrite fexp_eq, He'. simpl. split; [lia|].
      intros _. reflexivity.
  - assert (Hpos : 0 < Z.shiftr m n) by lia.
    pose proof (Zdigits2_shiftr m n Hm Hn Hpos) as Hdig.
    assert (Hcanon : fexp prec emax (Zdigits2 (Z.shiftr m n) + e') = e').
    { subst e' n. rewrite Hdig. rewrite !fexp_eq in *. lia. }
    assert (Hk : 0 < Zdigits2 (Z.shiftr m n)).
    { rewrite Zdigits2_log2 by done. pose proof (Z.log2_nonneg (Z.shiftr m n)). lia. }
    destruct Hround as [-> | ->].
    + subst n2. rewrite Hcanon. split; [lia|]. rewrite Z.sub_diag, Z.shiftr_0_r.
      intros _. rewrite Z.add_0_r. exact Hcanon.
    + destruct (Zdigits2_succ (Z.shiftr m n) Hpos) as [Hs|Hs].
      * subst n2. rewrite Hs, Hcanon. split; [lia|]. rewrite Z.sub_diag, Z.shiftr_0_r.
        intros _. rewrite Z.add_0_r, Hs. exact Hcanon.
      * set (k := Zdigits2 (Z.shiftr m n)) in *.
        rewrite fexp_eq in Hcanon.
        assert (Hn2 : n2 = 0 ∨ n2 = 1) by (subst n2; rewrite Hs, fexp_eq; lia).
        destruct Hn2 as [Hn2|Hn2]; rewrite Hn2; split; try lia.
        -- intros _. rewrite Z.shiftr_0_r, Hs, fexp_eq.
           subst n2. rewrite Hs, fexp_eq in Hn2. lia.
        -- intros Hpos2.
           rewrite Zdigits2_shiftr by lia. rewrite Hs, fexp_eq.
           subst n2. rewrite Hs, fexp_eq in Hn2. lia.
Qed.

Lemma binary_round_aux_valid sx m e :
  0 < m → e ≤ fexp prec emax (Zdigits2 m + e) →
  valid_binary prec emax (binary_round_aux prec emax sx m e loc_Exact) = true.
Proof.
  intros Hm He. unfold binary_round_aux, shr_fexp.
  set (n := fexp prec emax (Zdigits2 m + e) - e).
  assert (Hn : 0 ≤ n) by (subst n; lia).
  pose proof (shr_spec (shr_record_of_loc m loc_Exact) e n) as Hshr1.
  destruct (shr (shr_record_of_loc m loc_Exact) e n) as [mrs' e'].
  destruct Hshr1 as [Hm' He']; [simpl; lia|done|]. simpl in Hm', He'. subst e'.
  set (m'' := round_nearest_even (shr_m mrs') (loc_of_shr_record mrs')).
  assert (Hround : m'' = Z.shiftr m n ∨ m'' = Z.shiftr m n + 1).
  { subst m''. rewrite <- Hm'. apply round_nearest_even_cases. }
  destruct (canonical_after_round m e m'' Hm Hn Hround) as [Hn2 Hcanon].
  fold n in Hn2, Hcanon.
  set (n2 := fexp prec emax (Zdigits2 m'' + (e + n)) - (e + n)) in *.
  assert (Hm''pos : 0 ≤ m'').
  { assert (0 ≤ Z.shiftr m n) by (apply Z.shiftr_nonneg; lia). lia. }
  pose proof (shr_spec (shr_record_of_loc m'' loc_Exact) (e + n) n2) as Hshr2.
  destruct (shr (shr_record_of_loc m'' loc_Exact) (e + n) n2) as [mrs'' e''].
  destruct Hshr2 as [Hmf Hef]; [simpl; lia|done|]. simpl in Hmf, Hef. subst e''.
  rewrite <- Hmf in Hcanon.
  destruct (shr_m mrs'') as [|q|q]; [reflexivity| |reflexivity].
  destruct (e + n + n2 <=? emax - prec) eqn:Hle; [|reflexivity].
  simpl. unfold bounded, canonical_mantissa. rewrite Hle, andb_true_r.
  apply Z.eqb_eq. apply Hcanon. lia.
Qed.

Lemma digits2_pos_iter_xO mx d :
  Zpos (digits2_pos (Pos.iter xO mx d)) = Zpos (digits2_pos mx) + Zpos d.
Proof.
  induction d as [|d IH] using Pos.peano_ind.
  - simpl. lia.
  - rewrite Pos.iter_succ. simpl. lia.
Qed.

Lemma binary_round_valid sx mx ex :
  valid_binary prec emax (binary_round prec emax sx mx ex) = true.
Proof.
  unfold binary_round, shl_align.
  destruct (fexp prec emax (Zpos (digits2_pos mx) + ex) - ex) as [|d|d] eqn:Hd.
  - apply binary_round_aux_valid; [lia|]. simpl Zdigits2. lia.
  - apply binary_round_aux_valid; [lia|]. simpl Zdigits2. lia.
  - apply binary_round_aux_valid; [lia|]. simpl Zdigits2.
    rewrite digits2_pos_iter_xO. rewrite !fexp_eq in *. lia.
Qed.

Lemma SFadd_valid x y :
  valid_binary prec emax x = true → valid_binary prec emax y = true →
  valid_binary prec emax (SFadd prec emax x y) = true.
Proof.
  intros Hx Hy.
  destruct x as [sx|sx| |sx mx ex], y as [sy|sy| |sy my ey]; simpl;
    try done; try (by destruct sx, sy).
  unfold binary_normalize.
  destruct (cond_Zopp sx (Z.pos (shl_align mx ex (ex `min` ey)).1) +
            cond_Zopp sy (Z.pos (shl_align my ey (ex `min` ey)).1));
    [done|apply binary_round_valid..].
Qed.

Lemma SFmul_one_l x :
  valid_binary prec emax x = true → SFmul prec emax (S754_finite false 8388608 (-23)) x = x.
Proof.
  destruct x as [sx|sx| |sx mx ex]; try done.
  simpl. unfold bounded, canonical_mantissa. intros [Hcanon Hle]%andb_prop.
  apply Z.eqb_eq in Hcanon. rewrite fexp_eq in Hcanon.
  unfold binary_round_aux, shr_fexp.
  assert (Hdigits : Zdigits2 (Z.pos (8388608 * mx)) = Z.pos (digits2_pos mx) + 23).
  { exact (digits2_pos_iter_xO mx 23). }
  rewrite Hdigits.
  replace (fexp prec emax (Z.pos (digits2_pos mx) + 23 + (-23 + ex)) - (-23 + ex))
    with 23 by (rewrite fexp_eq; lia).
  change (shr (shr_record_of_loc (Z.pos (8388608 * mx)) loc_Exact) (-23 + ex) 23)
    with ({| shr_m := Z.pos mx; shr_r := false; shr_s := false |}, -23 + ex + 23).
  cbn [shr_m loc_of_shr_record round_nearest_even shr_record_of_loc Zdigits2].
  replace (fexp prec emax (Z.pos (digits2_pos mx) + (-23 + ex + 23)) - (-23 + ex + 23))
    with 0 by (rewrite fexp_eq; lia).
  cbn [shr shr_m].
  replace (-23 + ex + 23) with ex by lia.
  by rewrite Hle.
Qed.

Lemma same_number_refl x : same_number x x.
Proof. by left. Qed.

Lemma same_number_sym x y : same_number x y → same_number y x.
Proof. intros [->|(s & s' & -> & ->)]; [by left|right; eauto]. Qed.

Lemma same_number_trans x y z : same_number x y → same_number y z → same_number x z.
Proof.
  intros [->|(s & s' & -> & ->)] Hyz; [done|].
  destruct Hyz as [<-|(t & t' & _ & ->)]; right; eauto.
Qed.

Lemma SFadd_same_number x x' y y' :
  same_number x x' → same_number y y' →
  same_number (SFadd prec emax x y) (SFadd prec emax x' y').
Proof.
  intros [->|(s & s' & -> & ->)] [->|(t & t' & -> & ->)].
  - by left.
  - destruct x' as [sx|sx| |sx mx ex]; simpl; try (by left).
    destruct sx, t, t'; simpl; try (by left); right; eauto.
  - destruct y' as [sy|sy| |sy my ey]; simpl; try (by left).
    destruct s, s', sy; simpl; try (by left); right; eauto.
  - destruct s, s', t, t'; simpl; try (by left); right; eauto.
Qed.

Lemma SFadd_zero_l x : same_number (SFadd prec emax (S754_zero false) x) x.
Proof.
  destruct x as [sx|sx| |sx mx ex]; simpl; try (by left).
  destruct sx; [right; eauto|by left].
Qed.

Lemma SFadd_zero_r x : same_number (SFadd prec emax x (S754_zero false)) x.
Proof.
  destruct x as [sx|sx| |sx mx ex]; simpl; try (by left).
  destruct sx; [right; eauto|by left].
Qed.

Lemma SFmul_zero_l x :
  is_finite x → same_number (SFmul prec emax (S754_zero false) x) (S754_zero false).
Proof.
  destruct x as [sx|sx| |sx mx ex]; simpl; try done; intros _; right; eauto.
Qed.

Lemma valid_same_number x y :
  same_number x y → valid_binary prec emax x = true → valid_binary prec emax y = true.
Proof. by intros [->|(s & s' & -> & ->)]. Qed.

(** Binary32 arithmetic satisfies the unit and zero laws, zeros of either
    sign being the same number. *)
Lemma Binary32_FloatLaws : @FloatLaws spec_float Binary32.ops Binary32.rel.
Proof.
  split.
  - exact same_number_refl.
  - exact same_number_sym.
  - exact same_number_trans.
  - exact valid_same_number.
  - reflexivity.
  - exact SFadd_valid.
  - exact SFadd_same_number.
  - exact SFadd_zero_l.
  - exact SFadd_zero_r.
  - intros x Hx.
    change (same_number (SFmul prec emax (S754_finite false 8388608 (-23)) x) x).
    rewrite SFmul_one_l by exact Hx. apply same_number_refl.
  - intros x _. exact (SFmul_zero_l x).
Qed.

End Binary32Laws.

(** ** The bone vertex buffer *)

Section BoneBuffer.

Context {F : Type} `{FloatOps F}.

Implicit Types (sk : Skin (F:=F)).

(** One of the two [while] loops of a row: the first [min numVertexBones 4]
    slots from [index] receive their values, the rest of the vector is
    unchanged. *)
Lemma packSlots_spec (value : uint → option F) (vals : N → F)
    (numVertexBones index : uint) (vertexData : list F) :
  index + 4 ≤ N.of_nat (length vertexData) →
  N.of_nat (length vertexData) < UINT_RANGE →
  (∀ j, j < N.min numVertexBones 4 → value j = Some (vals j)) →
  ∃ d,
    packSlots value numVertexBones 16 index vertexData = Some d ∧
    length d = length vertexData ∧
    (∀ j, j < N.min numVertexBones 4 → d !! N.to_nat (index + j) = Some (vals j)) ∧
    (∀ i, ¬ (index ≤ i < index + N.min numVertexBones 4) →
          d !! N.to_nat i = vertexData !! N.to_nat i).
Proof.
  intros Hroom Hlen Hval. unfold packSlots.
  change (uint_shr 16 2) with 4.
  set (n := N.min numVertexBones 4) in *.
  set (I := λ (j : N) (d : list F),
    length d = length vertexData ∧
    (∀ j', j' < j → d !! N.to_nat (index + j') = Some (vals j')) ∧
    (∀ i, ¬ (index ≤ i < index + j) → d !! N.to_nat i = vertexData !! N.to_nat i)).
  destruct (for_range_invariant I
              (λ j d, x ← value j; vec_set d (uint_add index j) x)
              (N.to_nat n) 0 vertexData) as (d & Hrun & Hlength & Hset & Hother).
  - unfold I. repeat split; intros; lia.
  - intros j d Hj (Hlength & Hset & Hother).
    rewrite Hval by lia. simpl.
    assert (Hadd : uint_add index j = index + j).
    { apply to_uint_small. lia. }
    rewrite Hadd, vec_set_Some by lia.
    eexists. split; [reflexivity|]. unfold I. repeat split.
    + by rewrite length_insert.
    + intros j' Hj'. destruct (decide (j' = j)) as [->|Hne].
      * rewrite list_lookup_insert_eq by lia. reflexivity.
      * rewrite list_lookup_insert_ne by lia. apply Hset. lia.
    + intros i Hi. rewrite list_lookup_insert_ne by lia. apply Hother. lia.
  - exists d. repeat split; [done|done| |].
    + intros j Hj. apply Hset. lia.
    + intros i Hi. apply Hother. lia.
Qed.

Lemma vertexBoneId_defined sk (vId j : uint) :
  j < numVertexBones sk vId →
  (f_of_uint <$> vertexBoneId sk vId j) =
    Some (default fzero (f_of_uint <$> vertexBoneId sk vId j)).
Proof.
  intros Hj. unfold vertexBoneId, vertexBoneData, numVertexBones in *.
  destruct (lookup_lt_is_Some_2 (bonesOf sk vId) (N.to_nat j)) as [p Hp]; [lia|].
  by rewrite Hp.
Qed.

Lemma vertexBoneWeight_defined sk (vId j : uint) :
  j < numVertexBones sk vId →
  vertexBoneWeight sk vId j = Some (default fzero (vertexBoneWeight sk vId j)).
Proof.
  intros Hj. unfold vertexBoneWeight, vertexBoneData, numVertexBones in *.
  destruct (lookup_lt_is_Some_2 (bonesOf sk vId) (N.to_nat j)) as [p Hp]; [lia|].
  by rewrite Hp.
Qed.

Lemma vertexBoneData_beyond sk (vId j : uint) :
  numVertexBones sk vId ≤ j → vertexBoneData sk vId j = None.
Proof.
  intros Hj. unfold vertexBoneData, numVertexBones in *.
  apply lookup_ge_None. lia.
Qed.

(** What the builder produces: a vector of [numVertices] rows of 16
    floats whose slots are those of [packed_slot_built]. *)
Lemma boneVertexData_spec sk :
  maxNumVertexBones sk ≤ MAX_NUM_BONES_PER_VERTEX →
  numVertices sk * 16 < UINT_RANGE →
  ∃ d,
    boneVertexData sk = Some d ∧
    N.of_nat (length d) = numVertices sk * 16 ∧
    ∀ vId slot, vId < numVertices sk → slot < 16 →
      d !! N.to_nat (vId * 16 + slot) = Some (packed_slot_built sk vId slot).
Proof.
  intros Hmax Hsize. unfold boneVertexData. cbv zeta.
  rewrite decide_True by done.
  assert (Hmul : uint_mul (numVertices sk) 16 = numVertices sk * 16).
  { by apply to_uint_small. }
  rewrite Hmul.
  set (nv := numVertices sk) in *.
  set (zeros := replicate (N.to_nat (nv * 16)) fzero).
  set (I := λ (v : N) (st : uint * list F),
    st.1 = v * 16 ∧ N.of_nat (length st.2) = nv * 16 ∧
    (∀ v' slot, v' < v → slot < 16 →
       st.2 !! N.to_nat (v' * 16 + slot) = Some (packed_slot_built sk v' slot)) ∧
    (∀ i, v * 16 ≤ i < nv * 16 → st.2 !! N.to_nat i = Some fzero)).
  destruct (for_range_invariant I (packVertex sk 16) (N.to_nat nv) 0 (0, zeros))
    as ([index d] & Hrun & _ & Hlength & Hslots & _).
  - unfold I, zeros; simpl. repeat split.
    + rewrite length_replicate. lia.
    + intros; lia.
    + intros i Hi. apply lookup_replicate_2. lia.
  - intros v [index d] Hv (Hidx & Hlength & Hslots & Hzero). simpl in *. subst index.
    unfold packVertex. change (uint_shr 16 1) with 8.
    destruct (packSlots_spec (λ j, f_of_uint <$> vertexBoneId sk v j)
                (λ j, default fzero (f_of_uint <$> vertexBoneId sk v j))
                (numVertexBones sk v) (v * 16) d)
      as (d1 & Hrun1 & Hlen1 & Hset1 & Hother1); [lia|lia| |].
    { intros j Hj. apply vertexBoneId_defined. lia. }
    rewrite Hrun1. simpl.
    assert (Hadd1 : uint_add (v * 16) 8 = v * 16 + 8) by (apply to_uint_small; lia).
    rewrite Hadd1.
    destruct (packSlots_spec (vertexBoneWeight sk v)
                (λ j, default fzero (vertexBoneWeight sk v j))
                (numVertexBones sk v) (v * 16 + 8) d1)
      as (d2 & Hrun2 & Hlen2 & Hset2 & Hother2); [lia|lia| |].
    { intros j Hj. apply vertexBoneWeight_defined. lia. }
    rewrite Hrun2. simpl.
    eexists. split; [reflexivity|]. unfold I; simpl. repeat split.
    + assert (v * 16 + 8 + 8 < UINT_RANGE) by lia.
      unfold uint_add. rewrite to_uint_small; lia.
    + lia.
    + intros v' slot Hv' Hslot.
      destruct (decide (v' = v)) as [->|Hne].
      * unfold packed_slot_built.
        destruct (decide (slot < 4)) as [Hs4|Hs4].
        -- rewrite Hother2 by lia.
           destruct (decide (slot < numVertexBones sk v)) as [Hb|Hb].
           ++ rewrite Hset1 by lia. reflexivity.
           ++ rewrite Hother1 by lia. rewrite Hzero by lia.
              unfold vertexBoneId. rewrite vertexBoneData_beyond by lia. reflexivity.
        -- destruct (decide (8 ≤ slot < 12)) as [Hs12|Hs12].
           ++ destruct (decide (slot - 8 < numVertexBones sk v)) as [Hb|Hb].
              ** replace (v * 16 + slot) with (v * 16 + 8 + (slot - 8)) by lia.
                 rewrite Hset2 by lia. reflexivity.
              ** rewrite Hother2, Hother1, Hzero by lia.
                 unfold vertexBoneWeight. rewrite vertexBoneData_beyond by lia.
                 reflexivity.
           ++ rewrite Hother2, Hother1, Hzero by lia. reflexivity.
      * rewrite Hother2, Hother1 by lia. apply Hslots; lia.
    + intros i Hi. rewrite Hother2, Hother1 by lia. apply Hzero. lia.
  - rewrite Hrun. simpl in *. exists d. repeat split; [done|].
    intros vId slot Hv Hslot. apply Hslots; lia.
Qed.

(** The buffer has the four attributes of width 4 and a stride of 16. *)
Lemma boneVertexBuffer_spec sk :
  maxNumVertexBones sk ≤ MAX_NUM_BONES_PER_VERTEX →
  numVertices sk * 16 < UINT_RANGE →
  ∃ vb,
    boneVertexBuffer sk = Some vb ∧
    vertexSize vb = 16 ∧
    vb_numVertices vb = numVertices sk ∧
    attributes vb = [(ATTRNAME_BONE_IDS_A, 4, 0); (ATTRNAME_BONE_IDS_B, 4, 4);
                     (ATTRNAME_BONE_WEIGHTS_A, 4, 8); (ATTRNAME_BONE_WEIGHTS_B, 4, 12)] ∧
    ∀ vId slot, vId < numVertices sk → slot < 16 →
      data vb !! N.to_nat (vId * 16 + slot) = Some (packed_slot_built sk vId slot).
Proof.
  intros Hmax Hsize.
  destruct (boneVertexData_spec sk Hmax Hsize) as (d & Hd & Hlen & Hslots).
  unfold boneVertexBuffer. rewrite Hd. simpl. eexists. split; [reflexivity|].
  repeat split; [|done].
  unfold vb_numVertices. simpl. rewrite Hlen. by rewrite N.div_mul.
Qed.

(** For a vertex with at most 4 bones the row that is built is the row
    of the design document. *)
Lemma packed_slot_built_few_bones sk (vId slot : N) :
  numVertexBones sk vId ≤ 4 →
  packed_slot_built sk vId slot = packed_slot sk vId slot.
Proof.
  intros Hfew. unfold packed_slot_built, packed_slot.
  destruct (decide (slot < 4)) as [H4|H4].
  - by rewrite decide_True by lia.
  - destruct (decide (slot < 8)) as [H8|H8].
    + rewrite decide_False by lia.
      unfold vertexBoneId. rewrite vertexBoneData_beyond by lia. reflexivity.
    + destruct (decide (8 ≤ slot < 12)) as [H12|H12]; [done|].
      unfold vertexBoneWeight. rewrite vertexBoneData_beyond by lia. reflexivity.
Qed.

(** For a vertex with more than 4 bones, the slots of the fifth to eighth
    bone id and weight stay zero in the row that is built. *)
Lemma packed_slot_built_high_group sk (vId slot : N) :
  4 ≤ slot < 8 ∨ 12 ≤ slot < 16 →
  packed_slot_built sk vId slot = fzero.
Proof.
  intros Hslot. unfold packed_slot_built.
  rewrite decide_False by lia. by rewrite decide_False by lia.
Qed.

End BoneBuffer.

(** ** One pass of the software path *)

Section SoftwarePass.

Context {F : Type} `{FloatOps F}.

Implicit Types (sk : Skin (F:=F)) (vb : VertexBuffer (F:=F)).

(** C9: for an attribute processed by the software path, only the three
    floats at the attribute's offset in each vertex's row are overwritten;
    the pass is defined, keeps the layout and the length of the buffer, and
    every other float of the buffer keeps its value. *)
Theorem software_pass_writes_only_attribute sk (attr : Attribute) vb
    (inputData boneMatrices : list F) (doDeltaTransform : bool) :
  attribute_in_stride attr vb →
  length inputData = length (data vb) →
  bones_in_range sk boneMatrices →
  ∃ vb',
    performSoftwareSkinningAttr sk attr vb inputData boneMatrices doDeltaTransform
      = Some vb' ∧
    attributes vb' = attributes vb ∧
    vertexSize vb' = vertexSize vb ∧
    length (data vb') = length (data vb) ∧
    ∀ i, ¬ written_slot attr vb i → data vb' !! N.to_nat i = data vb !! N.to_nat i.
Proof.
  intros Hattr Hlen Hbones.
  destruct (performSoftwareSkinningAttr_spec sk attr vb inputData boneMatrices
              doDeltaTransform Hattr Hlen Hbones) as (out & Hrun & Hlength & _ & Hother).
  exists (set_data vb out). by repeat split.
Qed.

(** The slots that are not written, in terms of the position in the row:
    a float whose position in its row is outside the attribute's three
    slots is not written. *)
Lemma not_written_outside_attribute (attr : Attribute) vb (i : N) :
  attribute_in_stride attr vb →
  i mod vertexSize vb < attr_offset attr ∨ attr_offset attr + 3 ≤ i mod vertexSize vb →
  ¬ written_slot attr vb i.
Proof.
  intros (Hvs & Hoff & _) Hi (vId & c & _ & Hc & ->).
  replace (attr_offset attr + vId * vertexSize vb + c)
    with (attr_offset attr + c + vId * vertexSize vb) in Hi by lia.
  rewrite N.Div0.mod_add, N.mod_small in Hi by lia. lia.
Qed.

(** C10: a vertex without bone influences gets (0,0,0) written at its
    attribute slots, whatever its bind-pose value, by the position
    transform and by the direction transform alike. *)
Theorem software_pass_zeroes_boneless_vertex sk (attr : Attribute) vb
    (inputData boneMatrices : list F) (doDeltaTransform : bool) (vId c : N) :
  attribute_in_stride attr vb →
  length inputData = length (data vb) →
  bones_in_range sk boneMatrices →
  vId < N.of_nat (length (data vb)) / vertexSize vb →
  numVertexBones sk vId = 0 →
  c < 3 →
  ∃ vb',
    performSoftwareSkinningAttr sk attr vb inputData boneMatrices doDeltaTransform
      = Some vb' ∧
    data vb' !! N.to_nat (attr_offset attr + vId * vertexSize vb + c) = Some fzero.
Proof.
  intros Hattr Hlen Hbones Hv Hnone Hc.
  destruct (performSoftwareSkinningAttr_spec sk attr vb inputData boneMatrices
              doDeltaTransform Hattr Hlen Hbones) as (out & Hrun & _ & Hwritten & _).
  exists (set_data vb out). split; [done|]. simpl.
  rewrite (Hwritten vId c Hv Hc). unfold skinned.
  unfold numVertexBones in Hnone.
  destruct (bonesOf sk vId) as [|p l]; [reflexivity|simpl in Hnone; lia].
Qed.

Lemma pure_translation_entry (boneMatrices : list F) (boneId : N) (tx ty tz : F) (k : N) :
  pure_translation boneMatrices boneId tx ty tz →
  k < 12 →
  matrix_entry boneMatrices boneId k =
    default fzero ([fone; fzero; fzero; tx; fzero; fone; fzero; ty;
                    fzero; fzero; fone; tz] !! N.to_nat k).
Proof.
  intros Hpure Hk. unfold matrix_entry. rewrite <- Hpure.
  rewrite lookup_take_lt by lia. rewrite lookup_drop. do 2 f_equal. lia.
Qed.

Section Translation.

Context `{FloatRel F} `{!FloatLaws F}.

Lemma fmul_one_valid (x : F) : fvalid x → fvalid (fmul fone x).
Proof. intros Hx. apply (fvalid_feq x); [apply feq_sym; by apply fmul_1_l|done]. Qed.

Lemma fmul_zero_valid (x : F) : fnumber x → fvalid (fmul fzero x).
Proof.
  intros [Hx Hfin]. apply (fvalid_feq fzero); [|apply fvalid_zero].
  apply feq_sym. by apply fmul_0_l.
Qed.

Lemma fadd_zero_zero : feq (fadd fzero fzero) fzero.
Proof. apply fadd_0_l. Qed.

(** A weight of one adds the term itself to the zero accumulator. *)
Lemma unit_weight (t : F) : fvalid t → feq (fadd fzero (fmul fone t)) t.
Proof. intros Ht. eapply feq_trans; [apply fadd_0_l|by apply fmul_1_l]. Qed.

(** The three rows of the identity applied to [(x,y,z)]. *)
Lemma identity_row_0 (x y z : F) :
  fnumber x → fnumber y → fnumber z →
  let l := fadd (fadd (fmul fone x) (fmul fzero y)) (fmul fzero z) in
  fvalid l ∧ feq l x.
Proof.
  intros Hx Hy Hz l. subst l. split.
  - repeat apply fadd_valid;
      [apply fmul_one_valid, Hx|by apply fmul_zero_valid|by apply fmul_zero_valid].
  - eapply feq_trans; [|apply fadd_0_r].
    apply fadd_feq; [|apply fmul_0_l; apply Hz].
    eapply feq_trans; [|apply fadd_0_r].
    apply fadd_feq; [apply fmul_1_l, Hx|apply fmul_0_l; apply Hy].
Qed.

Lemma identity_row_1 (x y z : F) :
  fnumber x → fnumber y → fnumber z →
  let l := fadd (fadd (fmul fzero x) (fmul fone y)) (fmul fzero z) in
  fvalid l ∧ feq l y.
Proof.
  intros Hx Hy Hz l. subst l. split.
  - repeat apply fadd_valid;
      [by apply fmul_zero_valid|apply fmul_one_valid, Hy|by apply fmul_zero_valid].
  - eapply feq_trans; [|apply fadd_0_r].
    apply fadd_feq; [|apply fmul_0_l; apply Hz].
    eapply feq_trans; [|apply fadd_0_l].
    apply fadd_feq; [apply fmul_0_l; apply Hx|apply fmul_1_l, Hy].
Qed.

Lemma identity_row_2 (x y z : F) :
  fnumber x → fnumber y → fnumber z →
  let l := fadd (fadd (fmul fzero x) (fmul fzero y)) (fmul fone z) in
  fvalid l ∧ feq l z.
Proof.
  intros Hx Hy Hz l. subst l. split.
  - repeat apply fadd_valid;
      [by apply fmul_zero_valid|by apply fmul_zero_valid|apply fmul_one_valid, Hz].
  - eapply feq_trans; [|apply fadd_0_l].
    apply fadd_feq; [|apply fmul_1_l, Hz].
    eapply feq_trans; [|apply fadd_zero_zero].
    apply fadd_feq; apply fmul_0_l; (apply Hx || apply Hy).
Qed.

(** The blended coordinate of a vertex bound with weight one to a
    pure translation. *)
Lemma skinned_pure_translation sk (inputData boneMatrices : list F)
    (vertexSize offset vId boneId : N) (tx ty tz : F) (delta : bool) (row : N) :
  bonesOf sk vId = [(boneId, fone)] →
  pure_translation boneMatrices boneId tx ty tz →
  Forall fnumber [coordinate inputData vertexSize offset vId 0;
                 coordinate inputData vertexSize offset vId 1;
                 coordinate inputData vertexSize offset vId 2] →
  Forall fvalid [tx; ty; tz] →
  row < 3 →
  let c := coordinate inputData vertexSize offset vId row in
  feq (skinned sk boneMatrices inputData delta vertexSize offset vId row)
      (if delta then c else fadd c (default fzero ([tx; ty; tz] !! N.to_nat row))).
Proof.
  intros Hbone Hpure Hcoords Htrans Hrow.
  apply Forall_cons in Hcoords as [Hx Hcoords].
  apply Forall_cons in Hcoords as [Hy Hcoords].
  apply Forall_cons in Hcoords as [Hz _].
  apply Forall_cons in Htrans as [Htx Htrans].
  apply Forall_cons in Htrans as [Hty Htrans].
  apply Forall_cons in Htrans as [Htz _].
  unfold skinned, weighted_sum, transform_row. rewrite Hbone. simpl.
  rewrite !(pure_translation_entry _ _ tx ty tz) by (done || lia).
  assert (row = 0 ∨ row = 1 ∨ row = 2) as [Hr|[Hr|Hr]] by lia; subst row; simpl.
  - destruct (identity_row_0 _ _ _ Hx Hy Hz) as [Hvalid Heq].
    destruct delta.
    + eapply feq_trans; [by apply unit_weight|done].
    + eapply feq_trans; [apply unit_weight; by apply fadd_valid|].
      apply fadd_feq; [done|apply feq_refl].
  - destruct (identity_row_1 _ _ _ Hx Hy Hz) as [Hvalid Heq].
    destruct delta.
    + eapply feq_trans; [by apply unit_weight|done].
    + eapply feq_trans; [apply unit_weight; by apply fadd_valid|].
      apply fadd_feq; [done|apply feq_refl].
  - destruct (identity_row_2 _ _ _ Hx Hy Hz) as [Hvalid Heq].
    destruct delta.
    + eapply feq_trans; [by apply unit_weight|done].
    + eapply feq_trans; [apply unit_weight; by apply fadd_valid|].
      apply fadd_feq; [done|apply feq_refl].
Qed.

(** C2: a vertex bound with weight 1 to a single bone whose matrix is a
    pure translation: the position transform outputs the bind-pose
    coordinate shifted by the translation, the direction transform outputs
    the bind-pose coordinate itself (both as numbers: in binary32 a zero may
    change its sign). *)
Theorem pure_translation_position_vs_direction
    sk (attr : Attribute) vb (inputData boneMatrices : list F)
    (vId boneId : N) (tx ty tz : F) :
  attribute_in_stride attr vb →
  length inputData = length (data vb) →
  bones_in_range sk boneMatrices →
  vId < N.of_nat (length (data vb)) / vertexSize vb →
  bonesOf sk vId = [(boneId, fone)] →
  pure_translation boneMatrices boneId tx ty tz →
  let x1 := coordinate inputData (vertexSize vb) (attr_offset attr) vId 0 in
  let y1 := coordinate inputData (vertexSize vb) (attr_offset attr) vId 1 in
  let z1 := coordinate inputData (vertexSize vb) (attr_offset attr) vId 2 in
  let index := N.to_nat (attr_offset attr + vId * vertexSize vb) in
  Forall fnumber [x1; y1; z1] →
  Forall fvalid [tx; ty; tz] →
  (∃ vb' x2 y2 z2,
     performSoftwareSkinningAttr sk attr vb inputData boneMatrices false = Some vb' ∧
     data vb' !! index = Some x2 ∧
     data vb' !! (index + 1)%nat = Some y2 ∧
     data vb' !! (index + 2)%nat = Some z2 ∧
     feq x2 (fadd x1 tx) ∧ feq y2 (fadd y1 ty) ∧ feq z2 (fadd z1 tz)) ∧
  (∃ vb' x2 y2 z2,
     performSoftwareSkinningAttr sk attr vb inputData boneMatrices true = Some vb' ∧
     data vb' !! index = Some x2 ∧
     data vb' !! (index + 1)%nat = Some y2 ∧
     data vb' !! (index + 2)%nat = Some z2 ∧
     feq x2 x1 ∧ feq y2 y1 ∧ feq z2 z1).
Proof.
  intros Hattr Hlen Hbones Hv Hbone Hpure x1 y1 z1 index Hcoords Htrans.
  assert (Hrow : ∀ delta row, row < 3 →
    feq (skinned sk boneMatrices inputData delta (vertexSize vb) (attr_offset attr) vId row)
        (let c := coordinate inputData (vertexSize vb) (attr_offset attr) vId row in
         if delta then c else fadd c (default fzero ([tx; ty; tz] !! N.to_nat row)))).
  { intros delta row Hrow.
    by apply (skinned_pure_translation sk inputData boneMatrices (vertexSize vb)
                (attr_offset attr) vId boneId tx ty tz delta row). }
  assert (Hslots : ∀ delta, ∃ vb',
    performSoftwareSkinningAttr sk attr vb inputData boneMatrices delta = Some vb' ∧
    data vb' !! index =
      Some (skinned sk boneMatrices inputData delta (vertexSize vb) (attr_offset attr) vId 0) ∧
    data vb' !! (index + 1)%nat =
      Some (skinned sk boneMatrices inputData delta (vertexSize vb) (attr_offset attr) vId 1) ∧
    data vb' !! (index + 2)%nat =
      Some (skinned sk boneMatrices inputData delta (vertexSize vb) (attr_offset attr) vId 2)).
  { intros delta.
    destruct (performSoftwareSkinningAttr_spec sk attr vb inputData boneMatrices
                delta Hattr Hlen Hbones) as (out & Hrun & _ & Hwritten & _).
    exists (set_data vb out). split; [done|]. simpl. subst index.
    rewrite <- (Hwritten vId 0 Hv), <- (Hwritten vId 1 Hv), <- (Hwritten vId 2 Hv) by lia.
    repeat split; f_equal; lia. }
  split.
  - destruct (Hslots false) as (vb' & Hrun & Hs0 & Hs1 & Hs2).
    eexists vb', _, _, _. repeat split; try eassumption.
    + apply (Hrow false 0). lia.
    + apply (Hrow false 1). lia.
    + apply (Hrow false 2). lia.
  - destruct (Hslots true) as (vb' & Hrun & Hs0 & Hs1 & Hs2).
    eexists vb', _, _, _. repeat split; try eassumption.
    + apply (Hrow true 0). lia.
    + apply (Hrow true 1). lia.
    + apply (Hrow true 2). lia.
Qed.

End Translation.

End SoftwarePass.

(** ** Initialisation, frame-tick source and frame guard *)

Ltac unfold_M :=
  repeat progress
    unfold mbind, M_bind, mret, M_ret, throw, undefined, defined,
      get_this, get_world, update_this, update_geometry, update_buffer, new_buffer.

Ltac simpl_world :=
  unfold with_frameBeginSlot, set_method, set_boneVertexBuffer, set_targetGeometry,
    set_targetStartTime, set_targetInputPositions, set_targetInputNormals,
    set_targetSlots, set_nodeSlots, set_frameBeginSlot;
  cbn [this geometries buffers _skin _context _method _boneVertexBuffer
       _targetGeometry _targetStartTime _targetInputPositions _targetInputNormals
       _targetAddedSlot _targetRemovedSlot _addedSlot _removedSlot _frameBeginSlot
       andb orb negb].

Section Lifecycle.

Context {F : Type} `{FloatOps F}.

Implicit Types (sk : Skin (F:=F)) (w : World (F:=F)) (s : Skinning (F:=F)).

Lemma World_eta w :
  {| this := this w; geometries := geometries w; buffers := buffers w |} = w.
Proof. by destruct w. Qed.

Lemma set_frameBeginSlot_id s : set_frameBeginSlot (_frameBeginSlot s) s = s.
Proof. by destruct s. Qed.

Lemma setSceneManager_spec (sm : option Ref) w :
  setSceneManager sm w = Returns () (with_frameBeginSlot sm w).
Proof.
  unfold setSceneManager, with_frameBeginSlot. destruct sm as [sm|]; [done|].
  unfold_M. destruct (_frameBeginSlot (this w)) eqn:Hslot; [done|].
  rewrite <- Hslot. by rewrite set_frameBeginSlot_id, World_eta.
Qed.

(** C5: when the target has no entry in the geometry map, or the frame
    index is not below the skin's frame count, [updateFrame] returns
    normally and leaves the component and the store exactly as they were. *)
Theorem updateFrame_skips w sk (target : Node) (frameId : uint) :
  _skin (this w) = Some sk →
  _targetGeometry (this w) !! target = None ∨ numFrames sk ≤ frameId →
  updateFrame target frameId w = Returns () w.
Proof.
  intros Hskin Hguard. unfold updateFrame. unfold_M.
  destruct (_targetGeometry (this w) !! target) as [g|] eqn:Hg; [|done].
  destruct Hguard as [?|Hframe]; [done|].
  rewrite Hskin. unfold_M. by rewrite decide_True.
Qed.

(** An unregistered target is skipped even before the skin is consulted. *)
Lemma updateFrame_unregistered w (target : Node) (frameId : uint) :
  _targetGeometry (this w) !! target = None →
  updateFrame target frameId w = Returns () w.
Proof. intros Hg. unfold updateFrame. unfold_M. by rewrite Hg. Qed.

(** The lookup itself, by the distinct root ancestors of the targets that
    carry a driver. *)
Lemma findSceneManager_by_roots (scene : Scene) w :
  match driverRoots scene with
  | [] => findSceneManager scene w = Returns () (with_frameBeginSlot None w)
  | [r] => ∃ sm, sceneManager scene r = Some sm ∧
                 findSceneManager scene w = Returns () (with_frameBeginSlot (Some sm) w)
  | _ :: _ :: _ =>
      findSceneManager scene w =
        Throws (logic_error "Renderer cannot be in two separate scenes.") w
  end.
Proof.
  destruct (driverRoots scene) as [|r [|r' roots]] eqn:Hroots.
  - unfold findSceneManager. rewrite Hroots.
    rewrite !decide_False by (simpl; lia). apply setSceneManager_spec.
  - assert (Hr : r ∈ driverRoots scene) by (rewrite Hroots; apply list_elem_of_here).
    unfold driverRoots in Hr. apply list_elem_of_filter in Hr as [[sm Hsm] _].
    exists sm. split; [done|].
    unfold findSceneManager. rewrite Hroots.
    rewrite decide_False by (simpl; lia). rewrite decide_True by done.
    change ([r] !! 0%nat ≫= sceneManager scene) with (sceneManager scene r).
    rewrite Hsm. apply setSceneManager_spec.
  - unfold findSceneManager. rewrite Hroots.
    rewrite decide_True by (simpl; lia). reflexivity.
Qed.

(** An exception of the lookup leaves the handlers that called it. *)
Lemma handlers_propagate (scene : Scene) w (e : exception) :
  findSceneManager scene w = Throws e w →
  (∀ now node target parent,
     addedHandler scene now node target parent w = Throws e w) ∧
  (∀ node target parent,
     removedHandler scene node target parent w = Throws e w).
Proof.
  intros Hthrow. split.
  - intros. unfold addedHandler. unfold mbind at 1. unfold M_bind. by rewrite Hthrow.
  - intros. unfold removedHandler. unfold mbind at 1. unfold M_bind. by rewrite Hthrow.
Qed.

(** The roots the lookup counts are the roots of the targets that carry a
    driver. *)
Lemma elem_of_driverRoots (scene : Scene) (r : Node) :
  r ∈ driverRoots scene ↔
  is_Some (sceneManager scene r) ∧ ∃ t, t ∈ targets scene ∧ root scene t = r.
Proof.
  unfold driverRoots, NodeSet_roots.
  rewrite list_elem_of_filter, elem_of_remove_dups, list_elem_of_fmap.
  split.
  - intros [Hsm (t & -> & Ht)]. eauto.
  - intros [Hsm (t & Ht & <-)]. eauto.
Qed.

Lemma NoDup_driverRoots (scene : Scene) : NoDup (driverRoots scene).
Proof. apply NoDup_filter, NoDup_remove_dups. Qed.

(** C8: the scene-manager lookup with which every attach and detach
    starts, by the roots of the behaviour's targets.  When two targets have
    distinct roots that both carry a driver, the lookup throws the logic
    error, and the exception leaves the attach and detach handlers that
    triggered it, the state untouched.  When some target's root carries a
    driver and every driver-carrying root of a target is that root, the
    lookup subscribes to the tick of that root's driver.  When no target's
    root carries a driver, it drops the subscription and returns. *)
Theorem findSceneManager_by_targets (scene : Scene) w :
  (∀ t t', t ∈ targets scene → t' ∈ targets scene →
     root scene t ≠ root scene t' →
     is_Some (sceneManager scene (root scene t)) →
     is_Some (sceneManager scene (root scene t')) →
     let e := logic_error "Renderer cannot be in two separate scenes." in
     findSceneManager scene w = Throws e w ∧
     (∀ now node target parent,
        addedHandler scene now node target parent w = Throws e w) ∧
     (∀ node target parent,
        removedHandler scene node target parent w = Throws e w)) ∧
  (∀ t sm, t ∈ targets scene →
     sceneManager scene (root scene t) = Some sm →
     (∀ t', t' ∈ targets scene → is_Some (sceneManager scene (root scene t')) →
            root scene t' = root scene t) →
     findSceneManager scene w = Returns () (with_frameBeginSlot (Some sm) w)) ∧
  ((∀ t, t ∈ targets scene → sceneManager scene (root scene t) = None) →
     findSceneManager scene w = Returns () (with_frameBeginSlot None w)).
Proof.
  pose proof (findSceneManager_by_roots scene w) as Hcases.
  pose proof (NoDup_driverRoots scene) as Hnodup.
  pose proof (elem_of_driverRoots scene) as Hroots.
  split_and!.
  - intros t t' Ht Ht' Hne Hsm Hsm'. cbv zeta.
    assert (Hr : root scene t ∈ driverRoots scene) by (apply Hroots; eauto).
    assert (Hr' : root scene t' ∈ driverRoots scene) by (apply Hroots; eauto).
    destruct (driverRoots scene) as [|r [|r' roots]].
    + by apply elem_of_nil in Hr.
    + apply list_elem_of_singleton in Hr, Hr'. congruence.
    + split; [done|]. by apply handlers_propagate.
  - intros t sm Ht Hsm Honly.
    assert (Hr : root scene t ∈ driverRoots scene) by (apply Hroots; eauto).
    assert (Hall : ∀ r, r ∈ driverRoots scene → r = root scene t).
    { intros r [Hd (t' & Ht' & <-)]%Hroots. by apply Honly. }
    destruct (driverRoots scene) as [|r [|r' roots]].
    + by apply elem_of_nil in Hr.
    + destruct Hcases as (sm' & Hsm' & Hfind).
      rewrite (Hall r) in Hsm' by apply list_elem_of_here. congruence.
    + exfalso. apply NoDup_cons in Hnodup as [Hnotin _]. apply Hnotin.
      rewrite (Hall r) by apply list_elem_of_here.
      rewrite <- (Hall r') by (apply list_elem_of_further, list_elem_of_here).
      apply list_elem_of_here.
  - intros Hnone. destruct (driverRoots scene) as [|r roots]; [done|].
    destruct (proj1 (Hroots r)) as [[sm Hsm] (t & Ht & <-)]; [apply list_elem_of_here|].
    rewrite Hnone in Hsm by done. discriminate.
Qed.

(** C3: with a skin and a context, a request for a method other than
    [SOFTWARE] never makes [initialize] fail: above the cap of 8 bones per
    vertex the method becomes [SOFTWARE] and no bone vertex buffer is
    created; within the cap the requested method is kept (and the buffer is
    the one [boneVertexBuffer] describes). *)
Theorem initialize_effective_method w sk (context : Ref) :
  _skin (this w) = Some sk →
  _context (this w) = Some context →
  _method (this w) ≠ SOFTWARE →
  (MAX_NUM_BONES_PER_VERTEX < maxNumVertexBones sk →
     ∃ w', initialize w = Returns () w' ∧
           _method (this w') = SOFTWARE ∧
           _boneVertexBuffer (this w') = None ∧
           buffers w' = buffers w) ∧
  (maxNumVertexBones sk ≤ MAX_NUM_BONES_PER_VERTEX →
   numVertices sk * 16 < UINT_RANGE →
     ∃ w' r vb, initialize w = Returns () w' ∧
           _method (this w') = _method (this w) ∧
           _boneVertexBuffer (this w') = Some r ∧
           boneVertexBuffer sk = Some vb ∧
           buffers w !! r = None ∧
           buffers w' = <[r := vb]> (buffers w)).
Proof.
  intros Hskin Hctx Hmethod. split.
  - intros Hmax. unfold initialize. unfold_M. rewrite Hskin, Hctx.
    rewrite bool_decide_eq_true_2 by done.
    rewrite bool_decide_eq_true_2 by done. simpl.
    eexists. split; [reflexivity|]. done.
  - intros Hmax Hsize.
    destruct (boneVertexBuffer_spec sk Hmax Hsize) as (vb & Hvb & _).
    unfold initialize, createVertexBufferForBones. unfold_M. rewrite Hskin, Hctx.
    rewrite (bool_decide_eq_false_2 (MAX_NUM_BONES_PER_VERTEX < _)) by lia.
    rewrite andb_false_r. rewrite decide_False by done.
    rewrite Hskin, Hvb. simpl.
    eexists _, _, vb. split; [reflexivity|]. simpl. repeat split.
    apply not_elem_of_dom, is_fresh.
Qed.

End Lifecycle.

(** ** Attachment and detachment *)

Section Attachment.

Context {F : Type} `{FloatOps F}.

Implicit Types (sk : Skin (F:=F)) (w : World (F:=F)) (s : Skinning (F:=F)).

Lemma M_bind_Returns {A B} (m : M A) (f : A → M B) w (a : A) w' :
  m w = Returns a w' → (m ≫= f) w = f a w'.
Proof. intros Hm. unfold mbind, M_bind. by rewrite Hm. Qed.

Lemma findSceneManager_returns (scene : Scene) w :
  (length (driverRoots scene) ≤ 1)%nat →
  ∃ b, findSceneManager scene w = Returns () (with_frameBeginSlot b w).
Proof.
  intros Hroots. pose proof (findSceneManager_by_roots scene w) as Hcases.
  destruct (driverRoots scene) as [|r [|r' roots]]; [eauto| |simpl in Hroots; lia].
  destruct Hcases as (sm & _ & Hfind). eauto.
Qed.

Lemma geometry_vertexBuffer_buffer (bufs : gmap Ref (VertexBuffer (F:=F)))
    (geometry : Geometry) (name : string) (r : Ref) :
  geometry_vertexBuffer bufs geometry name = Some r → is_Some (bufs !! r).
Proof.
  unfold geometry_vertexBuffer. intros Hfind.
  apply List.find_some in Hfind as [_ Hhas]. unfold buffer_has_attribute in Hhas.
  destruct (bufs !! r); [eauto|done].
Qed.

(** What registering a compatible node does to the component and to the
    node's geometry. *)
Lemma addedHandler_registers (scene : Scene) (now : Z) (node target parent : Node)
    w sk (g : Ref) :
  _skin (this w) = Some sk →
  (length (driverRoots scene) ≤ 1)%nat →
  (_method (this w) ≠ SOFTWARE → is_Some (_boneVertexBuffer (this w))) →
  compatible scene w sk node g →
  ∃ w1,
    addedHandler scene now node target parent w = Returns () w1 ∧
    _targetGeometry (this w1) = <[node := g]> (_targetGeometry (this w)) ∧
    _targetStartTime (this w1) = <[node := now]> (_targetStartTime (this w)) ∧
    (∃ geometry xyz xyzBuffer,
       geometries w !! g = Some geometry ∧
       geometry_vertexBuffer (buffers w) geometry ATTRNAME_POSITION = Some xyz ∧
       buffers w !! xyz = Some xyzBuffer ∧
       _targetInputPositions (this w1) =
         <[node := data xyzBuffer]> (_targetInputPositions (this w))) ∧
    (_targetInputNormals (this w1) = _targetInputNormals (this w) ∨
     ∃ d, _targetInputNormals (this w1) = <[node := d]> (_targetInputNormals (this w))) ∧
    _method (this w1) = _method (this w) ∧
    _boneVertexBuffer (this w1) = _boneVertexBuffer (this w) ∧
    buffers w1 = buffers w ∧
    ∃ geometry, geometries w !! g = Some geometry ∧
      geometries w1 =
        if decide (_method (this w) ≠ SOFTWARE) then
          match _boneVertexBuffer (this w) with
          | Some b =>
              <[g := data_set PNAME_NUM_BONES (PInt 0)
                       (data_set PNAME_BONE_MATRICES (PUniformArray 0 None)
                          (addVertexBuffer b geometry))]> (geometries w)
          | None => geometries w
          end
        else geometries w.
Proof.
  intros Hskin Hroots Hbone (Hdur & Hsurf & geometry & xyz & xyzBuffer &
                             Hgeo & Hxyz & Hbuf & Hnv).
  destruct (findSceneManager_returns scene w Hroots) as [slot Hfind].
  unfold addedHandler. rewrite (M_bind_Returns _ _ _ _ _ Hfind).
  unfold_M. simpl_world.
  rewrite Hskin, Hdur, Hsurf; simpl_world. rewrite Hgeo; simpl_world.
  rewrite Hxyz; simpl_world. rewrite Hbuf; simpl_world.
  rewrite decide_True by done. simpl_world.
  destruct (geometry_vertexBuffer (buffers w) geometry ATTRNAME_NORMAL) as [nrm|] eqn:Hnrm.
  - destruct (geometry_vertexBuffer_buffer _ geometry _ nrm Hnrm) as [normalBuffer Hnb].
    rewrite Hnb; simpl_world.
    destruct (decide (vb_numVertices normalBuffer = numVertices sk)) as [Hn|Hn];
      (destruct (decide (_method (this w) ≠ SOFTWARE)) as [Hm|Hm];
       [destruct (Hbone Hm) as [b Hb]; rewrite Hb; simpl_world; rewrite Hgeo;
        simpl_world; rewrite lookup_insert_eq; simpl_world;
        rewrite lookup_insert_eq; simpl_world; rewrite !insert_insert_eq
       |]);
      (eexists; split; [reflexivity|]; simpl_world; repeat split; eauto 10).
  - destruct (decide (_method (this w) ≠ SOFTWARE)) as [Hm|Hm];
       [destruct (Hbone Hm) as [b Hb]; rewrite Hb; simpl_world; rewrite Hgeo;
        simpl_world; rewrite lookup_insert_eq; simpl_world;
        rewrite lookup_insert_eq; simpl_world; rewrite !insert_insert_eq
       |];
      (eexists; split; [reflexivity|]; simpl_world; repeat split; eauto 10).
Qed.

(** What the detach handler does: every per-target map loses the key
    [target], and in a non-[SOFTWARE] mode the geometry registered for
    [target] loses the bone vertex buffer and the two bindings. *)
Lemma removedHandler_erases (scene : Scene) (node target parent : Node) w :
  (length (driverRoots scene) ≤ 1)%nat →
  (∀ g, _targetGeometry (this w) !! target = Some g →
        _method (this w) ≠ SOFTWARE →
        is_Some (_boneVertexBuffer (this w)) ∧ is_Some (geometries w !! g)) →
  ∃ w2,
    removedHandler scene node target parent w = Returns () w2 ∧
    _targetGeometry (this w2) = delete target (_targetGeometry (this w)) ∧
    _targetStartTime (this w2) = delete target (_targetStartTime (this w)) ∧
    _targetInputPositions (this w2) = delete target (_targetInputPositions (this w)) ∧
    _targetInputNormals (this w2) = delete target (_targetInputNormals (this w)) ∧
    _method (this w2) = _method (this w) ∧
    _boneVertexBuffer (this w2) = _boneVertexBuffer (this w) ∧
    buffers w2 = buffers w ∧
    geometries w2 =
      match _targetGeometry (this w) !! target with
      | Some g =>
          if decide (_method (this w) ≠ SOFTWARE) then
            match _boneVertexBuffer (this w), geometries w !! g with
            | Some b, Some geometry =>
                <[g := data_unset PNAME_NUM_BONES
                         (data_unset PNAME_BONE_MATRICES
                            (removeVertexBuffer b geometry))]> (geometries w)
            | _, _ => geometries w
            end
          else geometries w
      | None => geometries w
      end.
Proof.
  intros Hroots Hdef.
  destruct (findSceneManager_returns scene w Hroots) as [slot Hfind].
  unfold removedHandler. rewrite (M_bind_Returns _ _ _ _ _ Hfind).
  unfold_M. simpl_world.
  assert (Herase : ∀ {A} (m : gmap Node A),
            ¬ is_Some (m !! target) → m = delete target m).
  { intros A m Hnone. symmetry. apply delete_id. by apply eq_None_not_Some. }
  destruct (_targetGeometry (this w) !! target) as [g|] eqn:Hg; simpl_world.
  - destruct (decide (_method (this w) ≠ SOFTWARE)) as [Hm|Hm]; simpl_world.
    + destruct (Hdef g eq_refl Hm) as [[b Hb] [geometry Hgeo]].
      rewrite Hb; simpl_world. rewrite Hgeo; simpl_world.
      rewrite lookup_insert_eq; simpl_world. rewrite lookup_insert_eq; simpl_world.
      rewrite !insert_insert_eq.
      destruct (decide (is_Some (_targetStartTime (this w) !! target))) as [H1|H1];
        simpl_world;
        (destruct (decide (is_Some (_targetInputPositions (this w) !! target)))
           as [H2|H2]; simpl_world);
        (destruct (decide (is_Some (_targetInputNormals (this w) !! target)))
           as [H3|H3]; simpl_world);
        (eexists; split; [reflexivity|]; simpl_world; repeat split; auto).
    + destruct (decide (is_Some (_targetStartTime (this w) !! target))) as [H1|H1];
        simpl_world;
        (destruct (decide (is_Some (_targetInputPositions (this w) !! target)))
           as [H2|H2]; simpl_world);
        (destruct (decide (is_Some (_targetInputNormals (this w) !! target)))
           as [H3|H3]; simpl_world);
        (eexists; split; [reflexivity|]; simpl_world; repeat split; auto).
  - destruct (decide (is_Some (_targetStartTime (this w) !! target))) as [H1|H1];
      simpl_world;
      (destruct (decide (is_Some (_targetInputPositions (this w) !! target)))
         as [H2|H2]; simpl_world);
      (destruct (decide (is_Some (_targetInputNormals (this w) !! target)))
         as [H3|H3]; simpl_world);
      (eexists; split; [reflexivity|]; simpl_world; repeat split; auto);
      symmetry; by apply delete_id.
Qed.

(** The pairing of events that does restore the state: when the target of
    the detach event is the attached node itself, attaching a compatible,
    untracked node and then detaching brings the four per-target maps back
    to what they were, so that they again lack an entry for the node; in a
    non-[SOFTWARE] mode the node's geometry, which held the shared bone
    vertex buffer and the two bindings while attached, holds none of them
    afterwards. *)
Lemma attach_then_detach_restores (scene scene' : Scene) (now : Z)
    (node target parent node' parent' : Node) w sk (g : Ref) :
  _skin (this w) = Some sk →
  (length (driverRoots scene) ≤ 1)%nat →
  (length (driverRoots scene') ≤ 1)%nat →
  (_method (this w) ≠ SOFTWARE → is_Some (_boneVertexBuffer (this w))) →
  compatible scene w sk node g →
  untracked node (this w) →
  ∃ w1 w2,
    addedHandler scene now node target parent w = Returns () w1 ∧
    (_targetGeometry (this w1) !! node = Some g ∧
     _targetStartTime (this w1) !! node = Some now ∧
     is_Some (_targetInputPositions (this w1) !! node)) ∧
    removedHandler scene' node' node parent' w1 = Returns () w2 ∧
    (_targetGeometry (this w2) = _targetGeometry (this w) ∧
     _targetStartTime (this w2) = _targetStartTime (this w) ∧
     _targetInputPositions (this w2) = _targetInputPositions (this w) ∧
     _targetInputNormals (this w2) = _targetInputNormals (this w)) ∧
    untracked node (this w2) ∧
    (_method (this w) ≠ SOFTWARE →
       ∃ b geometry1 geometry2,
         _boneVertexBuffer (this w) = Some b ∧
         geometries w1 !! g = Some geometry1 ∧
         b ∈ vertexBuffers geometry1 ∧
         is_Some (gdata geometry1 !! PNAME_NUM_BONES) ∧
         is_Some (gdata geometry1 !! PNAME_BONE_MATRICES) ∧
         geometries w2 !! g = Some geometry2 ∧
         (b ∉ vertexBuffers geometry2) ∧
         gdata geometry2 !! PNAME_NUM_BONES = None ∧
         gdata geometry2 !! PNAME_BONE_MATRICES = None).
Proof.
  intros Hskin Hroots Hroots' Hbone Hcompat (Hu1 & Hu2 & Hu3 & Hu4).
  destruct (addedHandler_registers scene now node target parent w sk g
              Hskin Hroots Hbone Hcompat)
    as (w1 & Hadd & Hg1 & Ht1 & (_ & _ & xyzBuffer & _ & _ & _ & Hp1) & Hn1 & Hm1 & Hb1 &
        Hbuf1 & geometry & Hgeo & Hgeos1).
  assert (Hgeo1 : _method (this w) ≠ SOFTWARE →
            ∃ b, _boneVertexBuffer (this w) = Some b ∧
                 geometries w1 =
                   <[g := data_set PNAME_NUM_BONES (PInt 0)
                            (data_set PNAME_BONE_MATRICES (PUniformArray 0 None)
                               (addVertexBuffer b geometry))]> (geometries w)).
  { intros Hm. destruct (Hbone Hm) as [b Hb]. exists b. split; [done|].
    rewrite Hgeos1, decide_True by done. by rewrite Hb. }
  destruct (removedHandler_erases scene' node' node parent' w1 Hroots')
    as (w2 & Hrem & Hg2 & Ht2 & Hp2 & Hn2 & Hm2 & Hb2 & Hbuf2 & Hgeos2).
  { intros g' Hg' Hm. rewrite Hm1 in Hm. rewrite Hb1. split; [by apply Hbone|].
    rewrite Hg1, lookup_insert_eq in Hg'. injection Hg' as <-.
    destruct (Hgeo1 Hm) as (b & _ & ->). rewrite lookup_insert_eq. eauto. }
  assert (Hnormals : _targetInputNormals (this w2) = _targetInputNormals (this w)).
  { rewrite Hn2. destruct Hn1 as [->|[d' ->]];
      [by apply delete_id|by apply delete_insert_id]. }
  exists w1, w2. split; [done|]. split.
  { rewrite Hg1, Ht1, Hp1, !lookup_insert_eq. eauto. }
  split; [done|]. split.
  { rewrite Hg2, Ht2, Hp2, Hg1, Ht1, Hp1. by rewrite !delete_insert_id. }
  split.
  { unfold untracked. rewrite Hg2, Ht2, Hp2, Hn2, !lookup_delete_eq. done. }
  intros Hm. destruct (Hgeo1 Hm) as (b & Hb & Hgeos).
  rewrite Hg1, lookup_insert_eq, Hm1, decide_True, Hb1, Hb in Hgeos2 by done.
  rewrite Hgeos, lookup_insert_eq in Hgeos2.
  eexists b, _, _. split; [done|]. split; [by rewrite Hgeos, lookup_insert_eq|].
  split; [simpl; apply elem_of_app; right; by apply list_elem_of_singleton|].
  split; [simpl; rewrite lookup_insert_eq; eauto|].
  split; [simpl; rewrite lookup_insert_ne, lookup_insert_eq by done; eauto|].
  split; [by rewrite Hgeos2, lookup_insert_eq|].
  split; [simpl; intros [Hne _]%list_elem_of_filter; done|].
  split; simpl.
  - by rewrite lookup_delete_eq.
  - by rewrite lookup_delete_ne, lookup_delete_eq.
Qed.

(** C6: the two handlers do not key their entries alike: [addedHandler]
    registers under its first parameter, the node, and [removedHandler]
    erases under its second, the target of the event.  For an attach and a
    detach event with the same node, target and parent, the target being
    another node, which is not tracked (the node enters and leaves the scene
    with an ancestor), attaching and then detaching does not restore the
    state: the detachment erases nothing, the node keeps its entries in the
    per-target maps, and in a non-[SOFTWARE] mode its geometry keeps the
    shared bone vertex buffer and both bindings. *)
Theorem attach_then_detach_keeps_node (scene scene' : Scene) (now : Z)
    (node target parent : Node) w sk (g : Ref) :
  _skin (this w) = Some sk →
  (length (driverRoots scene) ≤ 1)%nat →
  (length (driverRoots scene') ≤ 1)%nat →
  (_method (this w) ≠ SOFTWARE → is_Some (_boneVertexBuffer (this w))) →
  compatible scene w sk node g →
  untracked node (this w) →
  untracked target (this w) →
  target ≠ node →
  ∃ w1 w2,
    addedHandler scene now node target parent w = Returns () w1 ∧
    removedHandler scene' node target parent w1 = Returns () w2 ∧
    (_targetGeometry (this w2) = _targetGeometry (this w1) ∧
     _targetStartTime (this w2) = _targetStartTime (this w1) ∧
     _targetInputPositions (this w2) = _targetInputPositions (this w1) ∧
     _targetInputNormals (this w2) = _targetInputNormals (this w1) ∧
     geometries w2 = geometries w1) ∧
    (_targetGeometry (this w2) !! node = Some g ∧
     _targetStartTime (this w2) !! node = Some now ∧
     is_Some (_targetInputPositions (this w2) !! node)) ∧
    ¬ untracked node (this w2) ∧
    (_method (this w) ≠ SOFTWARE →
       ∃ b geometry2,
         _boneVertexBuffer (this w) = Some b ∧
         geometries w2 !! g = Some geometry2 ∧
         b ∈ vertexBuffers geometry2 ∧
         is_Some (gdata geometry2 !! PNAME_NUM_BONES) ∧
         is_Some (gdata geometry2 !! PNAME_BONE_MATRICES)).
Proof.
  intros Hskin Hroots Hroots' Hbone Hcompat _ (Hu1 & Hu2 & Hu3 & Hu4) Hne.
  destruct (addedHandler_registers scene now node target parent w sk g
              Hskin Hroots Hbone Hcompat)
    as (w1 & Hadd & Hg1 & Ht1 & (_ & _ & xyzBuffer & _ & _ & _ & Hp1) & Hn1 & Hm1 & Hb1 &
        Hbuf1 & geometry & Hgeo & Hgeos1).
  assert (Htarget : _targetGeometry (this w1) !! target = None).
  { by rewrite Hg1, lookup_insert_ne. }
  destruct (removedHandler_erases scene' node target parent w1 Hroots')
    as (w2 & Hrem & Hg2 & Ht2 & Hp2 & Hn2 & Hm2 & Hb2 & Hbuf2 & Hgeos2).
  { intros g' Hg'. rewrite Htarget in Hg'. discriminate. }
  rewrite Htarget in Hgeos2.
  rewrite delete_id in Hg2 by done.
  rewrite delete_id in Ht2 by (by rewrite Ht1, lookup_insert_ne).
  rewrite delete_id in Hp2 by (by rewrite Hp1, lookup_insert_ne).
  rewrite delete_id in Hn2
    by (destruct Hn1 as [->|[d ->]]; [done|by rewrite lookup_insert_ne]).
  assert (Hnode : _targetGeometry (this w2) !! node = Some g).
  { by rewrite Hg2, Hg1, lookup_insert_eq. }
  exists w1, w2. split; [done|]. split; [done|]. split; [done|]. split.
  { split; [done|]. rewrite Ht2, Ht1, Hp2, Hp1, !lookup_insert_eq. eauto. }
  split.
  { intros (Hnone & _). rewrite Hnode in Hnone. discriminate. }
  intros Hm. destruct (Hbone Hm) as [b Hb]. rewrite decide_True, Hb in Hgeos1 by done.
  eexists b, _. split; [done|].
  split; [by rewrite Hgeos2, Hgeos1, lookup_insert_eq|].
  split; [simpl; apply elem_of_app; right; by apply list_elem_of_singleton|].
  split; simpl.
  - rewrite lookup_insert_eq. eauto.
  - rewrite lookup_insert_ne, lookup_insert_eq by done. eauto.
Qed.




End Attachment.

(** ** The frame update in software mode *)

Section Update.

Context {F : Type} `{FloatOps F}.

Implicit Types (sk : Skin (F:=F)) (w : World (F:=F)) (vb : VertexBuffer (F:=F)).

(** Replacing the contents of a buffer does not change where a geometry
    finds its attributes. *)
Lemma geometry_vertexBuffer_set_data (bufs : gmap Ref (VertexBuffer (F:=F)))
    (geometry : Geometry) (name : string) (r : Ref) vb (out : list F) :
  bufs !! r = Some vb →
  geometry_vertexBuffer (<[r := set_data vb out]> bufs) geometry name =
    geometry_vertexBuffer bufs geometry name.
Proof.
  intros Hr. unfold geometry_vertexBuffer.
  assert (Hsame : ∀ r', buffer_has_attribute (<[r := set_data vb out]> bufs) name r' =
                        buffer_has_attribute bufs name r').
  { intros r'. unfold buffer_has_attribute. destruct (decide (r = r')) as [<-|Hne].
    - by rewrite lookup_insert_eq, Hr.
    - by rewrite lookup_insert_ne. }
  induction (vertexBuffers geometry) as [|r' l IH]; [done|].
  simpl. by rewrite Hsame, IH.
Qed.

Lemma attribute_in_stride_set_data (attr : Attribute) vb (out : list F) :
  attribute_in_stride attr vb → length out = length (data vb) →
  attribute_in_stride attr (set_data vb out).
Proof. unfold attribute_in_stride. simpl. by intros ? ->. Qed.

(** One pass over an attribute of a registered geometry. *)
Lemma skinAttribute_runs sk (g : Ref) (name : string) (inputData boneMatrices : list F)
    (delta : bool) w (geometry : Geometry) (r : Ref) vb (attr : Attribute) :
  geometries w !! g = Some geometry →
  geometry_vertexBuffer (buffers w) geometry name = Some r →
  buffers w !! r = Some vb →
  find_attribute name (attributes vb) = Some attr →
  attribute_in_stride attr vb →
  length inputData = length (data vb) →
  bones_in_range sk boneMatrices →
  ∃ out,
    performSoftwareSkinningAttr sk attr vb inputData boneMatrices delta
      = Some (set_data vb out) ∧
    skinAttribute sk g name inputData boneMatrices delta w =
      Returns () {| this := this w; geometries := geometries w;
                    buffers := <[r := set_data vb out]> (buffers w) |}.
Proof.
  intros Hgeo Hfind Hbuf Hattr Hstride Hlen Hbones.
  destruct (performSoftwareSkinningAttr_spec sk attr vb inputData boneMatrices
              delta Hstride Hlen Hbones) as (out & Hrun & _).
  exists out. split; [done|].
  unfold skinAttribute. unfold_M. rewrite Hgeo; simpl_world.
  rewrite Hfind; simpl_world. rewrite Hbuf; simpl_world.
  rewrite Hattr; simpl_world. by rewrite Hrun.
Qed.

(** Slots of two attributes that do not overlap in the row are distinct. *)
Lemma written_slot_disjoint (attr attr' : Attribute) vb vb' (vId c : N) :
  vertexSize vb' = vertexSize vb →
  attr_offset attr + 3 ≤ vertexSize vb →
  attr_offset attr' + 3 ≤ vertexSize vb →
  attr_offset attr + 3 ≤ attr_offset attr' ∨ attr_offset attr' + 3 ≤ attr_offset attr →
  c < 3 →
  ¬ written_slot attr' vb' (attr_offset attr + vId * vertexSize vb + c).
Proof.
  intros Hvs Hoff Hoff' Hdisjoint Hc (v' & c' & _ & Hc' & Heq). rewrite Hvs in Heq.
  destruct (N.lt_trichotomy vId v') as [Hlt|[->|Hlt]].
  - pose proof (rows_disjoint (vertexSize vb) v' vId Hlt). lia.
  - lia.
  - pose proof (rows_disjoint (vertexSize vb) vId v' Hlt). lia.
Qed.

(** C1: for a registered target and a frame in range, the software path
    returns, leaves the component (and so the snapshots) as it was, and
    the live position buffer then holds, for each vertex and each of the
    three coordinates, the weighted sum over the vertex's (boneId, weight)
    pairs of the corresponding row of the bone's matrix applied, with its
    translation entry, to the coordinate read from the snapshot of the
    positions taken at attachment. *)
Theorem software_update_blends_positions w sk (target : Node) (frameId : uint)
    (boneMatrices : list F) (r : Ref) vb (attr : Attribute) (inputPositions : list F) :
  _skin (this w) = Some sk →
  _method (this w) ≠ HARDWARE →
  frameId < numFrames sk →
  matrices sk frameId = Some boneMatrices →
  software_ready w sk target boneMatrices r vb attr inputPositions →
  ∃ w' vb',
    updateFrame target frameId w = Returns () w' ∧
    this w' = this w ∧
    geometries w' = geometries w ∧
    buffers w' !! r = Some vb' ∧
    length (data vb') = length (data vb) ∧
    ∀ vId c, vId < N.of_nat (length (data vb)) / vertexSize vb → c < 3 →
      data vb' !! N.to_nat (attr_offset attr + vId * vertexSize vb + c) =
        Some (skinned sk boneMatrices inputPositions false
                (vertexSize vb) (attr_offset attr) vId c).
Proof.
  intros Hskin Hmethod Hframe Hmatrices
    (g & geometry & Hg & Hgeo & Hxyz & Hbuf & Hattr & Hstride & Hinput & Hlen &
     Hbones & Hnormals).
  destruct (performSoftwareSkinningAttr_spec sk attr vb inputPositions boneMatrices
              false Hstride Hlen Hbones) as (out & Hrun & Hlength & Hwritten & _).
  destruct (skinAttribute_runs sk g ATTRNAME_POSITION inputPositions boneMatrices
              false w geometry r vb attr Hgeo Hxyz Hbuf Hattr Hstride Hlen Hbones)
    as (out' & Hrun' & Hpass).
  rewrite Hrun in Hrun'. injection Hrun' as <-.
  set (w1 := {| this := this w; geometries := geometries w;
                buffers := <[r := set_data vb out]> (buffers w) |}) in *.
  assert (Hupdate : updateFrame target frameId w =
                    performSoftwareSkinning target boneMatrices w).
  { unfold updateFrame. unfold_M. rewrite Hg; simpl_world. rewrite Hskin; simpl_world.
    rewrite decide_False by lia. rewrite Hmatrices; simpl_world.
    by rewrite decide_False. }
  rewrite Hupdate. unfold performSoftwareSkinning, index_targetInputPositions.
  unfold_M. rewrite Hskin; simpl_world. rewrite Hg; simpl_world.
  rewrite Hinput; simpl_world. rewrite Hpass; simpl_world.
  subst w1; simpl_world. rewrite Hgeo; simpl_world.
  unfold hasVertexAttribute. rewrite geometry_vertexBuffer_set_data by done.
  destruct (geometry_vertexBuffer (buffers w) geometry ATTRNAME_NORMAL)
    as [rn|] eqn:Hrn;
    [|rewrite bool_decide_eq_false_2 by (by intros [? ?]); simpl_world;
      eexists _, _; split; [reflexivity|]; simpl_world;
      rewrite lookup_insert_eq; by repeat split].
  rewrite bool_decide_eq_true_2 by eauto.
  destruct (_targetInputNormals (this w) !! target) as [inputNormals|] eqn:Hin;
    [|rewrite bool_decide_eq_false_2 by (by intros [? ?]); simpl_world;
      eexists _, _; split; [reflexivity|]; simpl_world;
      rewrite lookup_insert_eq; by repeat split].
  rewrite bool_decide_eq_true_2 by eauto. simpl_world.
  unfold index_targetInputNormals. unfold_M. simpl_world. rewrite Hin; simpl_world.
  destruct (Hnormals inputNormals rn eq_refl eq_refl)
    as (normalBuffer & normalAttr & Hnb & Hnattr & Hnstride & Hnlen & Hdisjoint).
  set (w1 := {| this := this w; geometries := geometries w;
                buffers := <[r := set_data vb out]> (buffers w) |}).
  destruct (decide (rn = r)) as [->|Hne].
  - assert (normalBuffer = vb) as -> by congruence.
    destruct (performSoftwareSkinningAttr_spec sk normalAttr (set_data vb out)
                inputNormals boneMatrices true)
      as (out2 & Hrun2 & Hlength2 & _ & Hother2);
      [by apply attribute_in_stride_set_data|simpl; congruence|done|].
    destruct (skinAttribute_runs sk g ATTRNAME_NORMAL inputNormals boneMatrices
                true w1 geometry r (set_data vb out) normalAttr)
      as (out2' & Hrun2' & Hpass2);
      [done|by (simpl; rewrite geometry_vertexBuffer_set_data)
      |by apply lookup_insert_eq|done|by apply attribute_in_stride_set_data
      |simpl; congruence|done|].
    rewrite Hrun2 in Hrun2'. injection Hrun2' as <-.
    rewrite Hpass2. eexists _, _. split; [reflexivity|]. simpl_world.
    rewrite lookup_insert_eq. repeat split; [simpl in *; congruence|].
    intros vId c Hv Hc. simpl. rewrite <- (Hwritten vId c Hv Hc).
    apply Hother2.
    destruct Hstride as (_ & Hoff & _). destruct Hnstride as (_ & Hoffn & _).
    apply written_slot_disjoint; [done|done|done|by apply Hdisjoint|done].
  - destruct (skinAttribute_runs sk g ATTRNAME_NORMAL inputNormals boneMatrices
                true w1 geometry rn normalBuffer normalAttr)
      as (out2 & Hrun2 & Hpass2);
      [done|by (simpl; rewrite geometry_vertexBuffer_set_data)
      |by (simpl; rewrite lookup_insert_ne)|done|done|done|done|].
    rewrite Hpass2. eexists _, _. split; [reflexivity|]. subst w1. simpl_world.
    rewrite lookup_insert_ne by done. rewrite lookup_insert_eq. by repeat split.
Qed.

End Update.

(** * Instances of the theorems on the concrete scenes *)

Section Witnesses.

#[local] Existing Instance Z_FloatOps.

Lemma example_attribute_in_stride :
  attribute_in_stride Example.position_attribute Example.mesh.
Proof. split; [done|split; [vm_compute; discriminate|reflexivity]]. Defined.

Lemma example_normal_in_stride :
  attribute_in_stride Example.normal_attribute Example.mesh.
Proof. split; [done|split; [vm_compute; discriminate|reflexivity]]. Defined.

Lemma example_bones_in_range : bones_in_range Example.skin Example.frame0.
Proof.
  split; [vm_compute; discriminate|].
  repeat constructor; vm_compute; discriminate.
Defined.

Lemma software_pass_writes_only_attribute_witness :
  ∃ vb',
    performSoftwareSkinningAttr Example.skin Example.position_attribute Example.mesh
      (data Example.mesh) Example.frame0 false = Some vb' ∧
    attributes vb' = attributes Example.mesh ∧
    vertexSize vb' = vertexSize Example.mesh ∧
    length (data vb') = length (data Example.mesh) ∧
    ∀ i, ¬ written_slot Example.position_attribute Example.mesh i →
         data vb' !! N.to_nat i = data Example.mesh !! N.to_nat i.
Proof.
  apply software_pass_writes_only_attribute.
  - exact example_attribute_in_stride.
  - reflexivity.
  - exact example_bones_in_range.
Defined.

Lemma software_pass_zeroes_boneless_vertex_witness :
  ∃ vb',
    performSoftwareSkinningAttr Example.skin Example.normal_attribute Example.mesh
      (data Example.mesh) Example.frame0 true = Some vb' ∧
    data vb' !! 19%nat = Some 0%Z.
Proof.
  exact (software_pass_zeroes_boneless_vertex Example.skin Example.normal_attribute
           Example.mesh (data Example.mesh) Example.frame0 true 2 0
           example_normal_in_stride eq_refl example_bones_in_range
           eq_refl eq_refl eq_refl).
Defined.

Lemma updateFrame_skips_witness :
  updateFrame Example.node 1 Example.attached_world = Returns () Example.attached_world.
Proof.
  apply (updateFrame_skips Example.attached_world Example.skin Example.node 1).
  - vm_compute. reflexivity.
  - right. vm_compute. discriminate.
Defined.

Lemma initialize_effective_method_witness :
  (∃ w', initialize Example.world12 = Returns () w' ∧
         _method (this w') = SOFTWARE ∧
         _boneVertexBuffer (this w') = None ∧
         buffers w' = buffers Example.world12) ∧
  (∃ w' r vb, initialize (Example.world Example.skin HARDWARE Example.mesh)
                = Returns () w' ∧
         _method (this w') = HARDWARE ∧
         _boneVertexBuffer (this w') = Some r ∧
         boneVertexBuffer Example.skin = Some vb ∧
         buffers (Example.world Example.skin HARDWARE Example.mesh) !! r = None ∧
         buffers w' = <[r := vb]> (buffers (Example.world Example.skin HARDWARE Example.mesh))).
Proof.
  split.
  - apply (initialize_effective_method Example.world12 Example.skin12 Example.context);
      [reflexivity|reflexivity|discriminate|vm_compute; reflexivity].
  - apply (initialize_effective_method (Example.world Example.skin HARDWARE Example.mesh)
             Example.skin Example.context);
      [reflexivity|reflexivity|discriminate|vm_compute; discriminate
      |vm_compute; reflexivity].
Defined.

Lemma example_software_ready :
  software_ready Example.attached_world Example.skin Example.node Example.frame0
    Example.mesh_ref Example.mesh Example.position_attribute (data Example.mesh).
Proof.
  exists Example.geometry_ref, {| vertexBuffers := [Example.mesh_ref]; gdata := ∅ |}.
  split; [vm_compute; reflexivity|]. split; [vm_compute; reflexivity|].
  split; [vm_compute; reflexivity|]. split; [vm_compute; reflexivity|].
  split; [vm_compute; reflexivity|]. split; [exact example_attribute_in_stride|].
  split; [vm_compute; reflexivity|]. split; [reflexivity|].
  split; [exact example_bones_in_range|].
  intros inputNormals rn Hin Hrn. vm_compute in Hin, Hrn.
  injection Hin as <-. injection Hrn as <-.
  exists Example.mesh, Example.normal_attribute.
  split; [vm_compute; reflexivity|]. split; [vm_compute; reflexivity|].
  split; [exact example_normal_in_stride|]. split; [reflexivity|].
  intros _. left. vm_compute. discriminate.
Defined.

Lemma software_update_blends_positions_witness :
  ∃ w' vb',
    updateFrame Example.node 0 Example.attached_world = Returns () w' ∧
    this w' = this Example.attached_world ∧
    geometries w' = geometries Example.attached_world ∧
    buffers w' !! Example.mesh_ref = Some vb' ∧
    length (data vb') = length (data Example.mesh) ∧
    ∀ vId c, vId < N.of_nat (length (data Example.mesh)) / vertexSize Example.mesh →
      c < 3 →
      data vb' !! N.to_nat (attr_offset Example.position_attribute
                            + vId * vertexSize Example.mesh + c) =
        Some (skinned Example.skin Example.frame0 (data Example.mesh) false
                (vertexSize Example.mesh) (attr_offset Example.position_attribute) vId c).
Proof.
  apply (software_update_blends_positions Example.attached_world Example.skin
           Example.node 0 Example.frame0 Example.mesh_ref Example.mesh
           Example.position_attribute (data Example.mesh)).
  - vm_compute. reflexivity.
  - vm_compute. discriminate.
  - reflexivity.
  - reflexivity.
  - exact example_software_ready.
Defined.

Lemma example_compatible :
  compatible Example.scene Example.hardware_world Example.skin Example.node
    Example.geometry_ref.
Proof.
  split; [reflexivity|]. split; [reflexivity|].
  exists {| vertexBuffers := [Example.mesh_ref]; gdata := ∅ |},
    Example.mesh_ref, Example.mesh.
  split; [vm_compute; reflexivity|]. split; [vm_compute; reflexivity|].
  split; vm_compute; reflexivity.
Defined.

Lemma attach_then_detach_restores_witness :
  ∃ w1 w2,
    addedHandler Example.scene 42 Example.node Example.node Example.parent
      Example.hardware_world = Returns () w1 ∧
    (_targetGeometry (this w1) !! Example.node = Some Example.geometry_ref ∧
     _targetStartTime (this w1) !! Example.node = Some 42%Z ∧
     is_Some (_targetInputPositions (this w1) !! Example.node)) ∧
    removedHandler Example.scene Example.node Example.node Example.parent w1
      = Returns () w2 ∧
    (_targetGeometry (this w2) = _targetGeometry (this Example.hardware_world) ∧
     _targetStartTime (this w2) = _targetStartTime (this Example.hardware_world) ∧
     _targetInputPositions (this w2) = _targetInputPositions (this Example.hardware_world) ∧
     _targetInputNormals (this w2) = _targetInputNormals (this Example.hardware_world)) ∧
    untracked Example.node (this w2) ∧
    (_method (this Example.hardware_world) ≠ SOFTWARE →
       ∃ b geometry1 geometry2,
         _boneVertexBuffer (this Example.hardware_world) = Some b ∧
         geometries w1 !! Example.geometry_ref = Some geometry1 ∧
         b ∈ vertexBuffers geometry1 ∧
         is_Some (gdata geometry1 !! PNAME_NUM_BONES) ∧
         is_Some (gdata geometry1 !! PNAME_BONE_MATRICES) ∧
         geometries w2 !! Example.geometry_ref = Some geometry2 ∧
         (b ∉ vertexBuffers geometry2) ∧
         gdata geometry2 !! PNAME_NUM_BONES = None ∧
         gdata geometry2 !! PNAME_BONE_MATRICES = None).
Proof.
  apply (attach_then_detach_restores Example.scene Example.scene 42 Example.node
           Example.node Example.parent Example.node Example.parent
           Example.hardware_world Example.skin Example.geometry_ref).
  - vm_compute. reflexivity.
  - vm_compute. lia.
  - vm_compute. lia.
  - intros _. eexists. vm_compute. reflexivity.
  - exact example_compatible.
  - repeat split.
Defined.

Lemma attach_then_detach_keeps_node_witness :
  ∃ w1 w2,
    addedHandler Example.scene 42 Example.node Example.parent Example.scene_root
      Example.hardware_world = Returns () w1 ∧
    removedHandler Example.scene Example.node Example.parent Example.scene_root w1
      = Returns () w2 ∧
    (_targetGeometry (this w2) = _targetGeometry (this w1) ∧
     _targetStartTime (this w2) = _targetStartTime (this w1) ∧
     _targetInputPositions (this w2) = _targetInputPositions (this w1) ∧
     _targetInputNormals (this w2) = _targetInputNormals (this w1) ∧
     geometries w2 = geometries w1) ∧
    (_targetGeometry (this w2) !! Example.node = Some Example.geometry_ref ∧
     _targetStartTime (this w2) !! Example.node = Some 42%Z ∧
     is_Some (_targetInputPositions (this w2) !! Example.node)) ∧
    ¬ untracked Example.node (this w2) ∧
    (_method (this Example.hardware_world) ≠ SOFTWARE →
       ∃ b geometry2,
         _boneVertexBuffer (this Example.hardware_world) = Some b ∧
         geometries w2 !! Example.geometry_ref = Some geometry2 ∧
         b ∈ vertexBuffers geometry2 ∧
         is_Some (gdata geometry2 !! PNAME_NUM_BONES) ∧
         is_Some (gdata geometry2 !! PNAME_BONE_MATRICES)).
Proof.
  apply (attach_then_detach_keeps_node Example.scene Example.scene 42 Example.node
           Example.parent Example.scene_root Example.hardware_world Example.skin
           Example.geometry_ref).
  - vm_compute. reflexivity.
  - vm_compute. lia.
  - vm_compute. lia.
  - intros _. eexists. vm_compute. reflexivity.
  - exact example_compatible.
  - repeat split.
  - repeat split.
  - discriminate.
Defined.

(** The state an attachment and a detachment with the same event arguments
    leave, evaluated: the node is still registered, and its geometry still
    holds the bone vertex buffer and the two bindings. *)
Example attach_then_detach_residue :
  let w1 := Example.after
              (addedHandler Example.scene 42 Example.node Example.parent
                 Example.scene_root) Example.hardware_world in
  let w2 := Example.after
              (removedHandler Example.scene Example.node Example.parent
                 Example.scene_root) w1 in
  untracked Example.node (this Example.hardware_world) ∧
  geometries Example.hardware_world !! Example.geometry_ref
    = Some Scenes.plain_geometry ∧
  _targetGeometry (this w2) !! Example.node = Some Example.geometry_ref ∧
  _targetStartTime (this w2) !! Example.node = Some 42%Z ∧
  _targetInputPositions (this w2) !! Example.node = Some (data Example.mesh) ∧
  _targetInputNormals (this w2) !! Example.node = Some (data Example.mesh) ∧
  geometries w2 !! Example.geometry_ref =
    Some (data_set PNAME_NUM_BONES (PInt 0)
            (data_set PNAME_BONE_MATRICES (PUniformArray 0 None)
               (addVertexBuffer Scenes.bone_buffer_ref Scenes.plain_geometry))).
Proof. cbv zeta. split; [repeat split|]. split_and!; vm_compute; reflexivity. Qed.

Lemma findSceneManager_by_targets_witness :
  (findSceneManager Scenes.two_scenes Example.hardware_world =
     Throws (logic_error "Renderer cannot be in two separate scenes.")
       Example.hardware_world ∧
   (∀ now node target parent,
      addedHandler Scenes.two_scenes now node target parent Example.hardware_world =
        Throws (logic_error "Renderer cannot be in two separate scenes.")
          Example.hardware_world) ∧
   (∀ node target parent,
      removedHandler Scenes.two_scenes node target parent Example.hardware_world =
        Throws (logic_error "Renderer cannot be in two separate scenes.")
          Example.hardware_world)) ∧
  findSceneManager Scenes.shared_scene Example.hardware_world =
    Returns () (with_frameBeginSlot (Some Example.driver) Example.hardware_world) ∧
  findSceneManager Scenes.driverless_scene Scenes.hardware_attached_world =
    Returns () (with_frameBeginSlot None Scenes.hardware_attached_world).
Proof.
  split; [|split].
  - apply (proj1 (findSceneManager_by_targets Scenes.two_scenes Example.hardware_world)
             Example.node Scenes.second_node).
    + apply list_elem_of_here.
    + apply list_elem_of_further, list_elem_of_here.
    + vm_compute. discriminate.
    + eexists. vm_compute. reflexivity.
    + eexists. vm_compute. reflexivity.
  - apply (proj1 (proj2 (findSceneManager_by_targets Scenes.shared_scene
                           Example.hardware_world)) Scenes.second_node Example.driver).
    + apply list_elem_of_further, list_elem_of_here.
    + vm_compute. reflexivity.
    + intros t' _ _. reflexivity.
  - apply (proj2 (proj2 (findSceneManager_by_targets Scenes.driverless_scene
                           Scenes.hardware_attached_world))).
    intros t _. reflexivity.
Defined.




(** The tick handler is not an attach or a detach operation, and it does
    not preserve the agreement: for a bound target that is not registered,
    reading [_targetStartTime[target]] creates an entry. *)
Example tick_creates_start_time_entry :
  ∃ w',
    frameBeginHandler Example.scene 0%Z (Example.after initialize Example.software_world)
      = Returns () w' ∧
    _targetStartTime (this w') !! Example.node = Some 0%Z ∧
    _targetGeometry (this w') !! Example.node = None.
Proof. eexists. split; [vm_compute; reflexivity|]. split; reflexivity. Qed.

End Witnesses.

(** ** The packed rows and the pure translation, in binary32 *)

Section InBinary32.

#[local] Existing Instance Binary32.ops.
#[local] Existing Instance Binary32.rel.

(** The row of the design document's example: ids 2, 5, 9 in the first
    three id slots, weights 0.5, 0.3, 0.2 in the first three weight slots,
    zeros elsewhere. *)
Example three_bone_row :
  boneVertexData Example32.three_bone_skin =
    Some [f_of_uint 2; f_of_uint 5; f_of_uint 9; fzero; fzero; fzero; fzero; fzero;
          Example32.f0_5; Example32.f0_3; Example32.f0_2; fzero;
          fzero; fzero; fzero; fzero].
Proof. vm_compute. reflexivity. Qed.

(** C4: a vertex with 5 bones is within the cap of 8, yet the row built
    for it holds only the first 4 ids and weights: slot 4 and slot 12, where
    the fifth id and weight belong, are zero. *)
Theorem bone_buffer_drops_fifth_bone :
  maxNumVertexBones Example32.five_bone_skin ≤ MAX_NUM_BONES_PER_VERTEX ∧
  boneVertexData Example32.five_bone_skin =
    Some [f_of_uint 1; f_of_uint 2; f_of_uint 3; f_of_uint 4;
          fzero; fzero; fzero; fzero;
          Example32.f0_2; Example32.f0_2; Example32.f0_2; Example32.f0_2;
          fzero; fzero; fzero; fzero] ∧
  packed_slot Example32.five_bone_skin 0 4 = f_of_uint 5 ∧
  packed_slot Example32.five_bone_skin 0 12 = Example32.f0_2 ∧
  f_of_uint 5 ≠ fzero ∧
  Example32.f0_2 ≠ fzero.
Proof.
  split; [vm_compute; discriminate|].
  split; [vm_compute; reflexivity|].
  split; [vm_compute; reflexivity|].
  split; [vm_compute; reflexivity|].
  split; vm_compute; discriminate.
Qed.

(** The pure translation in binary32 arithmetic on a concrete vertex: the
    position moves from (1.5, -2, 0.25) to (2, -1, 3.25), the direction
    stays (1.5, -2, 0.25). *)
Example binary32_translation :
  performSoftwareSkinningAttr Example32.translated_skin (ATTRNAME_POSITION, 3, 0)
    Example32.point (data Example32.point) Example32.translation_matrix false
    = Some (set_data Example32.point
              [Example32.f2; Example32.f1_neg; Example32.f3_25]) ∧
  performSoftwareSkinningAttr Example32.translated_skin (ATTRNAME_POSITION, 3, 0)
    Example32.point (data Example32.point) Example32.translation_matrix true
    = Some Example32.point.
Proof. split; vm_compute; reflexivity. Qed.

Lemma pure_translation_position_vs_direction_witness :
  (∃ vb' x2 y2 z2,
     performSoftwareSkinningAttr Example32.translated_skin (ATTRNAME_POSITION, 3, 0)
       Example32.point (data Example32.point) Example32.translation_matrix false
       = Some vb' ∧
     data vb' !! 0%nat = Some x2 ∧
     data vb' !! 1%nat = Some y2 ∧
     data vb' !! 2%nat = Some z2 ∧
     feq x2 (fadd Example32.f1_5 Example32.f0_5) ∧
     feq y2 (fadd Example32.f2_neg fone) ∧
     feq z2 (fadd Example32.f0_25 Example32.f3)) ∧
  (∃ vb' x2 y2 z2,
     performSoftwareSkinningAttr Example32.translated_skin (ATTRNAME_POSITION, 3, 0)
       Example32.point (data Example32.point) Example32.translation_matrix true
       = Some vb' ∧
     data vb' !! 0%nat = Some x2 ∧
     data vb' !! 1%nat = Some y2 ∧
     data vb' !! 2%nat = Some z2 ∧
     feq x2 Example32.f1_5 ∧ feq y2 Example32.f2_neg ∧ feq z2 Example32.f0_25).
Proof.
  apply (pure_translation_position_vs_direction (FloatLaws0 := Binary32_FloatLaws)
           Example32.translated_skin (ATTRNAME_POSITION, 3, 0) Example32.point
           (data Example32.point) Example32.translation_matrix 0 0
           Example32.f0_5 fone Example32.f3).
  - split; [done|split; [vm_compute; discriminate|reflexivity]].
  - reflexivity.
  - split; [vm_compute; discriminate|].
    repeat constructor; vm_compute; discriminate.
  - reflexivity.
  - reflexivity.
  - reflexivity.
  - repeat constructor.
  - repeat constructor.
Defined.

End InBinary32.

(** * Further properties of the component *)

(** ** The layout of the bone vertex buffer *)

Section BoneBufferLayout.

Context {F : Type} `{FloatOps F}.

Implicit Types (sk : Skin (F:=F)).

Lemma numVertexBones_le_max sk (vId : uint) :
  numVertexBones sk vId ≤ maxNumVertexBones sk.
Proof.
  unfold numVertexBones, bonesOf, maxNumVertexBones.
  generalize (N.to_nat vId). intros n. revert n.
  induction (vertexBones sk) as [|l ls IH]; intros n.
  - rewrite lookup_nil. simpl. lia.
  - destruct n as [|n]; simpl.
    + lia.
    + specialize (IH n). simpl in IH. lia.
Qed.

(** X1: for a skin within the cap of 8 bones per vertex the builder returns
    a buffer of [numVertices] rows of 16 floats with the four attributes of
    width 4 at offsets 0, 4, 8 and 12.  In the row of a vertex, slots 0..3
    hold the ids of its first four bones and slots 8..11 their weights (zero
    where the vertex has fewer bones); slots 4..7 and 12..15 are zero. *)
Theorem bone_buffer_rows sk :
  maxNumVertexBones sk ≤ MAX_NUM_BONES_PER_VERTEX →
  numVertices sk * 16 < UINT_RANGE →
  ∃ vb,
    boneVertexBuffer sk = Some vb ∧
    vertexSize vb = 16 ∧
    N.of_nat (length (data vb)) = numVertices sk * 16 ∧
    attributes vb = [(ATTRNAME_BONE_IDS_A, 4, 0); (ATTRNAME_BONE_IDS_B, 4, 4);
                     (ATTRNAME_BONE_WEIGHTS_A, 4, 8); (ATTRNAME_BONE_WEIGHTS_B, 4, 12)] ∧
    ∀ vId j, vId < numVertices sk → j < 4 →
      data vb !! N.to_nat (vId * 16 + j) =
        Some (match vertexBoneId sk vId j with
              | Some boneId => f_of_uint boneId | None => fzero end) ∧
      data vb !! N.to_nat (vId * 16 + 4 + j) = Some fzero ∧
      data vb !! N.to_nat (vId * 16 + 8 + j) =
        Some (match vertexBoneWeight sk vId j with
              | Some boneWeight => boneWeight | None => fzero end) ∧
      data vb !! N.to_nat (vId * 16 + 12 + j) = Some fzero.
Proof.
  intros Hmax Hsize.
  destruct (boneVertexData_spec sk Hmax Hsize) as (d & Hd & Hlen & Hslots).
  unfold boneVertexBuffer. rewrite Hd. simpl. eexists. split; [reflexivity|].
  simpl. split; [done|]. split; [done|]. split; [done|].
  intros vId j Hv Hj.
  pose proof (Hslots vId j Hv) as H0.
  pose proof (Hslots vId (4 + j) Hv) as H4.
  pose proof (Hslots vId (8 + j) Hv) as H8.
  pose proof (Hslots vId (12 + j) Hv) as H12.
  rewrite <- !N.add_assoc.
  rewrite H0, H4, H8, H12 by lia.
  unfold packed_slot_built.
  rewrite (decide_True (P := j < 4)) by lia.
  rewrite (decide_False (P := 4 + j < 4)) by lia.
  rewrite (decide_False (P := 8 ≤ 4 + j < 12)) by lia.
  rewrite (decide_False (P := 8 + j < 4)) by lia.
  rewrite (decide_True (P := 8 ≤ 8 + j < 12)) by lia.
  rewrite (decide_False (P := 12 + j < 4)) by lia.
  rewrite (decide_False (P := 8 ≤ 12 + j < 12)) by lia.
  replace (8 + j - 8) with j by lia.
  repeat split. by destruct (vertexBoneId sk vId j).
Qed.

(** X2: when no vertex has more than 4 bones, the buffer is the one the
    comment of line 241 documents: ids in slots 0..7, weights in slots
    8..15, each group filled up to the bone count of the vertex and zero
    beyond it. *)
Theorem bone_buffer_documented_layout sk :
  maxNumVertexBones sk ≤ 4 →
  numVertices sk * 16 < UINT_RANGE →
  ∃ vb,
    boneVertexBuffer sk = Some vb ∧
    ∀ vId slot, vId < numVertices sk → slot < 16 →
      data vb !! N.to_nat (vId * 16 + slot) = Some (packed_slot sk vId slot).
Proof.
  intros Hmax Hsize.
  destruct (boneVertexBuffer_spec sk) as (vb & Hvb & _ & _ & _ & Hslots);
    [unfold MAX_NUM_BONES_PER_VERTEX; lia|done|].
  exists vb. split; [done|]. intros vId slot Hv Hslot.
  rewrite Hslots by done. f_equal. apply packed_slot_built_few_bones.
  pose proof (numVertexBones_le_max sk vId). lia.
Qed.

(** X3: the loop over the vertices of the builder completes, and when it
    does the running [index] equals the size of the vector: the assertion of
    line 271 cannot fail. *)
Theorem bone_buffer_index_reaches_end sk :
  numVertices sk * 16 < UINT_RANGE →
  ∃ index vertexData,
    for_range 0 (N.to_nat (numVertices sk)) (packVertex sk 16)
      (0, replicate (N.to_nat (uint_mul (numVertices sk) 16)) fzero)
      = Some (index, vertexData) ∧
    index = N.of_nat (length vertexData).
Proof.
  intros Hsize.
  assert (Hmul : uint_mul (numVertices sk) 16 = numVertices sk * 16).
  { by apply to_uint_small. }
  rewrite Hmul. set (nv := numVertices sk) in *.
  set (I := λ (v : N) (st : uint * list F),
    st.1 = v * 16 ∧ N.of_nat (length st.2) = nv * 16).
  destruct (for_range_invariant I (packVertex sk 16) (N.to_nat nv) 0
              (0, replicate (N.to_nat (nv * 16)) fzero))
    as ([index d] & Hrun & Hidx & Hlength).
  - unfold I; simpl. rewrite length_replicate. lia.
  - intros v [index d] Hv (Hidx & Hlength). simpl in *. subst index.
    unfold packVertex. change (uint_shr 16 1) with 8.
    destruct (packSlots_spec (λ j, f_of_uint <$> vertexBoneId sk v j)
                (λ j, default fzero (f_of_uint <$> vertexBoneId sk v j))
                (numVertexBones sk v) (v * 16) d)
      as (d1 & Hrun1 & Hlen1 & _); [lia|lia| |].
    { intros j Hj. apply vertexBoneId_defined. lia. }
    rewrite Hrun1. simpl.
    assert (Hadd1 : uint_add (v * 16) 8 = v * 16 + 8) by (apply to_uint_small; lia).
    rewrite Hadd1.
    destruct (packSlots_spec (vertexBoneWeight sk v)
                (λ j, default fzero (vertexBoneWeight sk v j))
                (numVertexBones sk v) (v * 16 + 8) d1)
      as (d2 & Hrun2 & Hlen2 & _); [lia|lia| |].
    { intros j Hj. apply vertexBoneWeight_defined. lia. }
    rewrite Hrun2. simpl.
    eexists. split; [reflexivity|]. unfold I; simpl. split.
    + unfold uint_add. rewrite to_uint_small; lia.
    + lia.
  - exists index, d. split; [done|]. simpl in *. lia.
Qed.

End BoneBufferLayout.

(** ** Edge cases of the lifecycle handlers *)

Section HandlerEdges.

Context {F : Type} `{FloatOps F}.

Implicit Types (sk : Skin (F:=F)) (w : World (F:=F)) (s : Skinning (F:=F)).

(** X4: without a skin [initialize] throws [invalid_argument("skin")],
    with a skin and without a context [invalid_argument("context")]; in
    both cases nothing has been changed when the exception leaves. *)
Theorem initialize_rejects_null w :
  _skin (this w) = None ∨ _context (this w) = None →
  initialize w =
    Throws (invalid_argument
              (match _skin (this w) with None => "skin" | Some _ => "context" end)) w.
Proof.
  intros Hnull. unfold initialize. unfold_M.
  destruct (_skin (this w)) as [sk|]; [|done].
  destruct Hnull as [?|Hctx]; [done|]. by rewrite Hctx.
Qed.

(** X5: with a skin and a context [initialize] returns, whatever method
    was requested.  It connects the two target signals; the bone vertex
    buffer exists afterwards exactly when the effective method is not
    [SOFTWARE], and is then a new buffer of the store; the per-target maps,
    the frame-tick subscription and the geometries are as before. *)
Theorem initialize_establishes w sk (context : Ref) :
  _skin (this w) = Some sk →
  _context (this w) = Some context →
  numVertices sk * 16 < UINT_RANGE →
  ∃ w',
    initialize w = Returns () w' ∧
    _targetAddedSlot (this w') = true ∧ _targetRemovedSlot (this w') = true ∧
    (_method (this w') = SOFTWARE →
       _boneVertexBuffer (this w') = None ∧ buffers w' = buffers w) ∧
    (_method (this w') ≠ SOFTWARE →
       _method (this w') = _method (this w) ∧
       ∃ r vb, _boneVertexBuffer (this w') = Some r ∧
               boneVertexBuffer sk = Some vb ∧
               buffers w !! r = None ∧
               buffers w' = <[r := vb]> (buffers w)) ∧
    _skin (this w') = Some sk ∧
    _targetGeometry (this w') = _targetGeometry (this w) ∧
    _targetStartTime (this w') = _targetStartTime (this w) ∧
    _targetInputPositions (this w') = _targetInputPositions (this w) ∧
    _targetInputNormals (this w') = _targetInputNormals (this w) ∧
    _frameBeginSlot (this w') = _frameBeginSlot (this w) ∧
    geometries w' = geometries w.
Proof.
  intros Hskin Hctx Hsize. unfold initialize. unfold_M. rewrite Hskin, Hctx.
  destruct (decide (_method (this w) = SOFTWARE)) as [Hsoft|Hhard].
  - rewrite (bool_decide_eq_false_2 (_method (this w) ≠ SOFTWARE)) by tauto.
    simpl. rewrite decide_True by done. simpl.
    eexists. split; [reflexivity|]. simpl. by repeat split.
  - rewrite (bool_decide_eq_true_2 (_method (this w) ≠ SOFTWARE)) by done.
    destruct (decide (MAX_NUM_BONES_PER_VERTEX < maxNumVertexBones sk)) as [Hmax|Hmax].
    + rewrite bool_decide_eq_true_2 by done. simpl.
      eexists. split; [reflexivity|]. simpl. by repeat split.
    + destruct (boneVertexBuffer_spec sk) as (vb & Hvb & _); [lia|done|].
      rewrite bool_decide_eq_false_2 by done. simpl.
      rewrite decide_False by done. unfold createVertexBufferForBones. unfold_M.
      rewrite Hskin, Hvb. simpl.
      eexists. split; [reflexivity|]. simpl.
      split; [done|]. split; [done|]. split; [done|]. split; [|done].
      intros _. split; [done|]. eexists _, vb.
      split; [reflexivity|]. split; [done|]. split; [|done].
      apply not_elem_of_dom, is_fresh.
Qed.

(** The state that attaching a compatible node leaves. *)
Lemma addedHandler_attaches (scene : Scene) (now : Z) (node target parent : Node)
    w sk (g : Ref) (geometry : Geometry) (xyz : Ref) (xyzBuffer : VertexBuffer (F:=F)) :
  _skin (this w) = Some sk →
  (length (driverRoots scene) ≤ 1)%nat →
  (_method (this w) ≠ SOFTWARE → is_Some (_boneVertexBuffer (this w))) →
  fltb (duration sk) f_1e_6 = false →
  surface scene node = Some g →
  geometries w !! g = Some geometry →
  geometry_vertexBuffer (buffers w) geometry ATTRNAME_POSITION = Some xyz →
  buffers w !! xyz = Some xyzBuffer →
  vb_numVertices xyzBuffer = numVertices sk →
  ∃ w1,
    addedHandler scene now node target parent w = Returns () w1 ∧
    _targetGeometry (this w1) = <[node := g]> (_targetGeometry (this w)) ∧
    _targetStartTime (this w1) = <[node := now]> (_targetStartTime (this w)) ∧
    _targetInputPositions (this w1) =
      <[node := data xyzBuffer]> (_targetInputPositions (this w)) ∧
    _targetInputNormals (this w1) =
      match normal_snapshot w sk geometry with
      | Some d => <[node := d]> (_targetInputNormals (this w))
      | None => _targetInputNormals (this w)
      end ∧
    _skin (this w1) = _skin (this w) ∧
    _method (this w1) = _method (this w) ∧
    _boneVertexBuffer (this w1) = _boneVertexBuffer (this w) ∧
    buffers w1 = buffers w ∧
    (_method (this w) = SOFTWARE → geometries w1 = geometries w) ∧
    (∀ b, _method (this w) ≠ SOFTWARE → _boneVertexBuffer (this w) = Some b →
       geometries w1 =
         <[g := data_set PNAME_NUM_BONES (PInt 0)
                  (data_set PNAME_BONE_MATRICES (PUniformArray 0 None)
                     (addVertexBuffer b geometry))]> (geometries w)).
Proof.
  intros Hskin Hroots Hbone Hdur Hsurf Hgeo Hxyz Hbuf Hnv.
  destruct (findSceneManager_returns scene w Hroots) as [slot Hfind].
  unfold addedHandler. rewrite (M_bind_Returns _ _ _ _ _ Hfind).
  unfold_M. simpl_world.
  rewrite Hskin, Hdur, Hsurf; simpl_world. rewrite Hgeo; simpl_world.
  rewrite Hxyz; simpl_world. rewrite Hbuf; simpl_world.
  rewrite decide_True by done. simpl_world.
  unfold normal_snapshot.
  destruct (geometry_vertexBuffer (buffers w) geometry ATTRNAME_NORMAL) as [nrm|] eqn:Hnrm;
    simpl.
  - destruct (geometry_vertexBuffer_buffer _ geometry _ nrm Hnrm) as [normalBuffer Hnb].
    rewrite Hnb; simpl_world. simpl.
    destruct (decide (vb_numVertices normalBuffer = numVertices sk)) as [Hn|Hn];
      (destruct (decide (_method (this w) ≠ SOFTWARE)) as [Hm|Hm];
       [destruct (Hbone Hm) as [b Hb]; rewrite Hb; simpl_world; rewrite Hgeo;
        simpl_world; rewrite lookup_insert_eq; simpl_world;
        rewrite lookup_insert_eq; simpl_world; rewrite !insert_insert_eq
       |]);
      (eexists; split; [reflexivity|]; simpl_world;
       split_and!; try reflexivity;
       first [ by intros | by intros b' _ [= <-] ]).
  - destruct (decide (_method (this w) ≠ SOFTWARE)) as [Hm|Hm];
       [destruct (Hbone Hm) as [b Hb]; rewrite Hb; simpl_world; rewrite Hgeo;
        simpl_world; rewrite lookup_insert_eq; simpl_world;
        rewrite lookup_insert_eq; simpl_world; rewrite !insert_insert_eq
       |];
      (eexists; split; [reflexivity|]; simpl_world;
       split_and!; try reflexivity;
       first [ by intros | by intros b' _ [= <-] ]).
Qed.

(** X6: attaching a compatible node enters it, under the key [node], with
    the time of the event and the contents the position buffer has at that
    moment, whatever entries the node had before; the normals are taken when
    the geometry has them and are otherwise left as they were.  Entries of
    other nodes and the vertex buffers are not touched. *)
Theorem attach_snapshots_live_buffers (scene : Scene) (now : Z)
    (node target parent : Node) w sk (g : Ref) (geometry : Geometry) (xyz : Ref)
    (xyzBuffer : VertexBuffer (F:=F)) :
  _skin (this w) = Some sk →
  (length (driverRoots scene) ≤ 1)%nat →
  (_method (this w) ≠ SOFTWARE → is_Some (_boneVertexBuffer (this w))) →
  fltb (duration sk) f_1e_6 = false →
  surface scene node = Some g →
  geometries w !! g = Some geometry →
  geometry_vertexBuffer (buffers w) geometry ATTRNAME_POSITION = Some xyz →
  buffers w !! xyz = Some xyzBuffer →
  vb_numVertices xyzBuffer = numVertices sk →
  ∃ w1,
    addedHandler scene now node target parent w = Returns () w1 ∧
    _targetGeometry (this w1) !! node = Some g ∧
    _targetStartTime (this w1) !! node = Some now ∧
    _targetInputPositions (this w1) !! node = Some (data xyzBuffer) ∧
    _targetInputNormals (this w1) !! node =
      match normal_snapshot w sk geometry with
      | Some d => Some d
      | None => _targetInputNormals (this w) !! node
      end ∧
    (∀ n, n ≠ node → same_entries n (this w) (this w1)) ∧
    buffers w1 = buffers w.
Proof.
  intros Hskin Hroots Hbone Hdur Hsurf Hgeo Hxyz Hbuf Hnv.
  destruct (addedHandler_attaches scene now node target parent w sk g geometry xyz
              xyzBuffer Hskin Hroots Hbone Hdur Hsurf Hgeo Hxyz Hbuf Hnv)
    as (w1 & Hadd & Hg1 & Ht1 & Hp1 & Hn1 & _ & _ & _ & Hbufs & _).
  exists w1. split; [done|]. rewrite Hg1, Ht1, Hp1, Hn1, !lookup_insert_eq.
  split_and!; try done.
  - destruct (normal_snapshot w sk geometry); [by rewrite lookup_insert_eq|done].
  - intros n Hne. unfold same_entries. rewrite Hg1, Ht1, Hp1, Hn1.
    rewrite !lookup_insert_ne by done. split_and!; try done.
    destruct (normal_snapshot w sk geometry); [by rewrite lookup_insert_ne|done].
Qed.

(** X7: for an incompatible node [addedHandler] registers nothing: it
    returns, and the only field it may have changed is the frame-tick
    subscription that the scene-manager lookup sets. *)
Theorem addedHandler_incompatible (scene : Scene) (now : Z)
    (node target parent : Node) w sk :
  _skin (this w) = Some sk →
  (length (driverRoots scene) ≤ 1)%nat →
  incompatible scene w sk node →
  ∃ b, addedHandler scene now node target parent w =
         Returns () (with_frameBeginSlot b w).
Proof.
  intros Hskin Hroots Hinc.
  destruct (findSceneManager_returns scene w Hroots) as [slot Hfind].
  exists slot.
  unfold addedHandler. rewrite (M_bind_Returns _ _ _ _ _ Hfind).
  unfold_M. simpl_world. rewrite Hskin; simpl_world.
  destruct Hinc as [Hdur|[Hsurf|(g & geometry & Hsurf & Hgeo & Hpos)]].
  - by rewrite Hdur.
  - destruct (fltb (duration sk) f_1e_6); [done|]. by rewrite Hsurf.
  - destruct (fltb (duration sk) f_1e_6); [done|]. rewrite Hsurf. simpl_world.
    rewrite Hgeo. simpl_world.
    destruct (geometry_vertexBuffer (buffers w) geometry ATTRNAME_POSITION) as [xyz|];
      [|done].
    destruct Hpos as (xyzBuffer & Hbuf & Hnv). rewrite Hbuf. simpl_world.
    by rewrite decide_False.
Qed.

(** X8: detaching a target that has no entry changes nothing but,
    possibly, the frame-tick subscription. *)
Theorem removedHandler_untracked (scene : Scene) (node target parent : Node) w :
  (length (driverRoots scene) ≤ 1)%nat →
  untracked target (this w) →
  ∃ b, removedHandler scene node target parent w =
         Returns () (with_frameBeginSlot b w).
Proof.
  intros Hroots (Hg & Ht & Hp & Hn).
  destruct (findSceneManager_returns scene w Hroots) as [slot Hfind].
  exists slot.
  unfold removedHandler. rewrite (M_bind_Returns _ _ _ _ _ Hfind).
  unfold_M. simpl_world. rewrite Hg. simpl_world. rewrite Ht, Hp, Hn.
  rewrite !decide_False by (by intros [? ?]). done.
Qed.

(** X9: the detach handler erases the entries of its second parameter,
    [target], and of no other node, whatever its first parameter is; it
    never writes a vertex buffer, and the only geometry it may change is the
    one registered for [target]. *)
Theorem detach_erases_only_target (scene : Scene) (node target parent : Node) w :
  (length (driverRoots scene) ≤ 1)%nat →
  (∀ g, _targetGeometry (this w) !! target = Some g →
        _method (this w) ≠ SOFTWARE →
        is_Some (_boneVertexBuffer (this w)) ∧ is_Some (geometries w !! g)) →
  ∃ w2,
    removedHandler scene node target parent w = Returns () w2 ∧
    untracked target (this w2) ∧
    (∀ n, n ≠ target → same_entries n (this w) (this w2)) ∧
    buffers w2 = buffers w ∧
    (∀ g, _targetGeometry (this w) !! target ≠ Some g →
          geometries w2 !! g = geometries w !! g).
Proof.
  intros Hroots Hdef.
  destruct (removedHandler_erases scene node target parent w Hroots Hdef)
    as (w2 & Hrem & Hg2 & Ht2 & Hp2 & Hn2 & _ & _ & Hbufs & Hgeos).
  exists w2. split; [done|]. split_and!.
  - unfold untracked. by rewrite Hg2, Ht2, Hp2, Hn2, !lookup_delete_eq.
  - intros n Hne. unfold same_entries.
    by rewrite Hg2, Ht2, Hp2, Hn2, !lookup_delete_ne.
  - done.
  - intros g Hg. rewrite Hgeos.
    destruct (_targetGeometry (this w) !! target) as [g'|]; [|done].
    destruct (decide (_method (this w) ≠ SOFTWARE)); [|done].
    destruct (_boneVertexBuffer (this w)); [|done].
    destruct (geometries w !! g'); [|done].
    rewrite lookup_insert_ne; [done|congruence].
Qed.

End HandlerEdges.

(** ** The software update on the store of vertex buffers *)

Section SoftwareUpdate.

Context {F : Type} `{FloatOps F}.

Implicit Types (sk : Skin (F:=F)) (w : World (F:=F)) (vb : VertexBuffer (F:=F)).
Implicit Types (bufs : gmap Ref (VertexBuffer (F:=F))).

Lemma skinAttribute_skin_pass sk (g : Ref) (name : string) (geometry : Geometry)
    (inputData boneMatrices : list F) (delta : bool) w :
  geometries w !! g = Some geometry →
  skinAttribute sk g name inputData boneMatrices delta w =
    match skin_pass sk name geometry inputData boneMatrices delta (buffers w) with
    | Some bufs => Returns () {| this := this w; geometries := geometries w; buffers := bufs |}
    | None => Undefined
    end.
Proof.
  intros Hgeo. unfold skinAttribute, skin_pass. unfold_M. rewrite Hgeo. simpl.
  destruct (geometry_vertexBuffer (buffers w) geometry name) as [r|]; [|done]. simpl.
  destruct (buffers w !! r) as [vb|]; [|done]. simpl.
  destruct (find_attribute name (attributes vb)) as [attr|]; [|done]. simpl.
  by destruct (performSoftwareSkinningAttr sk attr vb inputData boneMatrices delta).
Qed.

(** The frame update of a registered target in a mode other than
    [HARDWARE], as a function of the store of vertex buffers. *)
Lemma updateFrame_software_buffers w sk (target : Node) (frameId : uint)
    (boneMatrices : list F) (g : Ref) (geometry : Geometry) (inputPositions : list F) :
  _skin (this w) = Some sk →
  _method (this w) ≠ HARDWARE →
  _targetGeometry (this w) !! target = Some g →
  geometries w !! g = Some geometry →
  _targetInputPositions (this w) !! target = Some inputPositions →
  frameId < numFrames sk →
  matrices sk frameId = Some boneMatrices →
  updateFrame target frameId w =
    match software_buffers sk geometry inputPositions
            (_targetInputNormals (this w) !! target) boneMatrices (buffers w) with
    | Some bufs => Returns () {| this := this w; geometries := geometries w; buffers := bufs |}
    | None => Undefined
    end.
Proof.
  intros Hskin Hmethod Hg Hgeo Hinput Hframe Hmatrices.
  unfold updateFrame. unfold_M. rewrite Hg; simpl_world. rewrite Hskin; simpl_world.
  rewrite decide_False by lia. rewrite Hmatrices; simpl_world.
  rewrite decide_False by done.
  unfold performSoftwareSkinning, index_targetInputPositions.
  unfold_M. rewrite Hskin; simpl_world. rewrite Hg; simpl_world.
  rewrite Hinput; simpl_world.
  rewrite (skinAttribute_skin_pass sk g _ geometry) by done.
  unfold software_buffers.
  destruct (skin_pass sk ATTRNAME_POSITION geometry inputPositions boneMatrices false
              (buffers w)) as [bufs1|]; [|done].
  simpl_world. simpl. rewrite Hgeo; simpl_world. unfold hasVertexAttribute.
  destruct (geometry_vertexBuffer bufs1 geometry ATTRNAME_NORMAL) as [rn|].
  - rewrite bool_decide_eq_true_2 by eauto.
    destruct (_targetInputNormals (this w) !! target) as [inputNormals|] eqn:Hin.
    + rewrite bool_decide_eq_true_2 by eauto. simpl_world.
      unfold index_targetInputNormals. unfold_M. simpl_world. rewrite Hin; simpl_world.
      by rewrite (skinAttribute_skin_pass sk g _ geometry) by done.
    + rewrite bool_decide_eq_false_2 by (by intros [? ?]). done.
  - rewrite bool_decide_eq_false_2 by (by intros [? ?]). done.
Qed.

(** *** Stores that agree *)

Lemma same_layout_refl vb : same_layout vb vb.
Proof. done. Qed.

Lemma same_layout_sym vb1 vb2 : same_layout vb1 vb2 → same_layout vb2 vb1.
Proof. by intros (? & ? & ?). Qed.

Lemma same_layout_trans vb1 vb2 vb3 :
  same_layout vb1 vb2 → same_layout vb2 vb3 → same_layout vb1 vb3.
Proof. intros (? & ? & ?) (? & ? & ?). repeat split; congruence. Qed.

Lemma agree_on_refl (A : Ref → N → Prop) bufs : agree_on A bufs bufs.
Proof. intros r. by destruct (bufs !! r). Qed.

Lemma agree_on_sym (A : Ref → N → Prop) bufs1 bufs2 :
  agree_on A bufs1 bufs2 → agree_on A bufs2 bufs1.
Proof.
  intros Hagree r. specialize (Hagree r).
  destruct (bufs1 !! r), (bufs2 !! r); try done.
  destruct Hagree as [Hl Hd]. split; [by apply same_layout_sym|].
  intros i Hi. symmetry. by apply Hd.
Qed.

Lemma agree_on_trans (A : Ref → N → Prop) bufs1 bufs2 bufs3 :
  agree_on A bufs1 bufs2 → agree_on A bufs2 bufs3 → agree_on A bufs1 bufs3.
Proof.
  intros H12 H23 r. specialize (H12 r). specialize (H23 r).
  destruct (bufs1 !! r), (bufs2 !! r), (bufs3 !! r); try done.
  destruct H12 as [Hl1 Hd1], H23 as [Hl2 Hd2].
  split; [by eapply same_layout_trans|].
  intros i Hi. rewrite Hd1 by done. by apply Hd2.
Qed.

Lemma agree_on_weaken (A A' : Ref → N → Prop) bufs1 bufs2 :
  (∀ r i, A' r i → A r i) → agree_on A bufs1 bufs2 → agree_on A' bufs1 bufs2.
Proof.
  intros Hsub Hagree r. specialize (Hagree r).
  destruct (bufs1 !! r), (bufs2 !! r); try done.
  destruct Hagree as [Hl Hd]. split; [done|]. intros i Hi. apply Hd. by apply Hsub.
Qed.

(** Stores that agree everywhere are equal. *)
Lemma agree_on_all bufs1 bufs2 :
  agree_on (λ _ _, True) bufs1 bufs2 → bufs1 = bufs2.
Proof.
  intros Hagree. apply map_eq. intros r. specialize (Hagree r).
  destruct (bufs1 !! r) as [[d1 a1 s1]|], (bufs2 !! r) as [[d2 a2 s2]|]; try done.
  destruct Hagree as [(Ha & Hs & Hlen) Hd]. simpl in *. subst. f_equal. f_equal.
  apply list_eq. intros n. specialize (Hd (N.of_nat n) I).
  by rewrite Nat2N.id in Hd.
Qed.

Lemma agree_on_lookup (A : Ref → N → Prop) bufs1 bufs2 (r : Ref) vb1 :
  agree_on A bufs1 bufs2 → bufs1 !! r = Some vb1 →
  ∃ vb2, bufs2 !! r = Some vb2 ∧ same_layout vb1 vb2 ∧
         ∀ i, A r i → data vb1 !! N.to_nat i = data vb2 !! N.to_nat i.
Proof.
  intros Hagree Hr. specialize (Hagree r). rewrite Hr in Hagree.
  destruct (bufs2 !! r) as [vb2|]; [|done]. exists vb2. by destruct Hagree.
Qed.

Lemma geometry_vertexBuffer_agree (A : Ref → N → Prop) bufs1 bufs2
    (geometry : Geometry) (name : string) :
  agree_on A bufs1 bufs2 →
  geometry_vertexBuffer bufs1 geometry name = geometry_vertexBuffer bufs2 geometry name.
Proof.
  intros Hagree. unfold geometry_vertexBuffer.
  assert (Hsame : ∀ r, buffer_has_attribute bufs1 name r = buffer_has_attribute bufs2 name r).
  { intros r. unfold buffer_has_attribute. specialize (Hagree r).
    destruct (bufs1 !! r), (bufs2 !! r); try done.
    destruct Hagree as [(-> & _) _]. done. }
  induction (vertexBuffers geometry) as [|r l IH]; [done|].
  simpl. by rewrite Hsame, IH.
Qed.

Lemma written_slot_layout (attr : Attribute) vb1 vb2 (i : N) :
  same_layout vb1 vb2 → written_slot attr vb1 i → written_slot attr vb2 i.
Proof.
  intros (_ & Hs & Hlen) (vId & c & Hv & Hc & ->). exists vId, c.
  rewrite <- Hs, <- Hlen. done.
Qed.

Lemma slot_of_layout (r : Ref) (attr : Attribute) vb1 vb2 (r' : Ref) (i : N) :
  same_layout vb1 vb2 → slot_of r attr vb1 r' i → slot_of r attr vb2 r' i.
Proof. intros Hl [-> Hw]. split; [done|]. by eapply written_slot_layout. Qed.

Lemma attribute_in_stride_layout (attr : Attribute) vb1 vb2 :
  same_layout vb1 vb2 → attribute_in_stride attr vb1 → attribute_in_stride attr vb2.
Proof.
  intros (_ & Hs & Hlen) (? & ? & ?). unfold attribute_in_stride.
  rewrite <- Hs, <- Hlen. done.
Qed.

(** Whether a position of a buffer is a slot of a well-placed attribute
    can be decided. *)
Lemma written_slot_decide (attr : Attribute) vb (i : N) :
  attribute_in_stride attr vb → written_slot attr vb i ∨ ¬ written_slot attr vb i.
Proof.
  intros (Hvs & Hoff & _).
  set (off := attr_offset attr) in *. set (vs := vertexSize vb) in *.
  set (nv := N.of_nat (length (data vb)) / vs).
  destruct (decide (off ≤ i ∧ (i - off) mod vs < 3 ∧ (i - off) / vs < nv))
    as [(Hi & Hc & Hv)|Hno].
  - left. exists ((i - off) / vs), ((i - off) mod vs). split; [done|]. split; [done|].
    pose proof (N.div_mod (i - off) vs Hvs). fold off vs. lia.
  - right. intros (vId & c & Hv & Hc & Heq). fold off vs in Heq, Hv. apply Hno.
    assert (Hk : i - off = c + vId * vs) by lia.
    rewrite Hk, N.Div0.mod_add, N.div_add, N.mod_small, N.div_small by lia.
    fold nv in Hv. lia.
Qed.

Lemma slot_of_decide (r : Ref) (attr : Attribute) vb (r' : Ref) (i : N) :
  attribute_in_stride attr vb → slot_of r attr vb r' i ∨ ¬ slot_of r attr vb r' i.
Proof.
  intros Hstride. unfold slot_of.
  destruct (decide (r' = r)) as [->|Hne]; [|right; tauto].
  destruct (written_slot_decide attr vb i Hstride); [left|right]; tauto.
Qed.

Lemma pass_ready_agree (A : Ref → N → Prop) sk (name : string) (geometry : Geometry)
    (inputData boneMatrices : list F) bufs1 bufs2 (r : Ref) vb1 (attr : Attribute) :
  agree_on A bufs1 bufs2 →
  pass_ready sk name geometry inputData boneMatrices bufs1 r vb1 attr →
  ∃ vb2, same_layout vb1 vb2 ∧
         (∀ i, A r i → data vb1 !! N.to_nat i = data vb2 !! N.to_nat i) ∧
         pass_ready sk name geometry inputData boneMatrices bufs2 r vb2 attr.
Proof.
  intros Hagree (Hfind & Hr & Hattr & Hstride & Hlen & Hbones).
  destruct (agree_on_lookup A bufs1 bufs2 r vb1 Hagree Hr) as (vb2 & Hr2 & Hl & Hd).
  exists vb2. split; [done|]. split; [done|].
  pose proof Hl as (Ha & Hs & Hlen2).
  split_and!; try done.
  - by rewrite <- (geometry_vertexBuffer_agree A bufs1 bufs2).
  - by rewrite <- Ha.
  - by eapply attribute_in_stride_layout.
  - congruence.
Qed.

(** *** One pass on the store *)

Lemma skin_pass_spec sk (name : string) (geometry : Geometry)
    (inputData boneMatrices : list F) (delta : bool) bufs (r : Ref) vb (attr : Attribute) :
  pass_ready sk name geometry inputData boneMatrices bufs r vb attr →
  ∃ out : list F,
    skin_pass sk name geometry inputData boneMatrices delta bufs
      = Some (<[r := set_data vb out]> bufs) ∧
    length out = length (data vb) ∧
    (∀ vId c, vId < N.of_nat (length (data vb)) / vertexSize vb → c < 3 →
       out !! N.to_nat (attr_offset attr + vId * vertexSize vb + c) =
         Some (skinned sk boneMatrices inputData delta
                 (vertexSize vb) (attr_offset attr) vId c)) ∧
    (∀ i, ¬ written_slot attr vb i → out !! N.to_nat i = data vb !! N.to_nat i).
Proof.
  intros (Hfind & Hr & Hattr & Hstride & Hlen & Hbones).
  destruct (performSoftwareSkinningAttr_spec sk attr vb inputData boneMatrices
              delta Hstride Hlen Hbones) as (out & Hrun & Hlength & Hwritten & Hother).
  exists out. split; [|done].
  unfold skin_pass. rewrite Hfind. simpl. rewrite Hr. simpl. rewrite Hattr. simpl.
  by rewrite Hrun.
Qed.

(** A pass changes the slots of its attribute and nothing else. *)
Lemma skin_pass_frame sk (name : string) (geometry : Geometry)
    (inputData boneMatrices : list F) (delta : bool) bufs (r : Ref) vb (attr : Attribute) :
  pass_ready sk name geometry inputData boneMatrices bufs r vb attr →
  ∃ bufs',
    skin_pass sk name geometry inputData boneMatrices delta bufs = Some bufs' ∧
    agree_on (λ r' i, ¬ slot_of r attr vb r' i) bufs bufs'.
Proof.
  intros Hready.
  destruct (skin_pass_spec sk name geometry inputData boneMatrices delta bufs r vb attr
              Hready) as (out & Hrun & Hlength & _ & Hother).
  destruct Hready as (_ & Hr & _).
  eexists. split; [done|]. intros r'.
  destruct (decide (r' = r)) as [->|Hne].
  - rewrite lookup_insert_eq, Hr. split; [by repeat split|].
    intros i Hi. simpl. symmetry. apply Hother. unfold slot_of in Hi. tauto.
  - rewrite lookup_insert_ne by done. by destruct (bufs !! r').
Qed.

(** The slots a pass writes do not depend on what the buffer held: two
    stores that agree on [A] agree, after the pass, on [A] and on the slots
    of the attribute. *)
Lemma skin_pass_agree (A : Ref → N → Prop) sk (name : string) (geometry : Geometry)
    (inputData boneMatrices : list F) (delta : bool) bufs1 bufs2
    (r : Ref) vb1 (attr : Attribute) :
  agree_on A bufs1 bufs2 →
  pass_ready sk name geometry inputData boneMatrices bufs1 r vb1 attr →
  ∃ bufs1' bufs2',
    skin_pass sk name geometry inputData boneMatrices delta bufs1 = Some bufs1' ∧
    skin_pass sk name geometry inputData boneMatrices delta bufs2 = Some bufs2' ∧
    agree_on (λ r' i, A r' i ∨ slot_of r attr vb1 r' i) bufs1' bufs2'.
Proof.
  intros Hagree Hready1.
  destruct (pass_ready_agree A sk name geometry inputData boneMatrices bufs1 bufs2
              r vb1 attr Hagree Hready1) as (vb2 & Hl & Hd & Hready2).
  destruct (skin_pass_spec sk name geometry inputData boneMatrices delta bufs1 r vb1 attr
              Hready1) as (out1 & Hrun1 & Hlen1 & Hw1 & Ho1).
  destruct (skin_pass_spec sk name geometry inputData boneMatrices delta bufs2 r vb2 attr
              Hready2) as (out2 & Hrun2 & Hlen2 & Hw2 & Ho2).
  destruct Hready1 as (_ & Hr1 & _ & Hstride1 & _).
  pose proof Hl as (Ha & Hs & Hlen).
  eexists _, _. split; [done|]. split; [done|]. intros r'.
  destruct (decide (r' = r)) as [->|Hne].
  - rewrite !lookup_insert_eq. split; [repeat split; simpl; congruence|].
    intros i Hi. simpl.
    destruct (written_slot_decide attr vb1 i Hstride1) as [Hw|Hw].
    + destruct Hw as (vId & c & Hv & Hc & ->).
      rewrite Hw1 by done. rewrite Hs.
      rewrite Hw2 by (try rewrite <- Hs, <- Hlen; done). done.
    + rewrite Ho1 by done.
      rewrite Ho2 by (intros Hw2'; apply Hw; by eapply written_slot_layout,
                        Hw2'; apply same_layout_sym).
      apply Hd. destruct Hi as [Hi|[_ Hi]]; [done|tauto].
  - rewrite !lookup_insert_ne by done. specialize (Hagree r').
    destruct (bufs1 !! r'), (bufs2 !! r'); try done.
    destruct Hagree as [Hl' Hd']. split; [done|].
    intros i [Hi|[? _]]; [by apply Hd'|done].
Qed.

(** *** The two passes on the store *)

Lemma pass_slot_ready sk (name : string) (geometry : Geometry)
    (inputData boneMatrices : list F) bufs (r : Ref) vb (attr : Attribute)
    (r' : Ref) (i : N) :
  pass_ready sk name geometry inputData boneMatrices bufs r vb attr →
  pass_slot name geometry bufs r' i ↔ slot_of r attr vb r' i.
Proof.
  intros (Hfind & Hr & Hattr & _). split.
  - intros (r0 & vb0 & attr0 & Hfind0 & Hr0 & Hattr0 & Hslot).
    rewrite Hfind in Hfind0. injection Hfind0 as <-.
    rewrite Hr in Hr0. injection Hr0 as <-.
    rewrite Hattr in Hattr0. by injection Hattr0 as <-.
  - intros Hslot. by exists r, vb, attr.
Qed.

Lemma update_ready_agree (A : Ref → N → Prop) sk (geometry : Geometry)
    (inputPositions : list F) (inputNormals : option (list F)) (boneMatrices : list F)
    bufs1 bufs2 (r : Ref) vb1 (attr : Attribute) :
  agree_on A bufs1 bufs2 →
  update_ready sk geometry inputPositions inputNormals boneMatrices bufs1 r vb1 attr →
  ∃ vb2, same_layout vb1 vb2 ∧
         update_ready sk geometry inputPositions inputNormals boneMatrices bufs2 r vb2 attr.
Proof.
  intros Hagree [Hpos Hnrm].
  destruct (pass_ready_agree A sk _ geometry inputPositions boneMatrices bufs1 bufs2
              r vb1 attr Hagree Hpos) as (vb2 & Hl & _ & Hpos2).
  exists vb2. split; [done|]. split; [done|].
  intros inN rn Hin Hrn.
  rewrite <- (geometry_vertexBuffer_agree A bufs1 bufs2) in Hrn by done.
  destruct (Hnrm inN rn Hin Hrn) as (nb & nattr & Hready).
  destruct (pass_ready_agree A sk _ geometry inN boneMatrices bufs1 bufs2
              rn nb nattr Hagree Hready) as (nb2 & _ & _ & Hready2).
  eauto.
Qed.

(** The structure of a software update of a geometry that is ready. *)
Lemma software_buffers_steps sk (geometry : Geometry) (inputPositions : list F)
    (inputNormals : option (list F)) (boneMatrices : list F) bufs
    (r : Ref) vb (attr : Attribute) :
  update_ready sk geometry inputPositions inputNormals boneMatrices bufs r vb attr →
  ∃ out bufsA,
    bufsA = <[r := set_data vb out]> bufs ∧
    skin_pass sk ATTRNAME_POSITION geometry inputPositions boneMatrices false bufs
      = Some bufsA ∧
    length out = length (data vb) ∧
    (∀ vId c, vId < N.of_nat (length (data vb)) / vertexSize vb → c < 3 →
       out !! N.to_nat (attr_offset attr + vId * vertexSize vb + c) =
         Some (skinned sk boneMatrices inputPositions false
                 (vertexSize vb) (attr_offset attr) vId c)) ∧
    agree_on (λ r' i, ¬ slot_of r attr vb r' i) bufs bufsA ∧
    match geometry_vertexBuffer bufs geometry ATTRNAME_NORMAL, inputNormals with
    | Some rn, Some inN =>
        ∃ nb nattr nbA,
          pass_ready sk ATTRNAME_NORMAL geometry inN boneMatrices bufs rn nb nattr ∧
          pass_ready sk ATTRNAME_NORMAL geometry inN boneMatrices bufsA rn nbA nattr ∧
          same_layout nb nbA ∧
          software_buffers sk geometry inputPositions inputNormals boneMatrices bufs =
            skin_pass sk ATTRNAME_NORMAL geometry inN boneMatrices true bufsA
    | _, _ =>
        software_buffers sk geometry inputPositions inputNormals boneMatrices bufs
          = Some bufsA
    end.
Proof.
  intros [Hpos Hnrm].
  destruct (skin_pass_spec sk _ geometry inputPositions boneMatrices false bufs r vb attr
              Hpos) as (out & Hrun & Hlength & Hwritten & Hother).
  destruct (skin_pass_frame sk _ geometry inputPositions boneMatrices false bufs r vb attr
              Hpos) as (bufsA & Hrun' & Hframe).
  rewrite Hrun in Hrun'. injection Hrun' as <-.
  exists out, (<[r := set_data vb out]> bufs). split; [done|]. split; [done|].
  split; [done|]. split; [done|]. split; [done|].
  pose proof (geometry_vertexBuffer_agree _ bufs _ geometry ATTRNAME_NORMAL Hframe)
    as Hsame.
  unfold software_buffers. rewrite Hrun. simpl. rewrite <- Hsame.
  destruct (geometry_vertexBuffer bufs geometry ATTRNAME_NORMAL) as [rn|] eqn:Hrn; [|done].
  destruct inputNormals as [inN|]; [|done].
  destruct (Hnrm inN rn eq_refl eq_refl) as (nb & nattr & Hready).
  destruct (pass_ready_agree _ sk _ geometry inN boneMatrices bufs _
              rn nb nattr Hframe Hready) as (nbA & Hl & _ & HreadyA).
  exists nb, nattr, nbA. done.
Qed.

(** A software update changes the slots of the position attribute, those
    of the normal attribute when it is processed, and nothing else. *)
Lemma software_buffers_frame sk (geometry : Geometry) (inputPositions : list F)
    (inputNormals : option (list F)) (boneMatrices : list F) bufs
    (r : Ref) vb (attr : Attribute) :
  update_ready sk geometry inputPositions inputNormals boneMatrices bufs r vb attr →
  ∃ bufs',
    software_buffers sk geometry inputPositions inputNormals boneMatrices bufs
      = Some bufs' ∧
    agree_on (λ r' i, ¬ update_slot geometry inputNormals bufs r' i) bufs bufs'.
Proof.
  intros Hready.
  destruct (software_buffers_steps sk geometry inputPositions inputNormals boneMatrices
              bufs r vb attr Hready)
    as (out & bufsA & _ & Hrun & _ & _ & Hframe & Hnormals).
  destruct Hready as [Hpos _].
  assert (HframeA : agree_on (λ r' i, ¬ update_slot geometry inputNormals bufs r' i)
                      bufs bufsA).
  { eapply agree_on_weaken; [|exact Hframe]. intros r' i Hno Hslot. apply Hno. left.
    by apply (pass_slot_ready sk ATTRNAME_POSITION geometry inputPositions boneMatrices bufs r vb attr). }
  destruct (geometry_vertexBuffer bufs geometry ATTRNAME_NORMAL) as [rn|] eqn:Hrn;
    [|by eauto].
  destruct inputNormals as [inN|]; [|by eauto].
  destruct Hnormals as (nb & nattr & nbA & Hnready & HnreadyA & Hl & ->).
  destruct (skin_pass_frame sk _ geometry inN boneMatrices true bufsA rn nbA nattr
              HnreadyA) as (bufs' & Hrun' & Hframe').
  exists bufs'. split; [done|].
  eapply agree_on_trans; [exact HframeA|].
  eapply agree_on_weaken; [|exact Hframe']. intros r' i Hno Hslot. apply Hno. right.
  split; [by eauto|].
  apply (pass_slot_ready sk ATTRNAME_NORMAL geometry inN boneMatrices bufs rn nb nattr); [done|].
  eapply slot_of_layout; [|exact Hslot]. by apply same_layout_sym.
Qed.

(** What a software update writes does not depend on what the buffers
    held: after the update, two stores that agreed on [A] agree on [A] and on
    every slot the update writes. *)
Lemma software_buffers_agree (A : Ref → N → Prop) sk (geometry : Geometry)
    (inputPositions : list F) (inputNormals : option (list F)) (boneMatrices : list F)
    bufs1 bufs2 (r : Ref) vb1 (attr : Attribute) :
  agree_on A bufs1 bufs2 →
  update_ready sk geometry inputPositions inputNormals boneMatrices bufs1 r vb1 attr →
  ∃ bufs1' bufs2',
    software_buffers sk geometry inputPositions inputNormals boneMatrices bufs1
      = Some bufs1' ∧
    software_buffers sk geometry inputPositions inputNormals boneMatrices bufs2
      = Some bufs2' ∧
    agree_on (λ r' i, A r' i ∨ update_slot geometry inputNormals bufs1 r' i)
      bufs1' bufs2'.
Proof.
  intros Hagree Hready1.
  destruct (update_ready_agree A sk geometry inputPositions inputNormals boneMatrices
              bufs1 bufs2 r vb1 attr Hagree Hready1) as (vb2 & Hl12 & Hready2).
  destruct (software_buffers_steps sk geometry inputPositions inputNormals boneMatrices
              bufs1 r vb1 attr Hready1)
    as (out1 & bufsA1 & _ & Hrun1 & _ & _ & Hframe1 & Hnormals1).
  destruct (software_buffers_steps sk geometry inputPositions inputNormals boneMatrices
              bufs2 r vb2 attr Hready2)
    as (out2 & bufsA2 & _ & Hrun2 & _ & _ & Hframe2 & Hnormals2).
  pose proof Hready1 as [Hpos1 _].
  destruct (skin_pass_agree A sk _ geometry inputPositions boneMatrices false bufs1 bufs2
              r vb1 attr Hagree Hpos1) as (bufsA1' & bufsA2' & Hrun1' & Hrun2' & HagreeA).
  rewrite Hrun1 in Hrun1'. injection Hrun1' as <-.
  rewrite Hrun2 in Hrun2'. injection Hrun2' as <-.
  rewrite <- (geometry_vertexBuffer_agree A bufs1 bufs2) in Hnormals2 by done.
  destruct (geometry_vertexBuffer bufs1 geometry ATTRNAME_NORMAL) as [rn|] eqn:Hrn.
  2:{ exists bufsA1, bufsA2. split; [done|]. split; [done|].
      eapply agree_on_weaken; [|exact HagreeA].
      intros r' i [HA|[Hp|[_ Hn]]]; [by left| |].
      - right. by apply (pass_slot_ready sk ATTRNAME_POSITION geometry inputPositions boneMatrices
                           bufs1 r vb1 attr).
      - destruct Hn as (r0 & _ & _ & Hfind0 & _). congruence. }
  destruct inputNormals as [inN|].
  2:{ exists bufsA1, bufsA2. split; [done|]. split; [done|].
      eapply agree_on_weaken; [|exact HagreeA].
      intros r' i [HA|[Hp|[[? [=]] _]]]; [by left|].
      right. by apply (pass_slot_ready sk ATTRNAME_POSITION geometry inputPositions boneMatrices
                         bufs1 r vb1 attr). }
  destruct Hnormals1 as (nb1 & nattr1 & nbA1 & Hnready1 & HnreadyA1 & Hl1 & ->).
  destruct Hnormals2 as (nb2 & nattr2 & nbA2 & Hnready2 & HnreadyA2 & Hl2 & ->).
  destruct (skin_pass_agree _ sk _ geometry inN boneMatrices true bufsA1 bufsA2
              rn nbA1 nattr1 HagreeA HnreadyA1) as (bufs1' & bufs2' & HrunN1 & HrunN2 & Hfinal).
  exists bufs1', bufs2'. split; [done|]. split; [done|].
  eapply agree_on_weaken; [|exact Hfinal].
  intros r' i [HA|[Hp|[_ Hn]]].
  - by left; left.
  - left; right. by apply (pass_slot_ready sk ATTRNAME_POSITION geometry inputPositions boneMatrices
                             bufs1 r vb1 attr).
  - right. eapply slot_of_layout; [exact Hl1|].
    by apply (pass_slot_ready sk ATTRNAME_NORMAL geometry inN boneMatrices bufs1 rn nb1 nattr1).
Qed.

(** Under the conditions of the update, whether a position is one of its
    slots can be decided. *)
Lemma update_slot_decide sk (geometry : Geometry) (inputPositions : list F)
    (inputNormals : option (list F)) (boneMatrices : list F) bufs
    (r : Ref) vb (attr : Attribute) (r' : Ref) (i : N) :
  update_ready sk geometry inputPositions inputNormals boneMatrices bufs r vb attr →
  update_slot geometry inputNormals bufs r' i ∨ ¬ update_slot geometry inputNormals bufs r' i.
Proof.
  intros [Hpos Hnrm]. unfold update_slot.
  pose proof (pass_slot_ready sk ATTRNAME_POSITION geometry inputPositions boneMatrices bufs r vb attr
                r' i Hpos) as Hiff.
  destruct Hpos as (_ & _ & _ & Hstride & _).
  destruct (slot_of_decide r attr vb r' i Hstride) as [Hp|Hp]; [left; left; tauto|].
  destruct inputNormals as [inN|]; [|right; intros [?|[[? [=]] _]]; tauto].
  destruct (geometry_vertexBuffer bufs geometry ATTRNAME_NORMAL) as [rn|] eqn:Hrn.
  - destruct (Hnrm inN rn eq_refl eq_refl) as (nb & nattr & Hready).
    pose proof (pass_slot_ready sk ATTRNAME_NORMAL geometry inN boneMatrices bufs rn nb nattr
                  r' i Hready) as Hniff.
    destruct Hready as (_ & _ & _ & Hnstride & _).
    destruct (slot_of_decide rn nattr nb r' i Hnstride) as [Hn|Hn].
    + left. right. split; [by eauto|tauto].
    + right. tauto.
  - right. intros [?|[_ (r0 & _ & _ & Hfind0 & _)]]; [tauto|congruence].
Qed.

(** *** The frame update in software mode *)

Lemma find_attribute_Some (name : string) (attrs : list Attribute) (a : Attribute) :
  find_attribute name attrs = Some a → a ∈ attrs ∧ attr_name a = name.
Proof.
  unfold find_attribute.
  assert (Hgen : ∀ acc,
            foldl (λ found attr, if decide (attr_name attr = name) then Some attr else found)
                  acc attrs = Some a →
            acc = Some a ∨ (a ∈ attrs ∧ attr_name a = name)).
  { induction attrs as [|b attrs IH]; intros acc Hfold; simpl in Hfold; [by left|].
    destruct (IH _ Hfold) as [Hacc|[Hin Hname]].
    - destruct (decide (attr_name b = name)) as [Hb|Hb]; [|by left].
      injection Hacc as ->. right. split; [apply list_elem_of_here|done].
    - right. split; [by apply list_elem_of_further|done]. }
  intros Hfold. by destruct (Hgen None Hfold).
Qed.

Lemma software_ready_update_ready w sk (target : Node) (boneMatrices : list F)
    (r : Ref) vb (attr : Attribute) (inputPositions : list F) :
  software_ready w sk target boneMatrices r vb attr inputPositions →
  ∃ g geometry,
    _targetGeometry (this w) !! target = Some g ∧
    geometries w !! g = Some geometry ∧
    _targetInputPositions (this w) !! target = Some inputPositions ∧
    update_ready sk geometry inputPositions (_targetInputNormals (this w) !! target)
      boneMatrices (buffers w) r vb attr.
Proof.
  intros (g & geometry & Hg & Hgeo & Hxyz & Hbuf & Hattr & Hstride & Hinput & Hlen &
          Hbones & Hnormals).
  exists g, geometry. split; [done|]. split; [done|]. split; [done|].
  split; [done|]. intros inN rn Hin Hrn.
  destruct (Hnormals inN rn Hin Hrn) as (nb & nattr & Hnb & Hnattr & Hnstride & Hnlen & _).
  by exists nb, nattr.
Qed.

Lemma update_ready_matrices sk (geometry : Geometry) (inputPositions : list F)
    (inputNormals : option (list F)) (boneMatrices boneMatrices' : list F) bufs
    (r : Ref) vb (attr : Attribute) :
  bones_in_range sk boneMatrices' →
  update_ready sk geometry inputPositions inputNormals boneMatrices bufs r vb attr →
  update_ready sk geometry inputPositions inputNormals boneMatrices' bufs r vb attr.
Proof.
  intros Hbones [(? & ? & ? & ? & ? & _) Hnrm]. split; [done|].
  intros inN rn Hin Hrn.
  destruct (Hnrm inN rn Hin Hrn) as (nb & nattr & ? & ? & ? & ? & ? & _).
  by exists nb, nattr.
Qed.

(** X10: in software mode the second of two updates gives what it would
    have given without the first: every coordinate is computed from the
    snapshot, so nothing of an earlier frame remains in the buffers. *)
Theorem software_update_forgets_earlier_frame w sk (target : Node)
    (frameId frameId' : uint) (boneMatrices boneMatrices' : list F)
    (r : Ref) vb (attr : Attribute) (inputPositions : list F) :
  _skin (this w) = Some sk →
  _method (this w) ≠ HARDWARE →
  frameId < numFrames sk →
  frameId' < numFrames sk →
  matrices sk frameId = Some boneMatrices →
  matrices sk frameId' = Some boneMatrices' →
  software_ready w sk target boneMatrices r vb attr inputPositions →
  bones_in_range sk boneMatrices' →
  ∃ w1 w2,
    updateFrame target frameId w = Returns () w1 ∧
    updateFrame target frameId' w1 = Returns () w2 ∧
    updateFrame target frameId' w = Returns () w2.
Proof.
  intros Hskin Hmethod Hframe Hframe' Hmatrices Hmatrices' Hready Hbones'.
  destruct (software_ready_update_ready w sk target boneMatrices r vb attr
              inputPositions Hready) as (g & geometry & Hg & Hgeo & Hinput & Hupdate).
  set (inputNormals := _targetInputNormals (this w) !! target) in *.
  pose proof (update_ready_matrices sk geometry inputPositions inputNormals
                boneMatrices boneMatrices' (buffers w) r vb attr Hbones' Hupdate)
    as Hupdate'.
  destruct (software_buffers_frame sk geometry inputPositions inputNormals boneMatrices
              (buffers w) r vb attr Hupdate) as (bufs1 & Hrun1 & Hframe1).
  destruct (software_buffers_agree _ sk geometry inputPositions inputNormals boneMatrices'
              (buffers w) bufs1 r vb attr Hframe1 Hupdate')
    as (bufs2 & bufs2' & Hrun2 & Hrun2' & Hagree).
  assert (Hsame : bufs2 = bufs2').
  { apply agree_on_all. eapply agree_on_weaken; [|exact Hagree].
    intros r' i _.
    destruct (update_slot_decide sk geometry inputPositions inputNormals boneMatrices'
                (buffers w) r vb attr r' i Hupdate'); tauto. }
  subst bufs2'.
  set (w1 := {| this := this w; geometries := geometries w; buffers := bufs1 |}).
  exists w1, {| this := this w; geometries := geometries w; buffers := bufs2 |}.
  split_and!.
  - rewrite (updateFrame_software_buffers w sk target frameId boneMatrices g geometry
               inputPositions) by done.
    fold inputNormals. by rewrite Hrun1.
  - rewrite (updateFrame_software_buffers w1 sk target frameId' boneMatrices' g geometry
               inputPositions) by done.
    simpl. fold inputNormals. by rewrite Hrun2'.
  - rewrite (updateFrame_software_buffers w sk target frameId' boneMatrices' g geometry
               inputPositions) by done.
    fold inputNormals. by rewrite Hrun2.
Qed.

(** X11: a software update writes the slots of the attributes named
    position and normal, and no other float of any vertex buffer: every
    buffer keeps its layout, and a float that is in no slot of such an
    attribute of its buffer keeps its value. *)
Theorem software_update_writes_only_skinned_slots w sk (target : Node)
    (frameId : uint) (boneMatrices : list F) (r : Ref) vb (attr : Attribute)
    (inputPositions : list F) :
  _skin (this w) = Some sk →
  _method (this w) ≠ HARDWARE →
  frameId < numFrames sk →
  matrices sk frameId = Some boneMatrices →
  software_ready w sk target boneMatrices r vb attr inputPositions →
  ∃ w',
    updateFrame target frameId w = Returns () w' ∧
    this w' = this w ∧
    geometries w' = geometries w ∧
    dom (buffers w') = dom (buffers w) ∧
    ∀ r0 vb0, buffers w !! r0 = Some vb0 →
      ∃ vb1, buffers w' !! r0 = Some vb1 ∧
        attributes vb1 = attributes vb0 ∧
        vertexSize vb1 = vertexSize vb0 ∧
        length (data vb1) = length (data vb0) ∧
        ∀ i, (∀ a, a ∈ attributes vb0 →
                   attr_name a = ATTRNAME_POSITION ∨ attr_name a = ATTRNAME_NORMAL →
                   ¬ written_slot a vb0 i) →
             data vb1 !! N.to_nat i = data vb0 !! N.to_nat i.
Proof.
  intros Hskin Hmethod Hframe Hmatrices Hready.
  destruct (software_ready_update_ready w sk target boneMatrices r vb attr
              inputPositions Hready) as (g & geometry & Hg & Hgeo & Hinput & Hupdate).
  set (inputNormals := _targetInputNormals (this w) !! target) in *.
  destruct (software_buffers_frame sk geometry inputPositions inputNormals boneMatrices
              (buffers w) r vb attr Hupdate) as (bufs1 & Hrun1 & Hframe1).
  exists {| this := this w; geometries := geometries w; buffers := bufs1 |}.
  split_and!; try done.
  - rewrite (updateFrame_software_buffers w sk target frameId boneMatrices g geometry
               inputPositions) by done.
    fold inputNormals. by rewrite Hrun1.
  - simpl. apply set_eq. intros r0. rewrite !elem_of_dom. specialize (Hframe1 r0).
    destruct (buffers w !! r0), (bufs1 !! r0); done.
  - intros r0 vb0 Hr0. simpl.
    destruct (agree_on_lookup _ _ _ r0 vb0 Hframe1 Hr0) as (vb1 & Hr1 & (Ha & Hs & Hl) & Hd).
    exists vb1. split_and!; try done.
    intros i Hi. symmetry. apply Hd.
    assert (Hno : ∀ name, name = ATTRNAME_POSITION ∨ name = ATTRNAME_NORMAL →
                          ¬ pass_slot name geometry (buffers w) r0 i).
    { intros name Hname (r1 & vb1' & attr1 & _ & Hr1' & Hattr1 & [-> Hw]).
      rewrite Hr0 in Hr1'. injection Hr1' as <-.
      apply find_attribute_Some in Hattr1 as [Hin Hn].
      apply (Hi attr1 Hin); [|done]. rewrite Hn. done. }
    intros [Hp|[_ Hn]].
    + by apply (Hno ATTRNAME_POSITION); [left|].
    + by apply (Hno ATTRNAME_NORMAL); [right|].
Qed.

(** X12: when the target has a snapshot of its normals and its geometry a
    normal attribute, the update also blends the normals: each of the three
    coordinates is the weighted sum of the corresponding row of the bone
    matrix applied, without its translation entry, to the coordinate read
    from the snapshot of the normals. *)
Theorem software_update_blends_normals w sk (target : Node) (frameId : uint)
    (boneMatrices : list F) (r : Ref) vb (attr : Attribute) (inputPositions : list F)
    (g : Ref) (geometry : Geometry) (rn : Ref) (normalBuffer : VertexBuffer (F:=F))
    (normalAttr : Attribute) (inputNormals : list F) :
  _skin (this w) = Some sk →
  _method (this w) ≠ HARDWARE →
  frameId < numFrames sk →
  matrices sk frameId = Some boneMatrices →
  software_ready w sk target boneMatrices r vb attr inputPositions →
  _targetGeometry (this w) !! target = Some g →
  geometries w !! g = Some geometry →
  geometry_vertexBuffer (buffers w) geometry ATTRNAME_NORMAL = Some rn →
  buffers w !! rn = Some normalBuffer →
  find_attribute ATTRNAME_NORMAL (attributes normalBuffer) = Some normalAttr →
  _targetInputNormals (this w) !! target = Some inputNormals →
  ∃ w' vb',
    updateFrame target frameId w = Returns () w' ∧
    buffers w' !! rn = Some vb' ∧
    length (data vb') = length (data normalBuffer) ∧
    ∀ vId c, vId < N.of_nat (length (data normalBuffer)) / vertexSize normalBuffer →
      c < 3 →
      data vb' !! N.to_nat (attr_offset normalAttr + vId * vertexSize normalBuffer + c) =
        Some (skinned sk boneMatrices inputNormals true
                (vertexSize normalBuffer) (attr_offset normalAttr) vId c).
Proof.
  intros Hskin Hmethod Hframe Hmatrices Hready Hg Hgeo Hrn Hnb Hnattr Hin.
  destruct (software_ready_update_ready w sk target boneMatrices r vb attr
              inputPositions Hready) as (g' & geometry' & Hg' & Hgeo' & Hinput & Hupdate).
  rewrite Hg in Hg'. injection Hg' as <-. rewrite Hgeo in Hgeo'. injection Hgeo' as <-.
  rewrite Hin in Hupdate.
  destruct (software_buffers_steps sk geometry inputPositions (Some inputNormals)
              boneMatrices (buffers w) r vb attr Hupdate)
    as (out & bufsA & _ & _ & _ & _ & _ & Hnormals).
  rewrite Hrn in Hnormals.
  destruct Hnormals as (nb & nattr & nbA & Hnready & HnreadyA & Hl & Hrun).
  destruct Hnready as (_ & Hnb' & Hnattr' & _).
  rewrite Hnb in Hnb'. injection Hnb' as <-.
  rewrite Hnattr in Hnattr'. injection Hnattr' as <-.
  destruct (skin_pass_spec sk _ geometry inputNormals boneMatrices true bufsA rn nbA
              normalAttr HnreadyA) as (out2 & Hrun2 & Hlen2 & Hwritten2 & _).
  destruct Hl as (_ & Hs & Hlen).
  eexists _, (set_data nbA out2). split_and!.
  - rewrite (updateFrame_software_buffers w sk target frameId boneMatrices g geometry
               inputPositions) by done.
    rewrite Hin, Hrun, Hrun2. reflexivity.
  - simpl. apply lookup_insert_eq.
  - simpl. congruence.
  - intros vId c Hv Hc. simpl. rewrite Hs, Hlen in *. by apply Hwritten2.
Qed.

End SoftwareUpdate.

(** ** The update in hardware mode *)

Section HardwareUpdate.

Context {F : Type} `{FloatOps F}.

Implicit Types (sk : Skin (F:=F)) (w : World (F:=F)) (s : Skinning (F:=F)).

(** The frame update in [HARDWARE] mode (lines 304-311), for a frame whose
    matrix array is not empty, so that [boneMatrices[0]] exists. *)
Lemma updateFrame_hardware w sk (target : Node) (frameId : uint)
    (boneMatrices : list F) (g : Ref)
    (geometry : Geometry) (count : uint) (pointer : option uint) :
  _skin (this w) = Some sk →
  _method (this w) = HARDWARE →
  _targetGeometry (this w) !! target = Some g →
  matrices sk frameId = Some boneMatrices →
  boneMatrices ≠ [] →
  geometries w !! g = Some geometry →
  gdata geometry !! PNAME_BONE_MATRICES = Some (PUniformArray count pointer) →
  updateFrame target frameId w =
    Returns () {| this := this w;
                  geometries :=
                    <[g := data_set PNAME_BONE_MATRICES
                             (PUniformArray (numBones sk) (Some frameId))
                             (data_set PNAME_NUM_BONES (PInt (to_int (numBones sk)))
                                geometry)]> (geometries w);
                  buffers := buffers w |}.
Proof.
  intros Hskin Hmethod Hg Hmatrices Hnonempty Hgeo Hbinding.
  assert (Hframe : frameId < numFrames sk).
  { apply lookup_lt_Some in Hmatrices. unfold numFrames. lia. }
  assert (Hfirst : ∃ m0, vec_get boneMatrices 0 = Some m0).
  { destruct boneMatrices as [|m0 l]; [done|]. by exists m0. }
  destruct Hfirst as [m0 Hfirst].
  unfold updateFrame. unfold_M. rewrite Hg; simpl_world. rewrite Hskin; simpl_world.
  rewrite decide_False by lia. rewrite Hmatrices; simpl_world.
  rewrite decide_True by done. rewrite Hgeo; simpl_world.
  rewrite lookup_insert_eq; simpl_world. simpl.
  rewrite lookup_insert_ne by done. rewrite Hbinding. rewrite Hfirst. simpl_world.
  rewrite lookup_insert_eq. simpl_world. by rewrite insert_insert_eq.
Qed.

(** For a frame whose matrix array is empty there is no [boneMatrices[0]]:
    the subscript of line 310 is outside the vector. *)
Lemma updateFrame_hardware_empty_frame w sk (target : Node) (frameId : uint) (g : Ref)
    (geometry : Geometry) (count : uint) (pointer : option uint) :
  _skin (this w) = Some sk →
  _method (this w) = HARDWARE →
  _targetGeometry (this w) !! target = Some g →
  matrices sk frameId = Some [] →
  geometries w !! g = Some geometry →
  gdata geometry !! PNAME_BONE_MATRICES = Some (PUniformArray count pointer) →
  updateFrame target frameId w = Undefined.
Proof.
  intros Hskin Hmethod Hg Hmatrices Hgeo Hbinding.
  assert (Hframe : frameId < numFrames sk).
  { apply lookup_lt_Some in Hmatrices. unfold numFrames. lia. }
  unfold updateFrame. unfold_M. rewrite Hg; simpl_world. rewrite Hskin; simpl_world.
  rewrite decide_False by lia. rewrite Hmatrices; simpl_world.
  rewrite decide_True by done. rewrite Hgeo; simpl_world.
  rewrite lookup_insert_eq; simpl_world. simpl.
  rewrite lookup_insert_ne by done. by rewrite Hbinding.
Qed.

(** X13: in [HARDWARE] mode the update of a registered target, for a frame
    in range whose matrix array is not empty (line 310 takes the address of
    its first element), writes no vertex buffer and does not change the
    component: it binds the number of bones and the matrices of the frame in
    the property store of the target's geometry, and leaves the geometry's
    vertex buffers and its other properties as they were. *)
Theorem hardware_update_binds_frame w sk (target : Node) (frameId : uint)
    (boneMatrices : list F) (g : Ref)
    (geometry : Geometry) (count : uint) (pointer : option uint) :
  _skin (this w) = Some sk →
  _method (this w) = HARDWARE →
  _targetGeometry (this w) !! target = Some g →
  matrices sk frameId = Some boneMatrices →
  boneMatrices ≠ [] →
  geometries w !! g = Some geometry →
  gdata geometry !! PNAME_BONE_MATRICES = Some (PUniformArray count pointer) →
  ∃ w' geometry',
    updateFrame target frameId w = Returns () w' ∧
    this w' = this w ∧
    buffers w' = buffers w ∧
    geometries w' = <[g := geometry']> (geometries w) ∧
    vertexBuffers geometry' = vertexBuffers geometry ∧
    gdata geometry' !! PNAME_NUM_BONES = Some (PInt (to_int (numBones sk))) ∧
    gdata geometry' !! PNAME_BONE_MATRICES =
      Some (PUniformArray (numBones sk) (Some frameId)) ∧
    ∀ name, name ≠ PNAME_NUM_BONES → name ≠ PNAME_BONE_MATRICES →
            gdata geometry' !! name = gdata geometry !! name.
Proof.
  intros Hskin Hmethod Hg Hmatrices Hnonempty Hgeo Hbinding.
  eexists _, (data_set PNAME_BONE_MATRICES (PUniformArray (numBones sk) (Some frameId))
                (data_set PNAME_NUM_BONES (PInt (to_int (numBones sk))) geometry)).
  split.
  { by apply (updateFrame_hardware w sk target frameId boneMatrices g geometry
                count pointer). }
  simpl. split_and!; try done.
  - by rewrite lookup_insert_ne, lookup_insert_eq.
  - by rewrite lookup_insert_eq.
  - intros name Hn Hm. by rewrite !lookup_insert_ne.
Qed.

End HardwareUpdate.

(** ** The tick handler *)

Section Tick.

Context {F : Type} `{FloatOps F}.

Implicit Types (sk : Skin (F:=F)) (w : World (F:=F)) (s : Skinning (F:=F)).

Lemma set_targetStartTime_id s : set_targetStartTime (_targetStartTime s) s = s.
Proof. by destruct s. Qed.

(** The loop of the tick handler over targets that are not registered. *)
Lemma tick_loop_unregistered sk (time : F) (l : list Node) w :
  _skin (this w) = Some sk →
  (∀ t, t ∈ l → _targetGeometry (this w) !! t = None) →
  ∃ m,
    for_each l (λ target,
      s ← get_this;
      sk ← defined (_skin s);
      startTime ← index_targetStartTime target;
      updateFrame target (getFrameId sk (fsub time (f_of_clock startTime)))) w
    = Returns () {| this := set_targetStartTime m (this w);
                    geometries := geometries w; buffers := buffers w |} ∧
    ∀ n, m !! n =
      match _targetStartTime (this w) !! n with
      | Some t => Some t
      | None => if decide (n ∈ l) then Some 0%Z else None
      end.
Proof.
  revert w. induction l as [|t l IH]; intros w Hskin Hnone.
  - exists (_targetStartTime (this w)). split.
    + simpl. by rewrite set_targetStartTime_id, World_eta.
    + intros n. destruct (_targetStartTime (this w) !! n); [done|].
      rewrite decide_False; [done|]. apply not_elem_of_nil.
  - set (m1 := match _targetStartTime (this w) !! t with
               | Some _ => _targetStartTime (this w)
               | None => <[t := 0%Z]> (_targetStartTime (this w))
               end).
    set (w1 := {| this := set_targetStartTime m1 (this w);
                  geometries := geometries w; buffers := buffers w |}).
    destruct (IH w1) as (m & Hrun & Hm).
    { done. }
    { intros t' Ht'. simpl. apply Hnone. by apply list_elem_of_further. }
    exists m. split.
    + cbn [for_each].
      assert (Hstep :
        (s ← get_this;
         sk ← defined (_skin s);
         startTime ← index_targetStartTime t;
         updateFrame t (getFrameId sk (fsub time (f_of_clock startTime)))) w
        = Returns () w1).
      { unfold index_targetStartTime. unfold_M. rewrite Hskin; simpl_world.
        subst w1 m1.
        destruct (_targetStartTime (this w) !! t) as [t0|] eqn:Ht0.
        - rewrite set_targetStartTime_id, World_eta. simpl.
          by rewrite updateFrame_unregistered by (apply Hnone, list_elem_of_here).
        - simpl.
          by rewrite updateFrame_unregistered
            by (simpl; apply Hnone, list_elem_of_here). }
      rewrite (M_bind_Returns _ _ _ _ _ Hstep). rewrite Hrun. subst w1. simpl. done.
    + intros n. rewrite Hm. subst w1 m1. simpl.
      destruct (decide (n = t)) as [->|Hne].
      * destruct (_targetStartTime (this w) !! t) as [t0|] eqn:Ht0.
        -- by rewrite Ht0.
        -- rewrite lookup_insert_eq. rewrite decide_True; [done|apply list_elem_of_here].
      * assert (Hlook : (match _targetStartTime (this w) !! t with
                         | Some _ => _targetStartTime (this w)
                         | None => <[t := 0%Z]> (_targetStartTime (this w))
                         end) !! n = _targetStartTime (this w) !! n).
        { destruct (_targetStartTime (this w) !! t); [done|].
          by rewrite lookup_insert_ne. }
        rewrite Hlook. destruct (_targetStartTime (this w) !! n); [done|].
        destruct (decide (n ∈ l)) as [Hin|Hin].
        -- rewrite decide_True; [done|by apply list_elem_of_further].
        -- rewrite decide_False; [done|].
           intros [?|?]%elem_of_cons; done.
Qed.

(** X15: a tick while no target of the scene is registered returns and
    writes nothing, except that reading [_targetStartTime[target]] leaves a
    start time of 0 for every target that had none. *)
Theorem tick_without_registered_targets (scene : Scene) (time : F) w sk :
  _skin (this w) = Some sk →
  (∀ t, t ∈ targets scene → _targetGeometry (this w) !! t = None) →
  ∃ w',
    frameBeginHandler scene time w = Returns () w' ∧
    geometries w' = geometries w ∧
    buffers w' = buffers w ∧
    this w' = set_targetStartTime (_targetStartTime (this w')) (this w) ∧
    ∀ n, _targetStartTime (this w') !! n =
      match _targetStartTime (this w) !! n with
      | Some t => Some t
      | None => if decide (n ∈ targets scene) then Some 0%Z else None
      end.
Proof.
  intros Hskin Hnone.
  destruct (tick_loop_unregistered sk time (targets scene) w Hskin Hnone) as (m & Hrun & Hm).
  eexists. split; [exact Hrun|]. simpl. by repeat split.
Qed.

End Tick.

(** ** From attachment to the first frame *)

Section AttachThenTick.

Context {F : Type} `{FloatOps F}.

Implicit Types (sk : Skin (F:=F)) (w : World (F:=F)) (vb : VertexBuffer (F:=F)).
Implicit Types (bufs : gmap Ref (VertexBuffer (F:=F))).

Lemma find_attribute_is_Some (name : string) (attrs : list Attribute) :
  name ∈ attr_name <$> attrs → is_Some (find_attribute name attrs).
Proof.
  unfold find_attribute.
  assert (Hgen : ∀ acc,
            is_Some acc ∨ name ∈ attr_name <$> attrs →
            is_Some (foldl (λ found attr,
                              if decide (attr_name attr = name) then Some attr else found)
                           acc attrs)).
  { induction attrs as [|b attrs IH]; intros acc Hacc; simpl.
    - destruct Hacc as [?|Hin]; [done|]. by apply elem_of_nil in Hin.
    - apply IH. destruct (decide (attr_name b = name)) as [Hb|Hb]; [by left; eauto|].
      destruct Hacc as [?|Hin]; [by left|]. right.
      rewrite fmap_cons in Hin. apply elem_of_cons in Hin as [?|?]; [congruence|done]. }
  intros Hin. apply Hgen. by right.
Qed.

Lemma geometry_vertexBuffer_attribute bufs (geometry : Geometry) (name : string)
    (r : Ref) vb :
  geometry_vertexBuffer bufs geometry name = Some r → bufs !! r = Some vb →
  is_Some (find_attribute name (attributes vb)).
Proof.
  unfold geometry_vertexBuffer. intros Hfind Hr.
  apply List.find_some in Hfind as [_ Hhas]. unfold buffer_has_attribute in Hhas.
  rewrite Hr in Hhas. apply find_attribute_is_Some.
  by apply bool_decide_eq_true_1 in Hhas.
Qed.

(** The positions that a software update leaves, when the normal
    attribute, if it is processed in the same buffer, does not overlap the
    position attribute. *)
Lemma software_buffers_positions sk (geometry : Geometry) (inputPositions : list F)
    (inputNormals : option (list F)) (boneMatrices : list F) bufs
    (r : Ref) vb (attr : Attribute) :
  update_ready sk geometry inputPositions inputNormals boneMatrices bufs r vb attr →
  (∀ nattr, is_Some inputNormals →
     geometry_vertexBuffer bufs geometry ATTRNAME_NORMAL = Some r →
     find_attribute ATTRNAME_NORMAL (attributes vb) = Some nattr →
     attr_offset attr + 3 ≤ attr_offset nattr ∨ attr_offset nattr + 3 ≤ attr_offset attr) →
  ∃ bufs' vb',
    software_buffers sk geometry inputPositions inputNormals boneMatrices bufs
      = Some bufs' ∧
    bufs' !! r = Some vb' ∧
    same_layout vb vb' ∧
    ∀ vId c, vId < N.of_nat (length (data vb)) / vertexSize vb → c < 3 →
      data vb' !! N.to_nat (attr_offset attr + vId * vertexSize vb + c) =
        Some (skinned sk boneMatrices inputPositions false
                (vertexSize vb) (attr_offset attr) vId c).
Proof.
  intros Hready Hdisjoint.
  destruct (software_buffers_steps sk geometry inputPositions inputNormals boneMatrices
              bufs r vb attr Hready)
    as (out & bufsA & -> & Hrun & Hlen & Hwritten & Hframe & Hnormals).
  destruct Hready as [(_ & Hr & _ & Hstride & _) _].
  destruct (geometry_vertexBuffer bufs geometry ATTRNAME_NORMAL) as [rn|] eqn:Hrn.
  2:{ eexists _, _. split; [done|]. rewrite lookup_insert_eq. split; [done|].
      split; [by repeat split|done]. }
  destruct inputNormals as [inN|].
  2:{ eexists _, _. split; [done|]. rewrite lookup_insert_eq. split; [done|].
      split; [by repeat split|done]. }
  destruct Hnormals as (nb & nattr & nbA & Hnready & HnreadyA & Hl & ->).
  destruct (skin_pass_frame sk ATTRNAME_NORMAL geometry inN boneMatrices true _ rn nbA
              nattr HnreadyA) as (bufs' & Hrun' & Hframe').
  destruct (agree_on_lookup _ _ _ r (set_data vb out) Hframe')
    as (vb' & Hr' & Hl' & Hd'); [apply lookup_insert_eq|].
  exists bufs', vb'. split; [done|]. split; [done|].
  split; [eapply same_layout_trans; [|exact Hl']; by repeat split|].
  intros vId c Hv Hc. rewrite <- Hd'; [by apply Hwritten|].
  intros [-> Hslot].
  destruct Hnready as (_ & Hnb & Hnattr & Hnstride & _).
  rewrite Hr in Hnb. injection Hnb as <-.
  destruct HnreadyA as (_ & HnbA & _). rewrite lookup_insert_eq in HnbA.
  injection HnbA as <-.
  destruct Hstride as (_ & Hoff & _). destruct Hnstride as (_ & Hnoff & _).
  revert Hslot. apply written_slot_disjoint; [done|done|done| |done].
  apply Hdisjoint; [by eauto|done|done].
Qed.

Lemma M_then_ret (m : M (F:=F) unit) w : (m;; mret ()) w = m w.
Proof. unfold mbind, M_bind, mret, M_ret. by destruct (m w) as [[] w'| |]. Qed.

(** The tick of a scene with a single target that has a start time. *)
Lemma tick_single_target (scene : Scene) (time : F) (target : Node) w sk (startTime : Z) :
  targets scene = [target] →
  _skin (this w) = Some sk →
  _targetStartTime (this w) !! target = Some startTime →
  frameBeginHandler scene time w =
    updateFrame target (getFrameId sk (fsub time (f_of_clock startTime))) w.
Proof.
  intros Htargets Hskin Hstart. unfold frameBeginHandler. rewrite Htargets.
  cbn [for_each]. rewrite M_then_ret.
  unfold index_targetStartTime. unfold_M. by rewrite Hskin, Hstart.
Qed.

Lemma single_target_roots (scene : Scene) (target : Node) :
  targets scene = [target] → (length (driverRoots scene) ≤ 1)%nat.
Proof.
  intros Htargets. unfold driverRoots, NodeSet_roots. rewrite Htargets. simpl.
  rewrite filter_cons. case_decide; simpl; lia.
Qed.

(** X16: attach, then tick, in software mode.  After a compatible node has
    been attached at time [now], the tick at time [time] leaves in the live
    position buffer the blend, by the matrices of the frame that the skin
    gives for the elapsed time [time - now], of the positions the buffer held
    when the node was attached. *)
Theorem attach_then_tick_blends_bind_pose (scene : Scene) (now : Z) (time : F)
    (node target parent : Node) w sk (g : Ref) (geometry : Geometry) (xyz : Ref)
    (xyzBuffer : VertexBuffer (F:=F)) (attr : Attribute) (boneMatrices : list F) :
  _skin (this w) = Some sk →
  _method (this w) = SOFTWARE →
  untracked node (this w) →
  targets scene = [node] →
  fltb (duration sk) f_1e_6 = false →
  surface scene node = Some g →
  geometries w !! g = Some geometry →
  geometry_vertexBuffer (buffers w) geometry ATTRNAME_POSITION = Some xyz →
  buffers w !! xyz = Some xyzBuffer →
  vb_numVertices xyzBuffer = numVertices sk →
  find_attribute ATTRNAME_POSITION (attributes xyzBuffer) = Some attr →
  attribute_in_stride attr xyzBuffer →
  (∀ rn nb nattr,
     geometry_vertexBuffer (buffers w) geometry ATTRNAME_NORMAL = Some rn →
     buffers w !! rn = Some nb →
     find_attribute ATTRNAME_NORMAL (attributes nb) = Some nattr →
     attribute_in_stride nattr nb ∧
     (rn = xyz → attr_offset attr + 3 ≤ attr_offset nattr ∨
                 attr_offset nattr + 3 ≤ attr_offset attr)) →
  matrices sk (getFrameId sk (fsub time (f_of_clock now))) = Some boneMatrices →
  bones_in_range sk boneMatrices →
  ∃ w1 w2 vb',
    addedHandler scene now node target parent w = Returns () w1 ∧
    frameBeginHandler scene time w1 = Returns () w2 ∧
    buffers w2 !! xyz = Some vb' ∧
    length (data vb') = length (data xyzBuffer) ∧
    ∀ vId c, vId < numVertices sk → c < 3 →
      data vb' !! N.to_nat (attr_offset attr + vId * vertexSize xyzBuffer + c) =
        Some (skinned sk boneMatrices (data xyzBuffer) false
                (vertexSize xyzBuffer) (attr_offset attr) vId c).
Proof.
  intros Hskin Hmethod (_ & _ & _ & Hun) Htargets Hdur Hsurf Hgeo Hxyz Hbuf Hnv Hattr
    Hstride Hnormals Hmatrices Hbones.
  pose proof (single_target_roots scene node Htargets) as Hroots.
  destruct (addedHandler_attaches scene now node target parent w sk g geometry xyz
              xyzBuffer Hskin Hroots) as
    (w1 & Hadd & Hg1 & Ht1 & Hp1 & Hn1 & Hskin1 & Hmethod1 & _ & Hbufs1 & Hgeos1 & _);
    [by rewrite Hmethod|done..|].
  specialize (Hgeos1 Hmethod).
  set (frameId := getFrameId sk (fsub time (f_of_clock now))) in *.
  set (inputNormals := _targetInputNormals (this w1) !! node).
  assert (Hready : update_ready sk geometry (data xyzBuffer) inputNormals boneMatrices
                     (buffers w) xyz xyzBuffer attr).
  { split; [done|]. intros inN rn Hin Hrn.
    destruct (geometry_vertexBuffer_buffer _ geometry _ rn Hrn) as [nb Hnb].
    destruct (geometry_vertexBuffer_attribute _ geometry _ rn nb Hrn Hnb) as [nattr Hnattr].
    destruct (Hnormals rn nb nattr Hrn Hnb Hnattr) as [Hnstride _].
    exists nb, nattr. split_and!; try done.
    subst inputNormals. rewrite Hn1 in Hin. unfold normal_snapshot in Hin.
    rewrite Hrn in Hin. simpl in Hin. rewrite Hnb in Hin. simpl in Hin.
    destruct (decide (vb_numVertices nb = numVertices sk)).
    - rewrite lookup_insert_eq in Hin. by injection Hin as <-.
    - congruence. }
  destruct (software_buffers_positions sk geometry (data xyzBuffer) inputNormals
              boneMatrices (buffers w) xyz xyzBuffer attr Hready)
    as (bufs' & vb' & Hrun & Hvb' & (_ & _ & Hlen) & Hvalues).
  { intros nattr _ Hrn Hnattr. by apply (Hnormals xyz xyzBuffer nattr). }
  exists w1, {| this := this w1; geometries := geometries w1; buffers := bufs' |}, vb'.
  split; [done|]. split.
  { rewrite (tick_single_target scene time node w1 sk now Htargets)
      by (by rewrite ?Hskin1, ?Ht1, ?lookup_insert_eq).
    fold frameId.
    rewrite (updateFrame_software_buffers w1 sk node frameId boneMatrices g geometry
               (data xyzBuffer)).
    - fold inputNormals. by rewrite Hbufs1, Hrun.
    - congruence.
    - rewrite Hmethod1, Hmethod. done.
    - by rewrite Hg1, lookup_insert_eq.
    - by rewrite Hgeos1.
    - by rewrite Hp1, lookup_insert_eq.
    - apply lookup_lt_Some in Hmatrices. unfold numFrames. lia.
    - done. }
  split; [done|]. split; [done|].
  intros vId c Hv Hc. apply Hvalues; [|done].
  rewrite <- Hnv in Hv. unfold vb_numVertices in Hv.
  destruct Hstride as (Hvs & _). by rewrite decide_False in Hv.
Qed.

End AttachThenTick.

(** ** What the pass reads of the matrices *)

Section UndefinedPass.

Context {F : Type} `{FloatOps F}.

Implicit Types (sk : Skin (F:=F)) (vb : VertexBuffer (F:=F)).

(** A loop one of whose iterations is undefined is undefined. *)
Lemma for_range_None {S} (body : N → S → option S) (count : nat) (start : N) (s : S)
    (k : N) :
  start ≤ k < start + N.of_nat count →
  (∀ s, body k s = None) →
  for_range start count body s = None.
Proof.
  revert start s. induction count as [|count IH]; intros start s Hk Hnone; [lia|].
  simpl. destruct (decide (k = start)) as [->|Hne].
  - by rewrite Hnone.
  - destruct (body start s) as [s'|]; [|done]. simpl. apply IH; [lia|done].
Qed.

(** X17: the software pass does not check bone ids: when a vertex of the
    buffer refers to a bone whose matrix begins beyond the end of the
    frame's matrix array, the pass reads outside the array. *)
Theorem software_pass_undefined_for_missing_bone sk (attr : Attribute) vb
    (inputData boneMatrices : list F) (doDeltaTransform : bool)
    (vId j boneId : uint) (boneWeight : F) :
  N.of_nat (length (data vb)) < UINT_RANGE →
  vId < N.of_nat (length (data vb)) / vertexSize vb →
  vertexBoneData sk vId j = Some (boneId, boneWeight) →
  N.of_nat (length boneMatrices) ≤ uint_shl boneId 4 →
  performSoftwareSkinningAttr sk attr vb inputData boneMatrices doDeltaTransform = None.
Proof.
  intros Hlen Hv Hbone Hbeyond.
  unfold performSoftwareSkinningAttr. cbv zeta.
  destruct (decide (vertexSize vb = 0)) as [|Hvs]; [done|].
  assert (Hnv : to_uint (N.of_nat (length (data vb)) / vertexSize vb) =
                N.of_nat (length (data vb)) / vertexSize vb).
  { apply to_uint_small.
    assert (N.of_nat (length (data vb)) / vertexSize vb ≤ N.of_nat (length (data vb)))
      by (apply N.Div0.div_le_upper_bound; nia). lia. }
  rewrite Hnv.
  rewrite (for_range_None _ _ _ _ vId); [done|lia|].
  intros [index out]. unfold skinVertex.
  destruct (vec_get inputData index) as [x1|]; [|done]. simpl.
  destruct (vec_get inputData (uint_add index 1)) as [y1|]; [|done]. simpl.
  destruct (vec_get inputData (uint_add index 2)) as [z1|]; [|done]. simpl.
  assert (Hblend : blendVertex sk boneMatrices doDeltaTransform vId x1 y1 z1 = None).
  { unfold blendVertex. apply (for_range_None _ _ _ _ j).
    - assert (N.to_nat j < length (bonesOf sk vId))%nat
        by (by apply lookup_lt_Some in Hbone).
      unfold numVertexBones. lia.
    - intros [[x2 y2] z2]. rewrite Hbone. simpl. unfold blendBone.
      assert (Hget : vec_get boneMatrices (uint_shl boneId 4 + 0) = None).
      { unfold vec_get. apply lookup_ge_None. lia. }
      destruct doDeltaTransform; simpl; by rewrite Hget. }
  by rewrite Hblend.
Qed.

End UndefinedPass.

Section AffinePart.

Context {F : Type} `{FloatOps F}.

Implicit Types (sk : Skin (F:=F)) (vb : VertexBuffer (F:=F)).

Lemma for_range_ext {S} (body body' : N → S → option S) (count : nat) (start : N) (s : S) :
  (∀ i s, body i s = body' i s) →
  for_range start count body s = for_range start count body' s.
Proof.
  intros Hext. revert start s. induction count as [|count IH]; intros start s; [done|].
  simpl. rewrite Hext. destruct (body' start s); [apply IH|done].
Qed.

(** The position in its matrix of an entry read at [boneId << 4]. *)
Lemma matrix_position (boneId : uint) (k : N) :
  k < 16 → (uint_shl boneId 4 + k) mod 16 = k ∧ (uint_shl boneId 4 + k) mod 4 = k mod 4.
Proof.
  intros Hk.
  assert (∃ q, uint_shl boneId 4 = q * 16) as [q ->].
  { unfold uint_shl, to_uint, UINT_RANGE.
    rewrite N.shiftl_mul_pow2. change (2 ^ 4) with 16.
    change 4294967296 with (16 * 268435456).
    rewrite N.Div0.mod_mul_r, N.Div0.mod_mul. eexists. rewrite N.add_0_l.
    apply N.mul_comm. }
  split.
  - rewrite N.add_comm, N.Div0.mod_add. by apply N.mod_small.
  - replace (q * 16 + k) with (k + (q * 4) * 4) by lia.
    by rewrite N.Div0.mod_add.
Qed.

(** X18: the pass reads the first three rows of each bone matrix and never
    the fourth; for a direction it does not read the translation column
    either.  Two matrix arrays that agree on the entries that are read give
    the same result. *)
Theorem software_pass_reads_affine_part sk (attr : Attribute) vb
    (inputData boneMatrices boneMatrices' : list F) (doDeltaTransform : bool) :
  (∀ p : N, p mod 16 < 12 → (doDeltaTransform = true → p mod 4 ≠ 3) →
            vec_get boneMatrices p = vec_get boneMatrices' p) →
  performSoftwareSkinningAttr sk attr vb inputData boneMatrices doDeltaTransform =
    performSoftwareSkinningAttr sk attr vb inputData boneMatrices' doDeltaTransform.
Proof.
  intros Hsame.
  assert (Hget : ∀ boneId k, k < 12 → (doDeltaTransform = true → k mod 4 ≠ 3) →
            vec_get boneMatrices (uint_shl boneId 4 + k) =
            vec_get boneMatrices' (uint_shl boneId 4 + k)).
  { intros boneId k Hk Hcol.
    destruct (matrix_position boneId k) as [H16 H4]; [lia|].
    apply Hsame; [lia|]. rewrite H4. done. }
  assert (Hbone : ∀ x1 y1 z1 bone acc,
            blendBone boneMatrices doDeltaTransform x1 y1 z1 bone acc =
            blendBone boneMatrices' doDeltaTransform x1 y1 z1 bone acc).
  { intros x1 y1 z1 [boneId boneWeight] [[x2 y2] z2]. unfold blendBone.
    destruct doDeltaTransform; simpl.
    - rewrite !(Hget boneId) by (try lia; intros _; vm_compute; discriminate). done.
    - rewrite !(Hget boneId) by (try lia; discriminate). done. }
  unfold performSoftwareSkinningAttr. cbv zeta.
  destruct (decide (vertexSize vb = 0)); [done|].
  rewrite (for_range_ext _
             (skinVertex sk inputData boneMatrices' doDeltaTransform (vertexSize vb)));
    [done|].
  intros vId [index out]. unfold skinVertex.
  destruct (vec_get inputData index) as [x1|]; [|done]. simpl.
  destruct (vec_get inputData (uint_add index 1)) as [y1|]; [|done]. simpl.
  destruct (vec_get inputData (uint_add index 2)) as [z1|]; [|done]. simpl.
  unfold blendVertex.
  rewrite (for_range_ext _
             (λ j acc, bone ← vertexBoneData sk vId j;
                       blendBone boneMatrices' doDeltaTransform x1 y1 z1 bone acc));
    [done|].
  intros j acc. destruct (vertexBoneData sk vId j); [apply Hbone|done].
Qed.

End AffinePart.

(** ** Sequences of events *)

Section Compositions.

Context {F : Type} `{FloatOps F}.

Implicit Types (sk : Skin (F:=F)) (w : World (F:=F)) (vb : VertexBuffer (F:=F)).

(** X14: attach, then tick, in [HARDWARE] mode.  After a compatible node
    has been attached at time [now], the tick at time [time], for a frame
    whose matrix array is not empty, is defined: the binding of the bone
    matrices that it fills in is the one the attachment created.  Afterwards
    the geometry holds the shared bone vertex buffer, the number of bones and
    the matrices of the frame that the skin gives for the elapsed time, and
    no vertex buffer has been written. *)
Theorem hardware_attach_then_tick (scene : Scene) (now : Z) (time : F)
    (node target parent : Node) w sk (g : Ref) (geometry : Geometry) (xyz : Ref)
    (xyzBuffer : VertexBuffer (F:=F)) (b : Ref) (boneMatrices : list F) :
  _skin (this w) = Some sk →
  _method (this w) = HARDWARE →
  _boneVertexBuffer (this w) = Some b →
  targets scene = [node] →
  fltb (duration sk) f_1e_6 = false →
  surface scene node = Some g →
  geometries w !! g = Some geometry →
  geometry_vertexBuffer (buffers w) geometry ATTRNAME_POSITION = Some xyz →
  buffers w !! xyz = Some xyzBuffer →
  vb_numVertices xyzBuffer = numVertices sk →
  matrices sk (getFrameId sk (fsub time (f_of_clock now))) = Some boneMatrices →
  boneMatrices ≠ [] →
  ∃ w1 w2 geometry2,
    addedHandler scene now node target parent w = Returns () w1 ∧
    frameBeginHandler scene time w1 = Returns () w2 ∧
    geometries w2 !! g = Some geometry2 ∧
    vertexBuffers geometry2 = vertexBuffers geometry ++ [b] ∧
    gdata geometry2 !! PNAME_NUM_BONES = Some (PInt (to_int (numBones sk))) ∧
    gdata geometry2 !! PNAME_BONE_MATRICES =
      Some (PUniformArray (numBones sk)
              (Some (getFrameId sk (fsub time (f_of_clock now))))) ∧
    buffers w2 = buffers w.
Proof.
  intros Hskin Hmethod Hb Htargets Hdur Hsurf Hgeo Hxyz Hbuf Hnv Hmatrices Hnonempty.
  pose proof (single_target_roots scene node Htargets) as Hroots.
  assert (Hhard : _method (this w) ≠ SOFTWARE) by (rewrite Hmethod; done).
  destruct (addedHandler_attaches scene now node target parent w sk g geometry xyz
              xyzBuffer Hskin Hroots) as
    (w1 & Hadd & Hg1 & Ht1 & _ & _ & Hskin1 & Hmethod1 & _ & Hbufs1 & _ & Hgeos1);
    [by eauto|done..|].
  specialize (Hgeos1 b Hhard Hb).
  eexists w1, _, (data_set PNAME_BONE_MATRICES
                    (PUniformArray (numBones sk)
                       (Some (getFrameId sk (fsub time (f_of_clock now)))))
                    (data_set PNAME_NUM_BONES (PInt (to_int (numBones sk)))
                       (data_set PNAME_NUM_BONES (PInt 0)
                          (data_set PNAME_BONE_MATRICES (PUniformArray 0 None)
                             (addVertexBuffer b geometry))))).
  split; [done|]. split.
  { rewrite (tick_single_target scene time node w1 sk now Htargets)
      by (by rewrite ?Hskin1, ?Ht1, ?lookup_insert_eq).
    eapply (updateFrame_hardware w1 sk node _ boneMatrices g).
    - congruence.
    - congruence.
    - by rewrite Hg1, lookup_insert_eq.
    - done.
    - done.
    - by rewrite Hgeos1, lookup_insert_eq.
    - unfold data_set; simpl.
      rewrite lookup_insert_ne by done. by rewrite lookup_insert_eq. }
  simpl. rewrite lookup_insert_eq. split_and!; try done.
  - by rewrite lookup_insert_ne, lookup_insert_eq.
  - by rewrite lookup_insert_eq.
Qed.

(** X19: the snapshot is taken at every [added] event of the node, not
    only at the first.  In software mode, an [added] event after an update
    replaces the snapshot of the positions by the contents of the live
    buffer, that is by the skinned positions the update wrote, and restarts
    the animation at the time of the event. *)
Theorem reattach_snapshots_skinned_positions (scene : Scene) (now : Z)
    (node target parent : Node) w sk (frameId : uint) (boneMatrices : list F)
    (r : Ref) vb (attr : Attribute) (inputPositions : list F) (g : Ref) :
  _skin (this w) = Some sk →
  _method (this w) = SOFTWARE →
  matrices sk frameId = Some boneMatrices →
  software_ready w sk node boneMatrices r vb attr inputPositions →
  (length (driverRoots scene) ≤ 1)%nat →
  fltb (duration sk) f_1e_6 = false →
  surface scene node = Some g →
  _targetGeometry (this w) !! node = Some g →
  vb_numVertices vb = numVertices sk →
  ∃ w1 w2 vb',
    updateFrame node frameId w = Returns () w1 ∧
    buffers w1 !! r = Some vb' ∧
    (∀ vId c, vId < N.of_nat (length (data vb)) / vertexSize vb → c < 3 →
       data vb' !! N.to_nat (attr_offset attr + vId * vertexSize vb + c) =
         Some (skinned sk boneMatrices inputPositions false
                 (vertexSize vb) (attr_offset attr) vId c)) ∧
    addedHandler scene now node target parent w1 = Returns () w2 ∧
    _targetInputPositions (this w2) !! node = Some (data vb') ∧
    _targetStartTime (this w2) !! node = Some now.
Proof.
  intros Hskin Hmethod Hmatrices Hready Hroots Hdur Hsurf Hg Hnv.
  destruct (software_ready_update_ready w sk node boneMatrices r vb attr
              inputPositions Hready) as (g' & geometry & Hg' & Hgeo & Hinput & Hupdate).
  rewrite Hg in Hg'. injection Hg' as <-.
  set (inputNormals := _targetInputNormals (this w) !! node) in *.
  destruct (software_buffers_positions sk geometry inputPositions inputNormals
              boneMatrices (buffers w) r vb attr Hupdate)
    as (bufs' & vb' & Hrun & Hvb' & Hlayout & Hvalues).
  { intros nattr [inN Hin] Hrn Hnattr.
    destruct Hready as (g1 & geometry1 & Hg1 & Hgeo1 & _ & Hbuf1 & _ & _ & _ & _ & _ & Hn1).
    rewrite Hg in Hg1. injection Hg1 as <-. rewrite Hgeo in Hgeo1. injection Hgeo1 as <-.
    destruct (Hn1 inN r Hin Hrn) as (nb & nattr' & Hnb & Hnattr' & _ & _ & Hd).
    rewrite Hbuf1 in Hnb. injection Hnb as <-.
    rewrite Hnattr in Hnattr'. injection Hnattr' as <-. by apply Hd. }
  set (w1 := {| this := this w; geometries := geometries w; buffers := bufs' |}).
  assert (Hupd : updateFrame node frameId w = Returns () w1).
  { assert (frameId < numFrames sk)
      by (apply lookup_lt_Some in Hmatrices; unfold numFrames; lia).
    assert (_method (this w) ≠ HARDWARE) by congruence.
    rewrite (updateFrame_software_buffers w sk node frameId boneMatrices g geometry
               inputPositions) by done.
    fold inputNormals. by rewrite Hrun. }
  destruct (software_buffers_frame sk geometry inputPositions inputNormals boneMatrices
              (buffers w) r vb attr Hupdate) as (bufs'' & Hrun'' & Hframe).
  rewrite Hrun in Hrun''. injection Hrun'' as <-.
  destruct Hupdate as [(Hxyz & _) _].
  destruct Hlayout as (Hattrs & Hvs & Hlen).
  destruct (addedHandler_attaches scene now node target parent w1 sk g geometry r vb')
    as (w2 & Hadd & _ & Ht2 & Hp2 & _); try done.
  - simpl. by rewrite <- (geometry_vertexBuffer_agree _ (buffers w) bufs' _ _ Hframe).
  - rewrite <- Hnv. unfold vb_numVertices. by rewrite Hvs, Hlen.
  - exists w1, w2, vb'. split_and!; try done.
    + by rewrite Hp2, lookup_insert_eq.
    + by rewrite Ht2, lookup_insert_eq.
Qed.

(** X20: the detach handler looks for the entries of the event's target,
    the attach handler made them under the node: when the two differ, as
    for an event about another node of the tree, the detachment leaves the
    node registered with its start time and its snapshot. *)
Theorem detach_of_other_target_keeps_node (scene scene' : Scene) (now : Z)
    (node target parent parent' : Node) w sk (g : Ref) (geometry : Geometry) (xyz : Ref)
    (xyzBuffer : VertexBuffer (F:=F)) :
  _skin (this w) = Some sk →
  (length (driverRoots scene) ≤ 1)%nat →
  (length (driverRoots scene') ≤ 1)%nat →
  (_method (this w) ≠ SOFTWARE → is_Some (_boneVertexBuffer (this w))) →
  fltb (duration sk) f_1e_6 = false →
  surface scene node = Some g →
  geometries w !! g = Some geometry →
  geometry_vertexBuffer (buffers w) geometry ATTRNAME_POSITION = Some xyz →
  buffers w !! xyz = Some xyzBuffer →
  vb_numVertices xyzBuffer = numVertices sk →
  target ≠ node →
  (∀ g', _targetGeometry (this w) !! target = Some g' → is_Some (geometries w !! g')) →
  ∃ w1 w2,
    addedHandler scene now node target parent w = Returns () w1 ∧
    removedHandler scene' node target parent' w1 = Returns () w2 ∧
    _targetGeometry (this w2) !! node = Some g ∧
    _targetStartTime (this w2) !! node = Some now ∧
    _targetInputPositions (this w2) !! node = Some (data xyzBuffer).
Proof.
  intros Hskin Hroots Hroots' Hbone Hdur Hsurf Hgeo Hxyz Hbuf Hnv Hne Htarget.
  destruct (addedHandler_attaches scene now node target parent w sk g geometry xyz
              xyzBuffer Hskin Hroots Hbone Hdur Hsurf Hgeo Hxyz Hbuf Hnv)
    as (w1 & Hadd & Hg1 & Ht1 & Hp1 & _ & _ & Hm1 & Hb1 & _ & Hsoft & Hhard).
  destruct (removedHandler_erases scene' node target parent' w1 Hroots')
    as (w2 & Hrem & Hg2 & Ht2 & Hp2 & _).
  { intros g' Hg' Hm. rewrite Hm1 in Hm. rewrite Hb1. split; [by apply Hbone|].
    rewrite Hg1, lookup_insert_ne in Hg' by done.
    destruct (Hbone Hm) as [b Hb]. rewrite (Hhard b Hm Hb).
    destruct (decide (g = g')) as [->|Hg]; [rewrite lookup_insert_eq; eauto|].
    rewrite lookup_insert_ne by done. by apply Htarget. }
  exists w1, w2. split; [done|]. split; [done|].
  rewrite Hg2, Ht2, Hp2, !lookup_delete_ne by done.
  by rewrite Hg1, Ht1, Hp1, !lookup_insert_eq.
Qed.

End Compositions.

(** ** The bone ids in binary32 *)

Section Binary32Cast.

Import Floats.SpecFloat.
Import Binary32.

#[local] Existing Instance Binary32.ops.

Local Open Scope Z_scope.

(** A mantissa that is already in canonical position is not rounded. *)
Lemma binary_round_aux_canonical (sx : bool) (m : positive) (e : Z) :
  fexp prec emax (Zdigits2 (Z.pos m) + e) = e →
  e ≤ emax - prec →
  binary_round_aux prec emax sx (Z.pos m) e loc_Exact = S754_finite sx m e.
Proof.
  intros Hcanon Hle. unfold binary_round_aux, shr_fexp.
  rewrite Hcanon, Z.sub_diag. cbn [shr shr_record_of_loc shr_m loc_of_shr_record
                                   round_nearest_even].
  rewrite Hcanon, Z.sub_diag. cbn [shr shr_record_of_loc shr_m].
  apply Z.leb_le in Hle. by rewrite Hle.
Qed.

Lemma Zpos_iter_xO (mx d : positive) : Z.pos (Pos.iter xO mx d) = Z.pos mx * 2 ^ Z.pos d.
Proof.
  induction d as [|d IH] using Pos.peano_ind.
  - simpl. lia.
  - rewrite Pos.iter_succ, Pos2Z.inj_succ, Z.pow_succ_r by lia.
    rewrite Pos2Z.inj_xO, IH. lia.
Qed.

(** The conversion of a positive integer of at most 24 binary digits. *)
Lemma binary_round_integer (p : positive) :
  Z.pos (digits2_pos p) ≤ 24 →
  ∃ m e, binary_round prec emax false p 0 = S754_finite false m e ∧
         e ≤ 0 ∧ Z.pos m = Z.pos p * 2 ^ (- e).
Proof.
  intros Hd. unfold binary_round, shl_align.
  assert (Hdigits : ∀ q, Zdigits2 (Z.pos q) = Z.pos (digits2_pos q)) by done.
  remember (Z.pos (digits2_pos p)) as d eqn:Hdef.
  assert (Hfexp : fexp prec emax (d + 0) = d - 24).
  { rewrite fexp_eq. lia. }
  rewrite Hfexp.
  destruct (d - 24 - 0) as [|k|k] eqn:Hk; [|lia|].
  - exists p, 0. split; [|split; [lia|simpl; lia]].
    apply binary_round_aux_canonical; [|unfold emax, prec; lia].
    rewrite Hdigits, <- Hdef, fexp_eq. lia.
  - exists (Pos.iter xO p k), (d - 24). split; [|split; [lia|]].
    + apply binary_round_aux_canonical; [|unfold emax, prec; lia].
      rewrite Hdigits, digits2_pos_iter_xO, <- Hdef, fexp_eq. lia.
    + rewrite Zpos_iter_xO. f_equal. f_equal. lia.
Qed.

Lemma digits_below_2_24 (p : positive) :
  Z.pos p < 16777216 → Z.pos (digits2_pos p) ≤ 24.
Proof.
  intros Hp. change (Z.pos (digits2_pos p)) with (Zdigits2 (Z.pos p)).
  rewrite Zdigits2_log2 by lia.
  assert (Z.log2 (Z.pos p) < 24); [|lia].
  apply Z.log2_lt_pow2; [lia|]. exact Hp.
Qed.

(** The cast of an [unsigned int] below 2^24 to [float] is exact. *)
Lemma f_of_uint_exact (n : N) :
  (n < 16777216)%N → holds_integer (f_of_uint n) n.
Proof.
  intros Hn. destruct n as [|p]; [reflexivity|].
  change (f_of_uint (N.pos p)) with (binary_round prec emax false p 0).
  destruct (binary_round_integer p) as (m & e & -> & He & Hm).
  { apply digits_below_2_24. lia. }
  simpl. split; [done|]. exact Hm.
Qed.

(** A float holds at most one integer. *)
Lemma holds_integer_inj (x : spec_float) (n n' : N) :
  holds_integer x n → holds_integer x n' → n = n'.
Proof.
  destruct x as [[|]| | |[|] m e]; simpl; try done; try congruence.
  intros [He Hm] [_ Hm']. rewrite Hm in Hm'.
  assert (0 < 2 ^ (- e)) by (apply Z.pow_pos_nonneg; lia). nia.
Qed.

(** X21: in binary32 the bone ids are stored without loss: for a bone id
    below 2^24, the float that the builder writes in the id slot of the row
    has exactly the value of the id, so that different ids are never stored
    as the same float. *)
Theorem bone_ids_stored_exactly (sk : Skin (F:=spec_float)) (vId j boneId : uint) :
  (maxNumVertexBones sk ≤ MAX_NUM_BONES_PER_VERTEX)%N →
  (numVertices sk * 16 < UINT_RANGE)%N →
  (vId < numVertices sk)%N →
  (j < 4)%N →
  vertexBoneId sk vId j = Some boneId →
  (boneId < 16777216)%N →
  ∃ vb x,
    boneVertexBuffer sk = Some vb ∧
    data vb !! N.to_nat (vId * 16 + j) = Some x ∧
    holds_integer x boneId ∧
    ∀ n, holds_integer x n → n = boneId.
Proof.
  intros Hmax Hsize Hv Hj Hid Hbound.
  destruct (boneVertexBuffer_spec sk Hmax Hsize) as (vb & Hvb & _ & _ & _ & Hslots).
  exists vb, (f_of_uint boneId). split; [done|]. split.
  - rewrite Hslots by lia. unfold packed_slot_built.
    rewrite decide_True by done. by rewrite Hid.
  - pose proof (f_of_uint_exact boneId Hbound) as Hexact. split; [done|].
    intros n Hn. by apply (holds_integer_inj (f_of_uint boneId)).
Qed.

End Binary32Cast.

(** ** Instances on the concrete scenes *)

Section FurtherWitnesses.

#[local] Existing Instance Z_FloatOps.

Lemma initialize_rejects_null_witness :
  initialize Scenes.null_world = Throws (invalid_argument "skin") Scenes.null_world ∧
  initialize Scenes.world_without_context =
    Throws (invalid_argument "context") Scenes.world_without_context.
Proof.
  split.
  - exact (initialize_rejects_null Scenes.null_world (or_introl eq_refl)).
  - exact (initialize_rejects_null Scenes.world_without_context (or_intror eq_refl)).
Defined.

Lemma initialize_establishes_witness :
  ∃ w',
    initialize (Example.world Example.skin HARDWARE Example.mesh) = Returns () w' ∧
    _targetAddedSlot (this w') = true ∧ _targetRemovedSlot (this w') = true ∧
    (_method (this w') = SOFTWARE →
       _boneVertexBuffer (this w') = None ∧
       buffers w' = buffers (Example.world Example.skin HARDWARE Example.mesh)) ∧
    (_method (this w') ≠ SOFTWARE →
       _method (this w') = _method (this (Example.world Example.skin HARDWARE Example.mesh)) ∧
       ∃ r vb, _boneVertexBuffer (this w') = Some r ∧
               boneVertexBuffer Example.skin = Some vb ∧
               buffers (Example.world Example.skin HARDWARE Example.mesh) !! r = None ∧
               buffers w' =
                 <[r := vb]> (buffers (Example.world Example.skin HARDWARE Example.mesh))) ∧
    _skin (this w') = Some Example.skin ∧
    _targetGeometry (this w') =
      _targetGeometry (this (Example.world Example.skin HARDWARE Example.mesh)) ∧
    _targetStartTime (this w') =
      _targetStartTime (this (Example.world Example.skin HARDWARE Example.mesh)) ∧
    _targetInputPositions (this w') =
      _targetInputPositions (this (Example.world Example.skin HARDWARE Example.mesh)) ∧
    _targetInputNormals (this w') =
      _targetInputNormals (this (Example.world Example.skin HARDWARE Example.mesh)) ∧
    _frameBeginSlot (this w') =
      _frameBeginSlot (this (Example.world Example.skin HARDWARE Example.mesh)) ∧
    geometries w' = geometries (Example.world Example.skin HARDWARE Example.mesh).
Proof.
  apply (initialize_establishes (Example.world Example.skin HARDWARE Example.mesh)
           Example.skin Example.context);
    [reflexivity|reflexivity|vm_compute; reflexivity].
Defined.

Lemma bone_buffer_rows_witness :
  ∃ vb,
    boneVertexBuffer Example.skin = Some vb ∧
    vertexSize vb = 16 ∧
    N.of_nat (length (data vb)) = numVertices Example.skin * 16 ∧
    attributes vb = [(ATTRNAME_BONE_IDS_A, 4, 0); (ATTRNAME_BONE_IDS_B, 4, 4);
                     (ATTRNAME_BONE_WEIGHTS_A, 4, 8); (ATTRNAME_BONE_WEIGHTS_B, 4, 12)] ∧
    ∀ vId j, vId < numVertices Example.skin → j < 4 →
      data vb !! N.to_nat (vId * 16 + j) =
        Some (match vertexBoneId Example.skin vId j with
              | Some boneId => f_of_uint boneId | None => fzero end) ∧
      data vb !! N.to_nat (vId * 16 + 4 + j) = Some fzero ∧
      data vb !! N.to_nat (vId * 16 + 8 + j) =
        Some (match vertexBoneWeight Example.skin vId j with
              | Some boneWeight => boneWeight | None => fzero end) ∧
      data vb !! N.to_nat (vId * 16 + 12 + j) = Some fzero.
Proof.
  apply (bone_buffer_rows Example.skin); [vm_compute; discriminate|vm_compute; reflexivity].
Defined.

Lemma bone_buffer_documented_layout_witness :
  ∃ vb,
    boneVertexBuffer Example.skin = Some vb ∧
    ∀ vId slot, vId < numVertices Example.skin → slot < 16 →
      data vb !! N.to_nat (vId * 16 + slot) = Some (packed_slot Example.skin vId slot).
Proof.
  apply (bone_buffer_documented_layout Example.skin);
    [vm_compute; discriminate|vm_compute; reflexivity].
Defined.

Lemma bone_buffer_index_reaches_end_witness :
  ∃ index vertexData,
    for_range 0 (N.to_nat (numVertices Example.skin)) (packVertex Example.skin 16)
      (0, replicate (N.to_nat (uint_mul (numVertices Example.skin) 16)) fzero)
      = Some (index, vertexData) ∧
    index = N.of_nat (length vertexData).
Proof.
  apply (bone_buffer_index_reaches_end Example.skin). vm_compute. reflexivity.
Defined.

Lemma attach_snapshots_live_buffers_witness :
  ∃ w1,
    addedHandler Example.scene 42 Example.node Example.node Example.parent
      Scenes.initialized_world = Returns () w1 ∧
    _targetGeometry (this w1) !! Example.node = Some Example.geometry_ref ∧
    _targetStartTime (this w1) !! Example.node = Some 42%Z ∧
    _targetInputPositions (this w1) !! Example.node = Some (data Example.mesh) ∧
    _targetInputNormals (this w1) !! Example.node =
      match normal_snapshot Scenes.initialized_world Example.skin Scenes.plain_geometry with
      | Some d => Some d
      | None => _targetInputNormals (this Scenes.initialized_world) !! Example.node
      end ∧
    (∀ n, n ≠ Example.node → same_entries n (this Scenes.initialized_world) (this w1)) ∧
    buffers w1 = buffers Scenes.initialized_world.
Proof.
  apply (attach_snapshots_live_buffers Example.scene 42 Example.node Example.node
           Example.parent Scenes.initialized_world Example.skin Example.geometry_ref
           Scenes.plain_geometry Example.mesh_ref Example.mesh).
  - vm_compute. reflexivity.
  - vm_compute. lia.
  - intros Hmethod. exfalso. apply Hmethod. vm_compute. reflexivity.
  - reflexivity.
  - reflexivity.
  - vm_compute. reflexivity.
  - vm_compute. reflexivity.
  - vm_compute. reflexivity.
  - vm_compute. reflexivity.
Defined.

Lemma addedHandler_incompatible_witness :
  ∃ b, addedHandler Example.scene 42 Example.parent Example.parent Example.scene_root
         Scenes.initialized_world =
       Returns () (with_frameBeginSlot b Scenes.initialized_world).
Proof.
  apply (addedHandler_incompatible Example.scene 42 Example.parent Example.parent
           Example.scene_root Scenes.initialized_world Example.skin).
  - vm_compute. reflexivity.
  - vm_compute. lia.
  - right. left. reflexivity.
Defined.

Lemma removedHandler_untracked_witness :
  ∃ b, removedHandler Example.scene Example.node Example.node Example.parent
         Scenes.initialized_world =
       Returns () (with_frameBeginSlot b Scenes.initialized_world).
Proof.
  apply (removedHandler_untracked Example.scene Example.node Example.node Example.parent
           Scenes.initialized_world).
  - vm_compute. lia.
  - repeat split.
Defined.

Lemma detach_erases_only_target_witness :
  ∃ w2,
    removedHandler Example.scene Example.node Example.node Example.parent
      Example.attached_world = Returns () w2 ∧
    untracked Example.node (this w2) ∧
    (∀ n, n ≠ Example.node → same_entries n (this Example.attached_world) (this w2)) ∧
    buffers w2 = buffers Example.attached_world ∧
    (∀ g, _targetGeometry (this Example.attached_world) !! Example.node ≠ Some g →
          geometries w2 !! g = geometries Example.attached_world !! g).
Proof.
  apply (detach_erases_only_target Example.scene Example.node Example.node Example.parent
           Example.attached_world).
  - vm_compute. lia.
  - intros g _ Hmethod. exfalso. apply Hmethod. vm_compute. reflexivity.
Defined.

Lemma hardware_update_binds_frame_witness :
  ∃ w' geometry',
    updateFrame Example.node 0 Scenes.hardware_attached_world = Returns () w' ∧
    this w' = this Scenes.hardware_attached_world ∧
    buffers w' = buffers Scenes.hardware_attached_world ∧
    geometries w' =
      <[Example.geometry_ref := geometry']> (geometries Scenes.hardware_attached_world) ∧
    vertexBuffers geometry' = vertexBuffers Scenes.hardware_geometry ∧
    gdata geometry' !! PNAME_NUM_BONES = Some (PInt (to_int (numBones Example.skin))) ∧
    gdata geometry' !! PNAME_BONE_MATRICES =
      Some (PUniformArray (numBones Example.skin) (Some 0)) ∧
    ∀ name, name ≠ PNAME_NUM_BONES → name ≠ PNAME_BONE_MATRICES →
            gdata geometry' !! name = gdata Scenes.hardware_geometry !! name.
Proof.
  apply (hardware_update_binds_frame Scenes.hardware_attached_world Example.skin
           Example.node 0 Example.frame0 Example.geometry_ref Scenes.hardware_geometry
           0 None).
  - vm_compute. reflexivity.
  - vm_compute. reflexivity.
  - vm_compute. reflexivity.
  - reflexivity.
  - discriminate.
  - vm_compute. reflexivity.
  - vm_compute. reflexivity.
Defined.

Lemma hardware_attach_then_tick_witness :
  ∃ w1 w2 geometry2,
    addedHandler Example.scene 42 Example.node Example.node Example.parent
      Example.hardware_world = Returns () w1 ∧
    frameBeginHandler Example.scene 43%Z w1 = Returns () w2 ∧
    geometries w2 !! Example.geometry_ref = Some geometry2 ∧
    vertexBuffers geometry2 =
      vertexBuffers Scenes.plain_geometry ++ [Scenes.bone_buffer_ref] ∧
    gdata geometry2 !! PNAME_NUM_BONES = Some (PInt (to_int (numBones Example.skin))) ∧
    gdata geometry2 !! PNAME_BONE_MATRICES =
      Some (PUniformArray (numBones Example.skin)
              (Some (getFrameId Example.skin (fsub 43%Z (f_of_clock 42%Z))))) ∧
    buffers w2 = buffers Example.hardware_world.
Proof.
  apply (hardware_attach_then_tick Example.scene 42 43%Z Example.node Example.node
           Example.parent Example.hardware_world Example.skin Example.geometry_ref
           Scenes.plain_geometry Example.mesh_ref Example.mesh Scenes.bone_buffer_ref
           Example.frame0).
  - vm_compute. reflexivity.
  - vm_compute. reflexivity.
  - vm_compute. reflexivity.
  - reflexivity.
  - reflexivity.
  - reflexivity.
  - vm_compute. reflexivity.
  - vm_compute. reflexivity.
  - vm_compute. reflexivity.
  - vm_compute. reflexivity.
  - reflexivity.
  - discriminate.
Defined.

Lemma reattach_snapshots_skinned_positions_witness :
  ∃ w1 w2 vb',
    updateFrame Example.node 0 Example.attached_world = Returns () w1 ∧
    buffers w1 !! Example.mesh_ref = Some vb' ∧
    (∀ vId c, vId < N.of_nat (length (data Example.mesh)) / vertexSize Example.mesh →
       c < 3 →
       data vb' !! N.to_nat (attr_offset Example.position_attribute
                             + vId * vertexSize Example.mesh + c) =
         Some (skinned Example.skin Example.frame0 (data Example.mesh) false
                 (vertexSize Example.mesh) (attr_offset Example.position_attribute)
                 vId c)) ∧
    addedHandler Example.scene 50 Example.node Example.node Example.parent w1
      = Returns () w2 ∧
    _targetInputPositions (this w2) !! Example.node = Some (data vb') ∧
    _targetStartTime (this w2) !! Example.node = Some 50%Z.
Proof.
  apply (reattach_snapshots_skinned_positions Example.scene 50 Example.node Example.node
           Example.parent Example.attached_world Example.skin 0 Example.frame0
           Example.mesh_ref Example.mesh Example.position_attribute (data Example.mesh)
           Example.geometry_ref).
  - vm_compute. reflexivity.
  - vm_compute. reflexivity.
  - reflexivity.
  - exact example_software_ready.
  - vm_compute. lia.
  - reflexivity.
  - reflexivity.
  - vm_compute. reflexivity.
  - vm_compute. reflexivity.
Defined.

Lemma detach_of_other_target_keeps_node_witness :
  ∃ w1 w2,
    addedHandler Example.scene 42 Example.node Example.parent Example.scene_root
      Scenes.initialized_world = Returns () w1 ∧
    removedHandler Example.scene Example.node Example.parent Example.scene_root w1
      = Returns () w2 ∧
    _targetGeometry (this w2) !! Example.node = Some Example.geometry_ref ∧
    _targetStartTime (this w2) !! Example.node = Some 42%Z ∧
    _targetInputPositions (this w2) !! Example.node = Some (data Example.mesh).
Proof.
  apply (detach_of_other_target_keeps_node Example.scene Example.scene 42 Example.node
           Example.parent Example.scene_root Example.scene_root Scenes.initialized_world
           Example.skin Example.geometry_ref Scenes.plain_geometry Example.mesh_ref
           Example.mesh).
  - vm_compute. reflexivity.
  - vm_compute. lia.
  - vm_compute. lia.
  - intros Hmethod. exfalso. apply Hmethod. vm_compute. reflexivity.
  - reflexivity.
  - reflexivity.
  - vm_compute. reflexivity.
  - vm_compute. reflexivity.
  - vm_compute. reflexivity.
  - vm_compute. reflexivity.
  - discriminate.
  - intros g' Hg'. vm_compute in Hg'. discriminate.
Defined.

Lemma software_update_blends_normals_witness :
  ∃ w' vb',
    updateFrame Example.node 0 Example.attached_world = Returns () w' ∧
    buffers w' !! Example.mesh_ref = Some vb' ∧
    length (data vb') = length (data Example.mesh) ∧
    ∀ vId c, vId < N.of_nat (length (data Example.mesh)) / vertexSize Example.mesh →
      c < 3 →
      data vb' !! N.to_nat (attr_offset Example.normal_attribute
                            + vId * vertexSize Example.mesh + c) =
        Some (skinned Example.skin Example.frame0 (data Example.mesh) true
                (vertexSize Example.mesh) (attr_offset Example.normal_attribute) vId c).
Proof.
  apply (software_update_blends_normals Example.attached_world Example.skin
           Example.node 0 Example.frame0 Example.mesh_ref Example.mesh
           Example.position_attribute (data Example.mesh)
           Example.geometry_ref Scenes.plain_geometry Example.mesh_ref Example.mesh
           Example.normal_attribute (data Example.mesh)).
  - vm_compute. reflexivity.
  - vm_compute. discriminate.
  - reflexivity.
  - reflexivity.
  - exact example_software_ready.
  - vm_compute. reflexivity.
  - vm_compute. reflexivity.
  - vm_compute. reflexivity.
  - vm_compute. reflexivity.
  - vm_compute. reflexivity.
  - vm_compute. reflexivity.
Defined.

Lemma software_update_writes_only_skinned_slots_witness :
  ∃ w',
    updateFrame Example.node 0 Example.attached_world = Returns () w' ∧
    this w' = this Example.attached_world ∧
    geometries w' = geometries Example.attached_world ∧
    dom (buffers w') = dom (buffers Example.attached_world) ∧
    ∀ r0 vb0, buffers Example.attached_world !! r0 = Some vb0 →
      ∃ vb1, buffers w' !! r0 = Some vb1 ∧
        attributes vb1 = attributes vb0 ∧
        vertexSize vb1 = vertexSize vb0 ∧
        length (data vb1) = length (data vb0) ∧
        ∀ i, (∀ a, a ∈ attributes vb0 →
                   attr_name a = ATTRNAME_POSITION ∨ attr_name a = ATTRNAME_NORMAL →
                   ¬ written_slot a vb0 i) →
             data vb1 !! N.to_nat i = data vb0 !! N.to_nat i.
Proof.
  apply (software_update_writes_only_skinned_slots Example.attached_world Example.skin
           Example.node 0 Example.frame0 Example.mesh_ref Example.mesh
           Example.position_attribute (data Example.mesh)).
  - vm_compute. reflexivity.
  - vm_compute. discriminate.
  - reflexivity.
  - reflexivity.
  - exact example_software_ready.
Defined.

Lemma scenes_bones_in_range0 : bones_in_range Scenes.skin2 Example.frame0.
Proof.
  split; [vm_compute; discriminate|].
  repeat constructor; vm_compute; discriminate.
Defined.

Lemma scenes_bones_in_range1 : bones_in_range Scenes.skin2 Scenes.frame1.
Proof.
  split; [vm_compute; discriminate|].
  repeat constructor; vm_compute; discriminate.
Defined.

Lemma scenes_software_ready :
  software_ready Scenes.attached_world2 Scenes.skin2 Example.node Example.frame0
    Example.mesh_ref Example.mesh Example.position_attribute (data Example.mesh).
Proof.
  exists Example.geometry_ref, Scenes.plain_geometry.
  split; [vm_compute; reflexivity|]. split; [vm_compute; reflexivity|].
  split; [vm_compute; reflexivity|]. split; [vm_compute; reflexivity|].
  split; [vm_compute; reflexivity|]. split; [exact example_attribute_in_stride|].
  split; [vm_compute; reflexivity|]. split; [reflexivity|].
  split; [exact scenes_bones_in_range0|].
  intros inputNormals rn Hin Hrn. vm_compute in Hin, Hrn.
  injection Hin as <-. injection Hrn as <-.
  exists Example.mesh, Example.normal_attribute.
  split; [vm_compute; reflexivity|]. split; [vm_compute; reflexivity|].
  split; [exact example_normal_in_stride|]. split; [reflexivity|].
  intros _. left. vm_compute. discriminate.
Defined.

Lemma software_update_forgets_earlier_frame_witness :
  ∃ w1 w2,
    updateFrame Example.node 0 Scenes.attached_world2 = Returns () w1 ∧
    updateFrame Example.node 1 w1 = Returns () w2 ∧
    updateFrame Example.node 1 Scenes.attached_world2 = Returns () w2.
Proof.
  apply (software_update_forgets_earlier_frame Scenes.attached_world2 Scenes.skin2
           Example.node 0 1 Example.frame0 Scenes.frame1 Example.mesh_ref Example.mesh
           Example.position_attribute (data Example.mesh)).
  - vm_compute. reflexivity.
  - vm_compute. discriminate.
  - reflexivity.
  - reflexivity.
  - reflexivity.
  - reflexivity.
  - exact scenes_software_ready.
  - exact scenes_bones_in_range1.
Defined.

Lemma tick_without_registered_targets_witness :
  ∃ w',
    frameBeginHandler Example.scene 43%Z Scenes.initialized_world = Returns () w' ∧
    geometries w' = geometries Scenes.initialized_world ∧
    buffers w' = buffers Scenes.initialized_world ∧
    this w' = set_targetStartTime (_targetStartTime (this w')) (this Scenes.initialized_world) ∧
    ∀ n, _targetStartTime (this w') !! n =
      match _targetStartTime (this Scenes.initialized_world) !! n with
      | Some t => Some t
      | None => if decide (n ∈ targets Example.scene) then Some 0%Z else None
      end.
Proof.
  apply (tick_without_registered_targets Example.scene 43%Z Scenes.initialized_world
           Example.skin).
  - vm_compute. reflexivity.
  - intros t _. vm_compute. reflexivity.
Defined.

Lemma attach_then_tick_blends_bind_pose_witness :
  ∃ w1 w2 vb',
    addedHandler Example.scene 42 Example.node Example.node Example.parent
      Scenes.initialized_world2 = Returns () w1 ∧
    frameBeginHandler Example.scene 43%Z w1 = Returns () w2 ∧
    buffers w2 !! Example.mesh_ref = Some vb' ∧
    length (data vb') = length (data Example.mesh) ∧
    ∀ vId c, vId < numVertices Scenes.skin2 → c < 3 →
      data vb' !! N.to_nat (attr_offset Example.position_attribute
                            + vId * vertexSize Example.mesh + c) =
        Some (skinned Scenes.skin2 Scenes.frame1 (data Example.mesh) false
                (vertexSize Example.mesh) (attr_offset Example.position_attribute) vId c).
Proof.
  apply (attach_then_tick_blends_bind_pose Example.scene 42 43%Z Example.node
           Example.node Example.parent Scenes.initialized_world2 Scenes.skin2
           Example.geometry_ref Scenes.plain_geometry Example.mesh_ref Example.mesh
           Example.position_attribute Scenes.frame1).
  - vm_compute. reflexivity.
  - vm_compute. reflexivity.
  - repeat split.
  - reflexivity.
  - reflexivity.
  - reflexivity.
  - vm_compute. reflexivity.
  - vm_compute. reflexivity.
  - vm_compute. reflexivity.
  - vm_compute. reflexivity.
  - vm_compute. reflexivity.
  - exact example_attribute_in_stride.
  - intros rn nb nattr Hrn Hnb Hnattr. vm_compute in Hrn. injection Hrn as <-.
    vm_compute in Hnb. injection Hnb as <-. vm_compute in Hnattr. injection Hnattr as <-.
    split; [exact example_normal_in_stride|]. intros _. left. vm_compute. discriminate.
  - reflexivity.
  - exact scenes_bones_in_range1.
Defined.

Lemma software_pass_reads_affine_part_witness :
  performSoftwareSkinningAttr Example.skin Example.position_attribute Example.mesh
    (data Example.mesh) Example.frame0 false =
  performSoftwareSkinningAttr Example.skin Example.position_attribute Example.mesh
    (data Example.mesh) Scenes.frame0_projective false.
Proof.
  apply (software_pass_reads_affine_part Example.skin Example.position_attribute
           Example.mesh (data Example.mesh) Example.frame0 Scenes.frame0_projective false).
  intros p Hp _. unfold vec_get.
  destruct (decide (p < 32)) as [Hlt|Hge].
  - assert (Hcases : (N.to_nat p < 12 ∨ 16 ≤ N.to_nat p < 28)%nat).
    { assert (p < 16 ∨ 16 ≤ p) as [?|?] by lia.
      - rewrite N.mod_small in Hp by done. lia.
      - replace p with ((p - 16) + 1 * 16) in Hp by lia.
        rewrite N.Div0.mod_add, N.mod_small in Hp by lia. lia. }
    generalize dependent (N.to_nat p). intros n Hcases.
    do 28 (destruct n as [|n]; [first [reflexivity|lia]|]). lia.
  - rewrite !lookup_ge_None_2; [done|simpl; lia|simpl; lia].
Defined.

Lemma software_pass_undefined_for_missing_bone_witness :
  performSoftwareSkinningAttr Scenes.skin_with_missing_bone Example.position_attribute
    Example.mesh (data Example.mesh) Example.frame0 false = None.
Proof.
  apply (software_pass_undefined_for_missing_bone Scenes.skin_with_missing_bone
           Example.position_attribute Example.mesh (data Example.mesh) Example.frame0
           false 0 0 5 1%Z).
  - reflexivity.
  - reflexivity.
  - reflexivity.
  - vm_compute. discriminate.
Defined.

End FurtherWitnesses.

Section FurtherWitnesses32.

Import Floats.SpecFloat.

#[local] Existing Instance Binary32.ops.

(** Above 2^24 the cast rounds: 2^24 + 1 becomes 2^24. *)
Example bone_id_rounded : f_of_uint 16777217%N = f_of_uint 16777216%N.
Proof. vm_compute. reflexivity. Qed.

Lemma bone_ids_stored_exactly_witness :
  ∃ vb x,
    boneVertexBuffer Example32.three_bone_skin = Some vb ∧
    data vb !! N.to_nat (0 * 16 + 1)%N = Some x ∧
    holds_integer x 5%N ∧
    ∀ n, holds_integer x n → n = 5%N.
Proof.
  apply (bone_ids_stored_exactly Example32.three_bone_skin 0%N 1%N 5%N).
  - vm_compute. discriminate.
  - vm_compute. reflexivity.
  - reflexivity.
  - reflexivity.
  - reflexivity.
  - reflexivity.
Defined.

End FurtherWitnesses32.
